(** * IR generator: validators, profile store and dialogue controller

    A shallow embedding of the Python sources
    [config.py], [services/registration_service.py],
    [services/response_service.py], [handlers/command_handler.py],
    [handlers/message_handler.py] and [handlers/callback_handler.py],
    followed by the properties of the specification that were checked
    against it.

    Text is modelled by [string] and stands for Python [str] values whose
    code points are below 128 (ASCII text, [isascii]).  On that range the
    character classes below are those of CPython ([str.isspace], [\s],
    [\d], [str.upper]).  Outside it CPython knows more characters than
    [string] can hold: [\d] and [int] also take the other decimal digits
    of Unicode, [\s] and [str.strip] its other white space, [str.upper]
    its other letters.  What is proved about the accepted inputs of a
    validator that matches [\d] is therefore stated for ASCII input.  The
    characters 128..255 of [ascii] are inert: neither space, digit nor
    letter.  They occur in the fixed message texts only, which hold the
    UTF-8 bytes of the symbols of the source. *)

From Stdlib Require Import Ascii String Arith Bool Lia.
From stdpp Require Import base option list gmap strings.


(** ** Python built-ins used by the sources *)

Module Py.

Definition code (c : ascii) : nat := nat_of_ascii c.

Definition between (lo hi : nat) (c : ascii) : bool :=
  (lo <=? code c) && (code c <=? hi).

(** [str.isspace] and the regex class [\s] on one character:
    TAB LF VT FF CR, the separators FS GS RS US, and SPACE. *)
Definition is_space (c : ascii) : bool :=
  between 9 13 c || between 28 31 c || (code c =? 32).

(** The regex class [\d]. *)
Definition is_digit (c : ascii) : bool := between 48 57 c.

Definition is_upper (c : ascii) : bool := between 65 90 c.
Definition is_lower (c : ascii) : bool := between 97 122 c.
Definition is_alpha (c : ascii) : bool := is_upper c || is_lower c.

Definition upper_char (c : ascii) : ascii :=
  if is_lower c then ascii_of_nat (code c - 32) else c.

(** [s.upper()] *)
Fixpoint upper (s : string) : string :=
  match s with
  | EmptyString => EmptyString
  | String c s' => String (upper_char c) (upper s')
  end.

Fixpoint all_chars (p : ascii -> bool) (s : string) : bool :=
  match s with
  | EmptyString => true
  | String c s' => p c && all_chars p s'
  end.

Fixpoint filter_chars (p : ascii -> bool) (s : string) : string :=
  match s with
  | EmptyString => EmptyString
  | String c s' => if p c then String c (filter_chars p s') else filter_chars p s'
  end.

Fixpoint lstrip (s : string) : string :=
  match s with
  | EmptyString => EmptyString
  | String c s' => if is_space c then lstrip s' else s
  end.

Fixpoint rstrip (s : string) : string :=
  match s with
  | EmptyString => EmptyString
  | String c s' =>
      match rstrip s' with
      | EmptyString => if is_space c then EmptyString else String c EmptyString
      | r => String c r
      end
  end.

(** [s.strip()] *)
Definition strip (s : string) : string := rstrip (lstrip s).

(** Truth value of a [str]: [if not s] holds of the empty string only. *)
Definition truthy (s : string) : bool :=
  match s with EmptyString => false | _ => true end.

(** Truth value of an [Optional[str]] as tested by [all([...])]. *)
Definition truthy_opt (o : option string) : bool :=
  match o with Some s => truthy s | None => false end.

(** [s.split()] : maximal runs of non-space characters. *)
Fixpoint split_go (cur : option string) (s : string) : list string :=
  match s with
  | EmptyString =>
      match cur with Some w => [w] | None => [] end
  | String c s' =>
      if is_space c then
        match cur with
        | Some w => w :: split_go None s'
        | None => split_go None s'
        end
      else
        match cur with
        | Some w => split_go (Some (w +:+ String c EmptyString)) s'
        | None => split_go (Some (String c EmptyString)) s'
        end
  end.

Definition split (s : string) : list string := split_go None s.

(** [s.split(sep)] for a one-character separator: never empty, and
    adjacent separators give empty components. *)
Fixpoint split_on (sep : ascii) (s : string) : list string :=
  match s with
  | EmptyString => [EmptyString]
  | String c s' =>
      if Ascii.eqb c sep then EmptyString :: split_on sep s'
      else
        match split_on sep s' with
        | w :: ws => String c w :: ws
        | [] => [String c EmptyString]
        end
  end.

(** [s[:n]] and [s[n:]] *)
Fixpoint slice_to (n : nat) (s : string) : string :=
  match n, s with
  | S k, String c s' => String c (slice_to k s')
  | _, _ => EmptyString
  end.

Fixpoint slice_from (n : nat) (s : string) : string :=
  match n, s with
  | S k, String _ s' => slice_from k s'
  | _, _ => s
  end.

(** [s.startswith(p)] *)
Definition startswith (s p : string) : bool := String.prefix p s.

(** [p in s] *)
Fixpoint contains (p s : string) : bool :=
  String.prefix p s ||
  match s with
  | EmptyString => false
  | String _ s' => contains p s'
  end.

(** [s.replace(old, new)] for a non-empty [old]: left to right, without
    overlap.  [skip] counts the characters of a match still to drop. *)
Fixpoint replace_go (old new : string) (skip : nat) (s : string) : string :=
  match s with
  | EmptyString => EmptyString
  | String c s' =>
      match skip with
      | S k => replace_go old new k s'
      | O =>
          if String.prefix old s
          then new +:+ replace_go old new (String.length old - 1) s'
          else String c (replace_go old new 0 s')
      end
  end.

Definition replace (s old new : string) : string := replace_go old new 0 s.

(** [int(s)] as the sources call it, on a string of ASCII digits; [None]
    stands for the [ValueError] of a string that is empty or holds
    another character (the signs, blanks and underscores that [int] also
    reads do not get past the patterns checked before the call). *)
Fixpoint int_go (acc : nat) (s : string) : option nat :=
  match s with
  | EmptyString => Some acc
  | String c s' =>
      if is_digit c then int_go (10 * acc + (code c - 48)) s' else None
  end.

Definition int (s : string) : option nat :=
  match s with
  | EmptyString => None
  | _ => int_go 0 s
  end.

(** [sep.join(l)] *)
Definition join (sep : string) (l : list string) : string := String.concat sep l.

(** [str(x)] of an [Optional[str]] inside an f-string or [str.format]. *)
Definition fmt (o : option string) : string :=
  match o with Some s => s | None => "None" end.

End Py.

(** ** Regular expressions ([re.match], [re.sub])

    Only what the patterns of the sources need: character classes,
    sequence, alternative and repetition.  Matching is by derivatives. *)

Module Re.

Inductive regex : Type :=
| Void
| Eps
| Class (p : ascii -> bool)
| Seq (r1 r2 : regex)
| Alt (r1 r2 : regex)
| Star (r : regex).

Fixpoint nullable (r : regex) : bool :=
  match r with
  | Void => false
  | Eps => true
  | Class _ => false
  | Seq r1 r2 => nullable r1 && nullable r2
  | Alt r1 r2 => nullable r1 || nullable r2
  | Star _ => true
  end.

Fixpoint deriv (c : ascii) (r : regex) : regex :=
  match r with
  | Void => Void
  | Eps => Void
  | Class p => if p c then Eps else Void
  | Seq r1 r2 =>
      if nullable r1
      then Alt (Seq (deriv c r1) r2) (deriv c r2)
      else Seq (deriv c r1) r2
  | Alt r1 r2 => Alt (deriv c r1) (deriv c r2)
  | Star r1 => Seq (deriv c r1) (Star r1)
  end.

(** Does [r] match the whole of [s]? *)
Fixpoint fullmatch (r : regex) (s : string) : bool :=
  match s with
  | EmptyString => nullable r
  | String c s' => fullmatch (deriv c r) s'
  end.

Definition lit (c : ascii) : regex := Class (Ascii.eqb c).
Definition opt (r : regex) : regex := Alt r Eps.
Definition plus (r : regex) : regex := Seq r (Star r).

Fixpoint times (n : nat) (r : regex) : regex :=
  match n with
  | O => Eps
  | S k => Seq r (times k r)
  end.

Fixpoint word (s : string) : regex :=
  match s with
  | EmptyString => Eps
  | String c s' => Seq (lit c) (word s')
  end.

(** A final [$] (no MULTILINE flag): the end of the string, or the
    position just before a line feed that ends the string. *)
Definition dollar : regex := opt (lit "010"%char).

(** [re.match(p, s)] as a truth value, for a pattern [p] of the shape
    [^ body $]: [re.match] anchors at the start, [$] at the end. *)
Definition match_ (body : regex) (s : string) : bool :=
  fullmatch (Seq body dollar) s.

(** [re.sub(p, '', s)] for a pattern [p] that is one character class. *)
Definition sub_class (cls : ascii -> bool) (s : string) : string :=
  Py.filter_chars (fun c => negb (cls c)) s.

End Re.

(** ** config.py *)

Definition VALID_RANKS : list string :=
  [ "REC"; "PTE"; "LCP"; "CPL"; "CFC"; "3SG"; "2SG"; "1SG"; "SSG"; "MSG";
    "3WO"; "2WO"; "1WO"; "SWO"; "CWO"; "OCT"; "2LT"; "LTA"; "CPT"; "MAJ";
    "LTC"; "SLTC"; "COL"; "BG"; "MG"; "LG" ].

Inductive UserState : Type :=
| IDLE
| AWAITING_RANK | AWAITING_NAME | AWAITING_COMPANY | AWAITING_UNIT
| AWAITING_CONTACT
| AWAITING_IR_TYPE | AWAITING_NATURE_TYPE | AWAITING_DATE_TIME
| AWAITING_SERVICEMAN | AWAITING_LOCATION | AWAITING_INJURY
| AWAITING_DESCRIPTION | AWAITING_FOLLOWUP
| EDITING_RANK | EDITING_NAME | EDITING_COMPANY | EDITING_UNIT
| EDITING_CONTACT.

#[global] Instance UserState_eq_dec : EqDecision UserState.
Proof. solve_decision. Defined.

Definition IR_TYPES : list string :=
  [ "INITIAL"; "INITIAL & FINAL"; "UPDATE"; "UPDATE & FINAL" ].
Definition NATURE_TYPES : list string :=
  [ "NON-TRAINING RELATED"; "TRAINING RELATED" ].

(** [r'^[A-Z]\d{7}[A-Z]$'], on ASCII text, where [\d] is [0-9]. *)
Definition NRIC_PATTERN : Re.regex :=
  Re.Seq (Re.Class Py.is_upper)
    (Re.Seq (Re.times 7 (Re.Class Py.is_digit)) (Re.Class Py.is_upper)).

(** [r'^PES [A-F][1-9]$'] *)
Definition PES_PATTERN : Re.regex :=
  Re.Seq (Re.word "PES ")
    (Re.Seq (Re.Class (Py.between 65 70)) (Re.Class (Py.between 49 57))).

(** [r'^\d{6}$'], on ASCII text, where [\d] is [0-9]. *)
Definition DATE_PATTERN : Re.regex := Re.times 6 (Re.Class Py.is_digit).

(** [r'^\d{4}HRS?$'], on ASCII text, where [\d] is [0-9]: the
    quantifier [?] binds the final [S] only. *)
Definition TIME_PATTERN : Re.regex :=
  Re.Seq (Re.times 4 (Re.Class Py.is_digit))
    (Re.Seq (Re.word "HR") (Re.opt (Re.lit "S"%char))).

Definition MAX_IR_CONTENT_LENGTH : nat := 4000.

(** ** services/registration_service.py : the validators *)

Definition NL : string := String "010"%char EmptyString.

(** Membership of a character in an explicit set, for classes such as
    [[\-\'.]]. *)
Fixpoint one_of (chars : string) (c : ascii) : bool :=
  match chars with
  | EmptyString => false
  | String d chars' => Ascii.eqb c d || one_of chars' c
  end.

(** [[A-Za-z\s\-\'.]] *)
Definition name_class (c : ascii) : bool :=
  Py.is_alpha c || Py.is_space c || one_of "-'." c.

(** [[A-Za-z0-9\s\-\'.&()]] *)
Definition company_class (c : ascii) : bool :=
  Py.is_alpha c || Py.is_digit c || Py.is_space c || one_of "-'.&()" c.

(** [[A-Za-z0-9\s\-\'.&()/]] *)
Definition unit_class (c : ascii) : bool :=
  Py.is_alpha c || Py.is_digit c || Py.is_space c || one_of "-'.&()/" c.

(** [[\s\-\+\(\)]] *)
Definition separator_class (c : ascii) : bool :=
  Py.is_space c || one_of "-+()" c.

(** [r'^[89]\d{7}$'], on ASCII text, where [\d] is [0-9]. *)
Definition MOBILE_PATTERN : Re.regex :=
  Re.Seq (Re.Class (one_of "89")) (Re.times 7 (Re.Class Py.is_digit)).

Definition validate_rank (rank : string) : bool * string :=
  let rank := Py.upper (Py.strip rank) in
  if negb (Py.truthy rank) then (false, "Rank cannot be empty.")
  else if negb (bool_decide (rank ∈ VALID_RANKS)) then
    (false, "Invalid rank: " +:+ rank +:+ NL +:+ NL +:+ "Valid ranks: "
              +:+ Py.join ", " VALID_RANKS)
  else (true, "").

Definition validate_name (name : string) : bool * string :=
  let name := Py.strip name in
  if negb (Py.truthy name) then (false, "Name cannot be empty.")
  else if negb (Re.match_ (Re.plus (Re.Class name_class)) name) then
    (false, "Name can only contain letters, spaces, hyphens, and apostrophes.")
  else if String.length name <? 2 then
    (false, "Name must be at least 2 characters long.")
  else (true, "").

Definition validate_company (company : string) : bool * string :=
  let company := Py.strip company in
  if negb (Py.truthy company) then (false, "Company cannot be empty.")
  else if negb (Re.match_ (Re.plus (Re.Class company_class)) company) then
    (false, "Company can only contain letters, numbers, spaces, hyphens, apostrophes, periods, ampersands, and parentheses.")
  else if String.length company <? 1 then
    (false, "Company must be at least 1 character long.")
  else (true, "").

Definition validate_unit (unit : string) : bool * string :=
  let unit := Py.strip unit in
  if negb (Py.truthy unit) then (false, "Unit cannot be empty.")
  else if negb (Re.match_ (Re.plus (Re.Class unit_class)) unit) then
    (false, "Unit can only contain letters, numbers, spaces, hyphens, apostrophes, periods, ampersands, parentheses, and forward slashes.")
  else if String.length unit <? 1 then
    (false, "Unit must be at least 1 character long.")
  else (true, "").

(** The cleaning of a contact number, written out three times in the
    source ([validate_contact_number], [register_user] and
    [update_single_field]):
    [clean = re.sub(r'[\s\-\+\(\)]', '', contact)], then
    [if clean.startswith('65') and len(clean) == 10: clean = clean[2:]]. *)
Definition clean_contact_number (contact : string) : string :=
  let clean_contact := Re.sub_class separator_class contact in
  if Py.startswith clean_contact "65" && (String.length clean_contact =? 10)
  then Py.slice_from 2 clean_contact
  else clean_contact.

Definition validate_contact_number (contact : string) : bool * string :=
  let contact := Py.strip contact in
  if negb (Py.truthy contact) then (false, "Contact number cannot be empty.")
  else
    let clean_contact := clean_contact_number contact in
    if negb (Re.match_ MOBILE_PATTERN clean_contact) then
      (false, "Please provide a valid Singapore mobile number (8 digits starting with 8 or 9, e.g., 91234567).")
    else (true, "").

Definition validate_ir_content (content : string) : bool * string :=
  let content := Py.strip content in
  if negb (Py.truthy content) then (false, "IR content cannot be empty.")
  else if MAX_IR_CONTENT_LENGTH <? String.length content then
    (false, "IR content is too long. Please keep it under 4000 characters.")
  else (true, "").

(** [None] stands for an exception leaving the function ([int] raising
    [ValueError]); [validate_date_time_returns] shows there is none. *)
Definition validate_date_time (date_time_input : string)
  : option (bool * string * string * string) :=
  let date_time_input := Py.strip date_time_input in
  if negb (Py.truthy date_time_input) then
    Some (false, "", "", "Date and time cannot be empty.")
  else
    match Py.split date_time_input with
    | [p0; p1] =>
        let date_part := p0 in
        let time_part := Py.upper p1 in
        if negb (Re.match_ DATE_PATTERN date_part) then
          Some (false, "", "", "Date must be in DDMMYY format (e.g., 160625)")
        else if negb (Re.match_ TIME_PATTERN time_part) then
          Some (false, "", "", "Time must be in HHMMHRS format (e.g., 1730HRS)")
        else
          let time_nums := Py.slice_to 4 time_part in
          hours ← Py.int (Py.slice_to 2 time_nums);
          minutes ← Py.int (Py.slice_from 2 time_nums);
          if (23 <? hours) || (59 <? minutes) then
            Some (false, "", "", "Invalid time. Hours must be 00-23, minutes must be 00-59")
          else
            day ← Py.int (Py.slice_to 2 date_part);
            month ← Py.int (Py.slice_to 2 (Py.slice_from 2 date_part));
            if (day <? 1) || (31 <? day) || (month <? 1) || (12 <? month) then
              Some (false, "", "", "Invalid date. Please check day (01-31) and month (01-12)")
            else Some (true, date_part, time_nums, "")
    | _ =>
        Some (false, "", "", "Please provide date and time in format: DDMMYY HHMMHRS")
    end.

(** [None] stands for an exception leaving the function ([nric[0]] raising
    [IndexError]); [validate_serviceman_details_returns] shows there is
    none. *)
Definition validate_serviceman_details (details : string)
  : option (bool * string * string) :=
  let details := Py.strip details in
  if negb (Py.truthy details) then
    Some (false, "", "Serviceman details cannot be empty.")
  else
    match map Py.strip (Py.split_on "/"%char details) with
    | [nric; rank_name; four_d; nsf; pes] =>
        if negb (Re.match_ NRIC_PATTERN (Py.upper nric)) then
          Some (false, "", "NRIC must be in format: Letter + 7 digits + Letter (e.g., T0123456D)")
        else if negb (Re.match_ PES_PATTERN (Py.upper pes)) then
          Some (false, "", "PES must be in format: PES [A-F][1-4] (e.g., PES B1)")
        else if negb (Py.truthy rank_name) then
          Some (false, "", "Rank and name cannot be empty")
        else if negb (Py.truthy four_d) then
          Some (false, "", "4D number cannot be empty")
        else if negb (String.eqb (Py.upper nsf) "NSF") then
          Some (false, "", "Fourth field must be 'NSF'")
        else
          match nric with
          | String c0 rest =>
              let formatted_nric :=
                Py.upper (String c0 EmptyString) +:+ "/" +:+ Py.upper rest in
              let formatted_details :=
                formatted_nric +:+ "/" +:+ Py.upper rank_name +:+ "/"
                  +:+ Py.upper four_d +:+ "/" +:+ Py.upper nsf +:+ "/"
                  +:+ Py.upper pes in
              Some (true, formatted_details, "")
          | EmptyString => None
          end
    | _ =>
        Some (false, "", "Please provide all 5 components: NRIC/RANK NAME/4D/NSF/PES")
    end.

(** ** The user record and the profile store *)

(** The five particulars, the keys ['rank'], ['full_name'], ['company'],
    ['unit'] and ['contact_number'] of a profile. *)
Inductive Field : Type :=
| field_rank | field_full_name | field_company | field_unit
| field_contact_number.

#[global] Instance Field_eq_dec : EqDecision Field.
Proof. solve_decision. Defined.

(** One entry of [users_data]: the dictionary of [DEFAULT_USER_PROFILE]. *)
Record Profile : Type := mkProfile {
  p_rank : option string;
  p_full_name : option string;
  p_company : option string;
  p_unit : option string;
  p_contact_number : option string;
  p_registered : bool;
  p_state : UserState;
  p_temp_data : gmap string string
}.

Definition DEFAULT_USER_PROFILE : Profile :=
  mkProfile None None None None None false IDLE ∅.

Definition get_field (f : Field) (p : Profile) : option string :=
  match f with
  | field_rank => p_rank p
  | field_full_name => p_full_name p
  | field_company => p_company p
  | field_unit => p_unit p
  | field_contact_number => p_contact_number p
  end.

(** One [key: value] pair of an [updates] dictionary. *)
Inductive Assign : Type :=
| SetField (f : Field) (v : string)
| SetRegistered (b : bool)
| SetState (s : UserState)
| SetTempData (t : gmap string string).

Definition assign (p : Profile) (a : Assign) : Profile :=
  match a with
  | SetField field_rank v =>
      mkProfile (Some v) (p_full_name p) (p_company p) (p_unit p)
        (p_contact_number p) (p_registered p) (p_state p) (p_temp_data p)
  | SetField field_full_name v =>
      mkProfile (p_rank p) (Some v) (p_company p) (p_unit p)
        (p_contact_number p) (p_registered p) (p_state p) (p_temp_data p)
  | SetField field_company v =>
      mkProfile (p_rank p) (p_full_name p) (Some v) (p_unit p)
        (p_contact_number p) (p_registered p) (p_state p) (p_temp_data p)
  | SetField field_unit v =>
      mkProfile (p_rank p) (p_full_name p) (p_company p) (Some v)
        (p_contact_number p) (p_registered p) (p_state p) (p_temp_data p)
  | SetField field_contact_number v =>
      mkProfile (p_rank p) (p_full_name p) (p_company p) (p_unit p)
        (Some v) (p_registered p) (p_state p) (p_temp_data p)
  | SetRegistered b =>
      mkProfile (p_rank p) (p_full_name p) (p_company p) (p_unit p)
        (p_contact_number p) b (p_state p) (p_temp_data p)
  | SetState s =>
      mkProfile (p_rank p) (p_full_name p) (p_company p) (p_unit p)
        (p_contact_number p) (p_registered p) s (p_temp_data p)
  | SetTempData t =>
      mkProfile (p_rank p) (p_full_name p) (p_company p) (p_unit p)
        (p_contact_number p) (p_registered p) (p_state p) t
  end.

(** [profile.update(updates)] *)
Definition profile_update (p : Profile) (updates : list Assign) : Profile :=
  fold_left assign updates p.

(** The inline keyboards of [InlineKeyboardService]. *)
Inductive Keyboard : Type :=
| main_menu_keyboard | details_view_keyboard | ir_type_keyboard
| nature_type_keyboard.

(** What the controller hands to the chat transport. *)
Inductive Outbound : Type :=
| ReplyText (text : string) (reply_markup : option Keyboard)
| EditMessageText (text : string) (reply_markup : option Keyboard).

(** The [RegistrationService] object and its surroundings:
    - [users_data] is the in-memory dictionary every read goes to;
    - [disk_ok n] tells whether the [n]-th attempt to write the data file
      succeeds ([false]: [IOError], caught by [_save_users]);
    - [writes] counts the attempts made so far;
    - [sent] collects the messages handed to the transport, oldest first. *)
Record World : Type := mkWorld {
  users_data : gmap string Profile;
  disk_ok : nat -> bool;
  writes : nat;
  sent : list Outbound
}.

Definition set_users_data (d : gmap string Profile) (w : World) : World :=
  mkWorld d (disk_ok w) (writes w) (sent w).

(** ** A state monad over [World] *)

Definition M (A : Type) : Type := World -> A * World.

Definition ret {A} (a : A) : M A := fun w => (a, w).

Definition bind {A B} (m : M A) (k : A -> M B) : M B :=
  fun w => let (a, w') := m w in k a w'.

Declare Scope m_scope.
Delimit Scope m_scope with M.
Notation "'let*' x := m 'in' k" := (bind m (fun x => k))
  (at level 10, x name, m at level 100, k at level 200) : m_scope.
Notation "m ;; k" := (bind m (fun _ => k))
  (at level 100, k at level 200, right associativity) : m_scope.

Definition exec {A} (m : M A) (w : World) : World := snd (m w).
Definition eval {A} (m : M A) (w : World) : A := fst (m w).

Definition send (o : Outbound) : M unit :=
  fun w => (tt, mkWorld (users_data w) (disk_ok w) (writes w) (sent w ++ [o])).

Definition reply_text (text : string) (kb : option Keyboard) : M unit :=
  send (ReplyText text kb).

Definition edit_message_text (text : string) (kb : option Keyboard) : M unit :=
  send (EditMessageText text kb).

Local Open Scope m_scope.

(** ** services/registration_service.py : the store *)

Definition _save_users : M bool :=
  fun w => (disk_ok w (writes w),
            mkWorld (users_data w) (disk_ok w) (S (writes w)) (sent w)).

Definition _get_user_profile (user_id : string) : M Profile :=
  fun w =>
    match users_data w !! user_id with
    | Some profile => (profile, w)
    | None =>
        (let* _ := _save_users in ret DEFAULT_USER_PROFILE)
          (set_users_data (<[user_id := DEFAULT_USER_PROFILE]> (users_data w)) w)
    end.

(** A profile is a dictionary held by [users_data]; changing it in place
    changes the entry of the store. *)
Definition put_profile (user_id : string) (profile : Profile) : M unit :=
  fun w => (tt, set_users_data (<[user_id := profile]> (users_data w)) w).

(** [profile.update] changes the profile in place, before the write is
    attempted. *)
Definition _update_user_profile (user_id : string) (updates : list Assign)
  : M bool :=
  let* profile := _get_user_profile user_id in
  put_profile user_id (profile_update profile updates) ;;
  _save_users.

Definition is_user_registered (user_id : string) : M bool :=
  let* profile := _get_user_profile user_id in
  ret (p_registered profile).

Definition register_user (user_id rank full_name company unit contact_number : string)
  : M bool :=
  let clean_contact := clean_contact_number contact_number in
  let updates :=
    [ SetField field_rank (Py.strip (Py.upper rank));
      SetField field_full_name (Py.strip (Py.upper full_name));
      SetField field_company (Py.strip (Py.upper company));
      SetField field_unit (Py.strip (Py.upper unit));
      SetField field_contact_number clean_contact;
      SetRegistered true;
      SetState IDLE;
      SetTempData ∅ ] in
  _update_user_profile user_id updates.

(** The dictionary returned by [get_user_particulars]. *)
Record Particulars : Type := mkParticulars {
  pa_rank : option string;
  pa_full_name : option string;
  pa_company : option string;
  pa_unit : option string;
  pa_contact_number : option string
}.

Definition get_user_particulars (user_id : string) : M (option Particulars) :=
  let* profile := _get_user_profile user_id in
  if p_registered profile then
    ret (Some (mkParticulars (p_rank profile) (p_full_name profile)
                 (p_company profile) (p_unit profile) (p_contact_number profile)))
  else ret None.

Definition get_formatted_particulars (user_id : string) : M string :=
  let* particulars := get_user_particulars user_id in
  match particulars with
  | Some pa =>
      if Py.truthy_opt (pa_rank pa) && Py.truthy_opt (pa_full_name pa)
         && Py.truthy_opt (pa_company pa) && Py.truthy_opt (pa_unit pa)
         && Py.truthy_opt (pa_contact_number pa)
      then ret (Py.fmt (pa_rank pa) +:+ " " +:+ Py.fmt (pa_full_name pa) +:+ " - "
                  +:+ Py.fmt (pa_company pa) +:+ " - " +:+ Py.fmt (pa_unit pa)
                  +:+ " - " +:+ Py.fmt (pa_contact_number pa))
      else ret ""
  | None => ret ""
  end.

Definition get_user_state (user_id : string) : M UserState :=
  let* profile := _get_user_profile user_id in
  ret (p_state profile).

Definition set_user_state (user_id : string) (state : UserState) : M unit :=
  let* profile := _get_user_profile user_id in
  let updates :=
    if decide (state = IDLE) then [SetState state; SetTempData ∅]
    else [SetState state] in
  _update_user_profile user_id updates ;;
  ret tt.

Definition clear_user_state (user_id : string) : M unit :=
  _update_user_profile user_id [SetState IDLE; SetTempData ∅] ;;
  ret tt.

(** [temp_data[key] = value] changes the dictionary inside the profile;
    the update that follows stores the same dictionary again. *)
Definition store_user_temp_data (user_id key value : string) : M unit :=
  let* profile := _get_user_profile user_id in
  let temp_data := <[key := value]> (p_temp_data profile) in
  put_profile user_id (assign profile (SetTempData temp_data)) ;;
  _update_user_profile user_id [SetTempData temp_data] ;;
  ret tt.

Definition get_user_temp_data (user_id key : string) : M (option string) :=
  let* profile := _get_user_profile user_id in
  ret (p_temp_data profile !! key).

Definition clear_user_temp_data (user_id : string) : M unit :=
  let* profile := _get_user_profile user_id in
  _update_user_profile user_id [SetTempData ∅] ;;
  ret tt.

Definition ir_keys : list string :=
  [ "ir_type"; "nature_type"; "date_incident"; "time_incident";
    "serviceman_details"; "location"; "injury_damage"; "description";
    "followup" ].

Definition start_ir_creation (user_id : string) : M unit :=
  set_user_state user_id AWAITING_IR_TYPE ;;
  let* profile := _get_user_profile user_id in
  let temp_data := fold_left (fun t key => delete key t) ir_keys (p_temp_data profile) in
  put_profile user_id (assign profile (SetTempData temp_data)) ;;
  _update_user_profile user_id [SetTempData temp_data] ;;
  ret tt.

Definition store_ir_data (user_id key value : string) : M unit :=
  store_user_temp_data user_id key value.

(** The dictionary returned by [get_comprehensive_ir_data]. *)
Record IrData : Type := mkIrData {
  ir_type : string;
  nature_type : string;
  date_incident : string;
  time_incident : string;
  serviceman_details : string;
  location : string;
  injury_damage : string;
  description : string;
  followup : string
}.

Definition get_comprehensive_ir_data (user_id : string) : M IrData :=
  let* profile := _get_user_profile user_id in
  let temp_data := p_temp_data profile in
  let get key := default "" (temp_data !! key) in
  ret (mkIrData (get "ir_type") (get "nature_type") (get "date_incident")
         (get "time_incident") (get "serviceman_details") (get "location")
         (get "injury_damage") (get "description") (get "followup")).

Definition update_single_field (user_id : string) (field : Field) (value : string)
  : M bool :=
  let* profile := _get_user_profile user_id in
  if negb (p_registered profile) then ret false
  else
    let updates :=
      if decide (field = field_contact_number)
      then [SetField field (clean_contact_number value)]
      else [SetField field (Py.strip (Py.upper value))] in
    _update_user_profile user_id updates.

Definition complete_comprehensive_ir_creation (user_id : string) : M IrData :=
  let* ir_data := get_comprehensive_ir_data user_id in
  set_user_state user_id IDLE ;;
  ret ir_data.

(** ** services/registration_service.py : the debugging views *)

Definition get_all_user_states : M (gmap string UserState) :=
  fun w => (p_state <$> users_data w, w).

Definition get_active_users_count : M nat :=
  fun w =>
    (length (filter (fun profile => p_state profile <> IDLE)
               (map snd (map_to_list (users_data w)))), w).

(** The dictionary returned by [get_user_profile_summary]. *)
Record ProfileSummary : Type := mkProfileSummary {
  s_registered : bool;
  s_state : UserState;
  s_has_temp_data : bool;
  s_particulars : option string
}.

Definition get_user_profile_summary (user_id : string) : M ProfileSummary :=
  let* profile := _get_user_profile user_id in
  let* particulars :=
    if p_registered profile
    then let* formatted := get_formatted_particulars user_id in ret (Some formatted)
    else ret None in
  ret (mkProfileSummary (p_registered profile) (p_state profile)
         (negb (bool_decide (p_temp_data profile = ∅))) particulars).

(** ** services/response_service.py *)

Definition ranks_str : string := Py.join ", " VALID_RANKS.

Definition format_rank_prompt : string :=
  "Please provide your military rank:" +:+ NL +:+ NL +:+ "Valid ranks: "
    +:+ ranks_str +:+ NL +:+ NL +:+ "Example: 2LT".

Definition format_name_prompt : string :=
  "Great! Now please provide your full name:" +:+ NL +:+ NL
    +:+ "Example: RYAN LIM SHUEN KAI".

Definition format_company_prompt : string :=
  "Please provide your company:" +:+ NL +:+ NL +:+ "Example: ALPHA COMPANY".

Definition format_unit_prompt : string :=
  "Please provide your unit:" +:+ NL +:+ NL +:+ "Example: 1ST BATTALION".

Definition format_contact_prompt : string :=
  "Finally, please provide your contact number:" +:+ NL +:+ NL
    +:+ "Example: 91234567".

Definition format_registration_success (particulars : string) : string :=
  "✅ Registration successful!" +:+ NL +:+ NL +:+ particulars +:+ NL +:+ NL
    +:+ "You can now create IR reports using the button below.".

Definition format_welcome_back_message (particulars : string) : string :=
  "Welcome back, " +:+ particulars +:+ "! 👋" +:+ NL +:+ NL
    +:+ "Ready to create a new IR report?".

Definition format_date_time_prompt : string :=
  "Please provide the date and time of incident:" +:+ NL +:+ NL
    +:+ "Format: DDMMYY HHMMHRS" +:+ NL +:+ "Example: 160625 1730HRS".

Definition format_serviceman_prompt : string :=
  "Please provide serviceman details:" +:+ NL +:+ NL
    +:+ "Format: NRIC/RANK NAME/4D/NSF/PES" +:+ NL
    +:+ "Example: TXXXX356D/PTE XXX/S3234/NSF/PES B1".

Definition format_location_prompt : string :=
  "Please provide the location of incident:" +:+ NL +:+ NL
    +:+ "Example: Pasir Lebar Medical Centre".

Definition format_injury_prompt : string :=
  "Please describe the injury or damage:" +:+ NL +:+ NL
    +:+ "Example: Anxiety issues".

Definition format_description_prompt : string :=
  "Please provide a brief description of the incident:" +:+ NL +:+ NL
    +:+ "Example: On 160625 PTE XXXX brought up that he was given a 32D MC...".

Definition format_followup_prompt : string :=
  "Please provide follow-up updates (include date and time):" +:+ NL +:+ NL
    +:+ "Example: 120625 1400HRS - Medical review completed, MC extended".

(** [None] stands for the [AttributeError] of [particulars.get] when
    [particulars] is [None]. *)
Definition details_lines (title closing : string) (particulars : option Particulars)
  : option string :=
  match particulars with
  | None => None
  | Some pa =>
      Some (title +:+ NL +:+ NL
              +:+ "Rank: " +:+ Py.fmt (pa_rank pa) +:+ NL
              +:+ "Name: " +:+ Py.fmt (pa_full_name pa) +:+ NL
              +:+ "Company: " +:+ Py.fmt (pa_company pa) +:+ NL
              +:+ "Unit: " +:+ Py.fmt (pa_unit pa) +:+ NL
              +:+ "Contact: " +:+ Py.fmt (pa_contact_number pa) +:+ NL +:+ NL
              +:+ closing)
  end.

Definition format_details_view : option Particulars -> option string :=
  details_lines "Your Current Details:"
    "Select a field to edit or return to the main menu:".

Definition format_details_updated_view : option Particulars -> option string :=
  details_lines "Your Updated Details:"
    "Select another field to edit or return to the main menu:".

Definition format_edit_rank_prompt (current_rank : option string) : string :=
  "Current rank: " +:+ Py.fmt current_rank +:+ NL +:+ NL
    +:+ "Please provide your updated military rank:" +:+ NL +:+ NL
    +:+ "Valid ranks: " +:+ ranks_str +:+ NL +:+ NL +:+ "Example: CPT".

Definition format_edit_name_prompt (current_name : option string) : string :=
  "Current name: " +:+ Py.fmt current_name +:+ NL +:+ NL
    +:+ "Please provide your updated full name:" +:+ NL +:+ NL
    +:+ "Example: SARAH TAN WEI LING".

Definition format_edit_company_prompt (current_company : option string) : string :=
  "Current company: " +:+ Py.fmt current_company +:+ NL +:+ NL
    +:+ "Please provide your updated company:" +:+ NL +:+ NL
    +:+ "Example: BRAVO COMPANY".

Definition format_edit_unit_prompt (current_unit : option string) : string :=
  "Current unit: " +:+ Py.fmt current_unit +:+ NL +:+ NL
    +:+ "Please provide your updated unit:" +:+ NL +:+ NL
    +:+ "Example: 2ND BATTALION".

Definition format_edit_contact_prompt (current_contact : option string) : string :=
  "Current contact: " +:+ Py.fmt current_contact +:+ NL +:+ NL
    +:+ "Please provide your updated contact number:" +:+ NL +:+ NL
    +:+ "Example: 81234567".

Definition format_field_updated_success (field_name : string) : string :=
  "✅ " +:+ field_name +:+ " updated successfully!".

(** [IR_TEMPLATE.format(...)]; [None] stands for the [AttributeError] of
    [user_particulars.get] when [user_particulars] is [None]. *)
Definition generate_comprehensive_ir_report (ir_data : IrData)
    (user_particulars : option Particulars) : option string :=
  match user_particulars with
  | None => None
  | Some pa =>
      Some (date_incident ir_data +:+ " / " +:+ Py.fmt (pa_unit pa) +:+ " / XX / "
              +:+ Py.fmt (pa_company pa) +:+ " - " +:+ ir_type ir_data +:+ NL
              +:+ "1) Nature and Type of Incident:" +:+ NL
              +:+ nature_type ir_data +:+ NL +:+ NL
              +:+ "2) Date and Time of Incident:" +:+ NL
              +:+ date_incident ir_data +:+ " " +:+ time_incident ir_data +:+ "HRS"
              +:+ NL +:+ NL
              +:+ "3) Serviceman Involved:" +:+ NL
              +:+ serviceman_details ir_data +:+ NL +:+ NL
              +:+ "4) Location of Incident:" +:+ NL
              +:+ location ir_data +:+ NL +:+ NL
              +:+ "5) Injury/Damage:" +:+ NL
              +:+ injury_damage ir_data +:+ NL +:+ NL
              +:+ "6) Brief Description of Incident:" +:+ NL
              +:+ description ir_data +:+ NL +:+ NL
              +:+ "7) Follow Up Updates:" +:+ NL
              +:+ followup ir_data +:+ NL +:+ NL
              +:+ "8) Stakeholder informed:" +:+ NL
              +:+ "a) NOK:YES" +:+ NL
              +:+ "b) Date/Time of Verbal Report to GSOC:" +:+ NL
              +:+ "c) Date/Time of ESIS Report:" +:+ NL
              +:+ "d) Date/Time reported to 9DIV DOO:" +:+ NL +:+ NL
              +:+ "9) Unit Reporting POC:" +:+ NL
              +:+ Py.fmt (pa_rank pa) +:+ " " +:+ Py.fmt (pa_full_name pa) +:+ NL
              +:+ "PC / " +:+ Py.fmt (pa_company pa) +:+ "/ " +:+ Py.fmt (pa_unit pa) +:+ NL
              +:+ Py.fmt (pa_contact_number pa))
  end.

Definition format_ir_completion_message : string :=
  "✅ Comprehensive IR Report Generated Successfully!" +:+ NL +:+ NL
    +:+ "Your complete IR report is shown above. You can create another IR report using the button below.".

Definition format_validation_error (error_message : string) : string :=
  "❌ " +:+ error_message +:+ NL +:+ NL +:+ "Please try again.".

Definition format_system_error : string :=
  "❌ System error occurred. Please try again later." +:+ NL +:+ NL
    +:+ "If the problem persists, please contact the administrator.".

(** ** handlers/command_handler.py *)

Definition start_command (user_id : string) : M unit :=
  let* registered := is_user_registered user_id in
  if registered then
    let* particulars := get_formatted_particulars user_id in
    let message := format_welcome_back_message particulars in
    reply_text message (Some main_menu_keyboard) ;;
    set_user_state user_id IDLE
  else
    reply_text format_rank_prompt None ;;
    set_user_state user_id AWAITING_RANK.

(** ** handlers/message_handler.py *)

(** The common body of [_handle_rank_input], [_handle_name_input],
    [_handle_company_input] and [_handle_unit_input], which differ in the
    validator, the key of the stored value, the next prompt and the next
    state only. *)
Definition registration_input (validate : string -> bool * string)
    (key prompt : string) (next : UserState) (user_id input : string) : M unit :=
  let '(is_valid, error_message) := validate input in
  if is_valid then
    let clean := Py.strip (Py.upper input) in
    store_user_temp_data user_id key clean ;;
    reply_text prompt None ;;
    set_user_state user_id next
  else
    reply_text (format_validation_error error_message) None.

Definition _handle_rank_input : string -> string -> M unit :=
  registration_input validate_rank "rank" format_name_prompt AWAITING_NAME.

Definition _handle_name_input : string -> string -> M unit :=
  registration_input validate_name "full_name" format_company_prompt AWAITING_COMPANY.

Definition _handle_company_input : string -> string -> M unit :=
  registration_input validate_company "company" format_unit_prompt AWAITING_UNIT.

Definition _handle_unit_input : string -> string -> M unit :=
  registration_input validate_unit "unit" format_contact_prompt AWAITING_CONTACT.

Definition _handle_contact_input (user_id contact_input : string) : M unit :=
  let '(is_valid, error_message) := validate_contact_number contact_input in
  if is_valid then
    let* stored_rank := get_user_temp_data user_id "rank" in
    let* stored_name := get_user_temp_data user_id "full_name" in
    let* stored_company := get_user_temp_data user_id "company" in
    let* stored_unit := get_user_temp_data user_id "unit" in
    match stored_rank, stored_name, stored_company, stored_unit with
    | Some rank, Some name, Some company, Some unit =>
        if Py.truthy rank && Py.truthy name && Py.truthy company && Py.truthy unit
        then
          let* success :=
            register_user user_id rank name company unit contact_input in
          if success then
            let* particulars := get_formatted_particulars user_id in
            let message := format_registration_success particulars in
            reply_text message (Some main_menu_keyboard)
          else
            reply_text format_system_error None
        else
          reply_text "Something went wrong. Please use /start to begin registration again." None
    | _, _, _, _ =>
        reply_text "Something went wrong. Please use /start to begin registration again." None
    end
  else
    reply_text (format_validation_error error_message) None.

(** An exception that leaves a handler is caught by [handle_message],
    which answers with the system error; nothing after the raising
    statement is executed. *)
Definition _handle_date_time_input (user_id date_time_input : string) : M unit :=
  match validate_date_time date_time_input with
  | None => reply_text format_system_error None
  | Some (is_valid, date_part, time_part, error_message) =>
      if is_valid then
        store_ir_data user_id "date_incident" date_part ;;
        store_ir_data user_id "time_incident" time_part ;;
        reply_text format_serviceman_prompt None ;;
        set_user_state user_id AWAITING_SERVICEMAN
      else
        reply_text (format_validation_error error_message) None
  end.

Definition _handle_serviceman_input (user_id serviceman_input : string) : M unit :=
  match validate_serviceman_details serviceman_input with
  | None => reply_text format_system_error None
  | Some (is_valid, formatted_details, error_message) =>
      if is_valid then
        store_ir_data user_id "serviceman_details" formatted_details ;;
        reply_text format_location_prompt None ;;
        set_user_state user_id AWAITING_LOCATION
      else
        reply_text (format_validation_error error_message) None
  end.

(** The common body of [_handle_location_input] and
    [_handle_injury_input]. *)
Definition ir_content_input (key prompt : string) (next : UserState)
    (user_id input : string) : M unit :=
  let '(is_valid, error_message) := validate_ir_content input in
  if is_valid then
    store_ir_data user_id key (Py.strip input) ;;
    reply_text prompt None ;;
    set_user_state user_id next
  else
    reply_text (format_validation_error error_message) None.

Definition _handle_location_input : string -> string -> M unit :=
  ir_content_input "location" format_injury_prompt AWAITING_INJURY.

Definition _handle_injury_input : string -> string -> M unit :=
  ir_content_input "injury_damage" format_description_prompt AWAITING_DESCRIPTION.

(** The [try] block covers the whole body: when the report cannot be
    formatted the system error is sent instead, after the draft has
    already been taken and the state set to [IDLE]. *)
Definition _generate_comprehensive_ir_report (user_id : string) : M unit :=
  let* ir_data := complete_comprehensive_ir_creation user_id in
  let* user_particulars := get_user_particulars user_id in
  match generate_comprehensive_ir_report ir_data user_particulars with
  | Some final_report =>
      reply_text ("```" +:+ NL +:+ final_report +:+ NL +:+ "```") None ;;
      reply_text format_ir_completion_message (Some main_menu_keyboard)
  | None =>
      reply_text format_system_error None
  end.

Definition _handle_description_input (user_id description_input : string) : M unit :=
  let '(is_valid, error_message) := validate_ir_content description_input in
  if is_valid then
    store_ir_data user_id "description" (Py.strip description_input) ;;
    let* ir_type := get_user_temp_data user_id "ir_type" in
    if Py.truthy_opt ir_type && Py.contains "FINAL" (default "" ir_type) then
      store_ir_data user_id "followup" "This serves as a final report" ;;
      _generate_comprehensive_ir_report user_id
    else
      reply_text format_followup_prompt None ;;
      set_user_state user_id AWAITING_FOLLOWUP
  else
    reply_text (format_validation_error error_message) None.

Definition _handle_followup_input (user_id followup_input : string) : M unit :=
  let '(is_valid, error_message) := validate_ir_content followup_input in
  if is_valid then
    store_ir_data user_id "followup" (Py.strip followup_input) ;;
    _generate_comprehensive_ir_report user_id
  else
    reply_text (format_validation_error error_message) None.

(** The common body of the five [_handle_*_edit] functions, which differ
    in the validator, the field and the label of the success message. *)
Definition field_edit (validate : string -> bool * string) (field : Field)
    (label : string) (user_id input : string) : M unit :=
  let '(is_valid, error_message) := validate input in
  if is_valid then
    let* success := update_single_field user_id field input in
    if success then
      reply_text (format_field_updated_success label) None ;;
      let* particulars := get_user_particulars user_id in
      match format_details_updated_view particulars with
      | Some details_msg =>
          reply_text details_msg (Some details_view_keyboard) ;;
          set_user_state user_id IDLE
      | None =>
          reply_text format_system_error None
      end
    else
      reply_text format_system_error None
  else
    reply_text (format_validation_error error_message) None.

Definition _handle_rank_edit : string -> string -> M unit :=
  field_edit validate_rank field_rank "Rank".

Definition _handle_name_edit : string -> string -> M unit :=
  field_edit validate_name field_full_name "Name".

Definition _handle_company_edit : string -> string -> M unit :=
  field_edit validate_company field_company "Company".

Definition _handle_unit_edit : string -> string -> M unit :=
  field_edit validate_unit field_unit "Unit".

Definition _handle_contact_edit : string -> string -> M unit :=
  field_edit validate_contact_number field_contact_number "Contact".

Definition handle_message (user_id text : string) : M unit :=
  let message_text := Py.strip text in
  let* current_state := get_user_state user_id in
  match current_state with
  | AWAITING_RANK => _handle_rank_input user_id message_text
  | AWAITING_NAME => _handle_name_input user_id message_text
  | AWAITING_COMPANY => _handle_company_input user_id message_text
  | AWAITING_UNIT => _handle_unit_input user_id message_text
  | AWAITING_CONTACT => _handle_contact_input user_id message_text
  | AWAITING_DATE_TIME => _handle_date_time_input user_id message_text
  | AWAITING_SERVICEMAN => _handle_serviceman_input user_id message_text
  | AWAITING_LOCATION => _handle_location_input user_id message_text
  | AWAITING_INJURY => _handle_injury_input user_id message_text
  | AWAITING_DESCRIPTION => _handle_description_input user_id message_text
  | AWAITING_FOLLOWUP => _handle_followup_input user_id message_text
  | EDITING_RANK => _handle_rank_edit user_id message_text
  | EDITING_NAME => _handle_name_edit user_id message_text
  | EDITING_COMPANY => _handle_company_edit user_id message_text
  | EDITING_UNIT => _handle_unit_edit user_id message_text
  | EDITING_CONTACT => _handle_contact_edit user_id message_text
  | IDLE | AWAITING_IR_TYPE | AWAITING_NATURE_TYPE =>
      reply_text "Please use /start to begin the registration process." None
  end.

(** ** handlers/callback_handler.py *)

Definition _handle_new_ir (user_id : string) : M unit :=
  let* registered := is_user_registered user_id in
  if negb registered then
    edit_message_text "Please complete registration first by using /start" None
  else
    start_ir_creation user_id ;;
    edit_message_text "Select the type of IR:" (Some ir_type_keyboard).

Definition ir_type_map : gmap string string :=
  list_to_map
    [ ("ir_type_initial", "INITIAL");
      ("ir_type_initial_and_final", "INITIAL & FINAL");
      ("ir_type_update", "UPDATE");
      ("ir_type_update_and_final", "UPDATE & FINAL") ].

Definition _handle_ir_type_selection (user_id callback_data : string) : M unit :=
  match ir_type_map !! callback_data with
  | Some ir_type =>
      if negb (Py.truthy ir_type) then
        edit_message_text "Invalid IR type selected. Please try again." None
      else
        store_ir_data user_id "ir_type" ir_type ;;
        set_user_state user_id AWAITING_NATURE_TYPE ;;
        edit_message_text "Select the nature and type of incident:"
          (Some nature_type_keyboard)
  | None =>
      edit_message_text "Invalid IR type selected. Please try again." None
  end.

Definition nature_type_map : gmap string string :=
  list_to_map
    [ ("nature_non_training_related", "NON-TRAINING RELATED");
      ("nature_training_related", "TRAINING RELATED") ].

Definition _handle_nature_type_selection (user_id callback_data : string) : M unit :=
  match nature_type_map !! callback_data with
  | Some nature_type =>
      if negb (Py.truthy nature_type) then
        edit_message_text "Invalid nature type selected. Please try again." None
      else
        store_ir_data user_id "nature_type" nature_type ;;
        set_user_state user_id AWAITING_DATE_TIME ;;
        edit_message_text format_date_time_prompt None
  | None =>
      edit_message_text "Invalid nature type selected. Please try again." None
  end.

Definition _handle_my_details (user_id : string) : M unit :=
  let* registered := is_user_registered user_id in
  if negb registered then
    edit_message_text "Please complete registration first by using /start" None
  else
    let* particulars := get_user_particulars user_id in
    match particulars with
    | None =>
        edit_message_text "Error retrieving your details. Please try again." None
    | Some _ =>
        match format_details_view particulars with
        | Some details_message =>
            edit_message_text details_message (Some details_view_keyboard) ;;
            (* the log line evaluates get_formatted_particulars *)
            let* _ := get_formatted_particulars user_id in ret tt
        | None => edit_message_text format_system_error None
        end
    end.

Definition field_state_map : gmap string UserState :=
  list_to_map
    [ ("rank", EDITING_RANK); ("name", EDITING_NAME);
      ("company", EDITING_COMPANY); ("unit", EDITING_UNIT);
      ("contact", EDITING_CONTACT) ].

Definition field_prompt_map (particulars : Particulars) : gmap string string :=
  list_to_map
    [ ("rank", format_edit_rank_prompt (pa_rank particulars));
      ("name", format_edit_name_prompt (pa_full_name particulars));
      ("company", format_edit_company_prompt (pa_company particulars));
      ("unit", format_edit_unit_prompt (pa_unit particulars));
      ("contact", format_edit_contact_prompt (pa_contact_number particulars)) ].

Definition _handle_edit_field (user_id callback_data : string) : M unit :=
  let field := Py.replace callback_data "edit_" "" in
  let* particulars := get_user_particulars user_id in
  match particulars with
  | None =>
      edit_message_text "Error retrieving your details. Please try again." None
  | Some pa =>
      match field_state_map !! field, field_prompt_map pa !! field with
      | Some state, Some message =>
          set_user_state user_id state ;;
          edit_message_text message None
      | _, _ =>
          edit_message_text "Invalid field selected. Please try again." None
      end
  end.

Definition _handle_back_to_main (user_id : string) : M unit :=
  let* particulars := get_formatted_particulars user_id in
  let message := format_welcome_back_message particulars in
  edit_message_text message (Some main_menu_keyboard) ;;
  set_user_state user_id IDLE.

Definition handle_callback (user_id data : string) : M unit :=
  if String.eqb data "new_ir" then _handle_new_ir user_id
  else if Py.startswith data "ir_type_" then _handle_ir_type_selection user_id data
  else if Py.startswith data "nature_" then _handle_nature_type_selection user_id data
  else if String.eqb data "my_details" then _handle_my_details user_id
  else if Py.startswith data "edit_" then _handle_edit_field user_id data
  else if String.eqb data "back_to_main" then _handle_back_to_main user_id
  else ret tt.

(** ** services/inline_keyboard_service.py : the buttons *)

Definition lower_char (c : ascii) : ascii :=
  if Py.is_upper c then ascii_of_nat (Py.code c + 32) else c.

(** [s.lower()] *)
Fixpoint lower (s : string) : string :=
  match s with
  | EmptyString => EmptyString
  | String c s' => String (lower_char c) (lower s')
  end.

Record InlineKeyboardButton : Type := mkButton {
  b_text : string;
  b_callback_data : string
}.

Definition get_main_menu_keyboard : list (list InlineKeyboardButton) :=
  [ [mkButton "📝 New IR" "new_ir"];
    [mkButton "👤 My Details" "my_details"] ].

Definition get_details_view_keyboard : list (list InlineKeyboardButton) :=
  [ [mkButton "✏️ Edit Rank" "edit_rank"; mkButton "✏️ Edit Name" "edit_name"];
    [mkButton "✏️ Edit Company" "edit_company"; mkButton "✏️ Edit Unit" "edit_unit"];
    [mkButton "✏️ Edit Contact" "edit_contact"];
    [mkButton "🔙 Back to Main Menu" "back_to_main"] ].

Definition get_ir_type_keyboard : list (list InlineKeyboardButton) :=
  map (fun ir_type =>
         [mkButton ir_type
            ("ir_type_" +:+ lower (Py.replace (Py.replace ir_type " " "_") "&" "AND"))])
    IR_TYPES.

Definition get_nature_type_keyboard : list (list InlineKeyboardButton) :=
  map (fun nature_type =>
         let callback_data :=
           "nature_" +:+ lower (Py.replace (Py.replace nature_type " " "_") "-" "_") in
         [mkButton nature_type callback_data])
    NATURE_TYPES.

(** The buttons behind each keyboard handed to the transport. *)
Definition buttons (kb : Keyboard) : list InlineKeyboardButton :=
  concat match kb with
         | main_menu_keyboard => get_main_menu_keyboard
         | details_view_keyboard => get_details_view_keyboard
         | ir_type_keyboard => get_ir_type_keyboard
         | nature_type_keyboard => get_nature_type_keyboard
         end.

(** ** The inbound events *)

Inductive Event : Type :=
| StartCommand (user_id : string)
| TextMessage (user_id text : string)
| ButtonPress (user_id data : string).

Definition handle (e : Event) : M unit :=
  match e with
  | StartCommand user_id => start_command user_id
  | TextMessage user_id text => handle_message user_id text
  | ButtonPress user_id data => handle_callback user_id data
  end.

Fixpoint run (es : list Event) (w : World) : World :=
  match es with
  | [] => w
  | e :: es' => run es' (exec (handle e) w)
  end.

Definition profile_of (w : World) (user_id : string) : Profile :=
  default DEFAULT_USER_PROFILE (users_data w !! user_id).

Definition world0 (ok : nat -> bool) : World := mkWorld ∅ ok 0 [].

(** ** Vocabulary of the statements *)

Definition no_space (c : ascii) : bool := negb (Py.is_space c).

(** Does the string end with a white-space character? *)
Fixpoint ends_space (s : string) : bool :=
  match s with
  | EmptyString => false
  | String c EmptyString => Py.is_space c
  | String _ s' => ends_space s'
  end.

(** A string of [n] characters of the class [p]. *)
Definition chars_of (p : ascii -> bool) (n : nat) (s : string) : Prop :=
  String.length s = n /\ Py.all_chars p s = true.


(** An NRIC: one letter, seven digits, one letter. *)
Definition nric_shape (u : string) : Prop :=
  exists a d b,
    u = String a (d +:+ String b "") /\
    Py.is_upper a = true /\ chars_of Py.is_digit 7 d /\ Py.is_upper b = true.




(** A valid local mobile number, already normalized: eight digits, the
    first an 8 or a 9. *)
Definition mobile_number (n : string) : Prop :=
  exists c d, n = String c d /\ one_of "89" c = true /\ chars_of Py.is_digit 7 d.

(** An operation that sends nothing. *)
Definition quiet {A} (m : M A) : Prop :=
  forall w, sent (exec m w) = sent w.

(** An operation that leaves the disk behaviour and the records of all
    users but [user_id] as they are. *)
Definition local {A} (user_id : string) (m : M A) : Prop :=
  forall w,
    disk_ok (exec m w) = disk_ok w /\
    forall u, u <> user_id -> profile_of (exec m w) u = profile_of w u.

(** An operation that leaves every record as it is (it may create the
    default record of a user met for the first time). *)
Definition reading {A} (m : M A) : Prop :=
  forall w u, profile_of (exec m w) u = profile_of w u.

(** A registration dialogue, used in the examples: the start command,
    then the five particulars of one user. *)
Definition registration_events : list Event :=
  [ StartCommand "u"; TextMessage "u" "cpt"; TextMessage "u" "Tan Ah Kow";
    TextMessage "u" "Alpha"; TextMessage "u" "1 SIR";
    TextMessage "u" "+65 9123 4567" ].

(** The state in which a field is edited, the validator of the field,
    and the value an accepted input leaves in the record. *)
Definition editing_state (f : Field) : UserState :=
  match f with
  | field_rank => EDITING_RANK
  | field_full_name => EDITING_NAME
  | field_company => EDITING_COMPANY
  | field_unit => EDITING_UNIT
  | field_contact_number => EDITING_CONTACT
  end.

Definition field_validator (f : Field) : string -> bool * string :=
  match f with
  | field_rank => validate_rank
  | field_full_name => validate_name
  | field_company => validate_company
  | field_unit => validate_unit
  | field_contact_number => validate_contact_number
  end.

Definition edited_value (f : Field) (value : string) : string :=
  match f with
  | field_contact_number => clean_contact_number value
  | _ => Py.strip (Py.upper value)
  end.

(** The invariant of a record: an idle user has an empty scratch. *)
Definition tidy (p : Profile) : Prop :=
  p_state p = IDLE -> p_temp_data p = ∅.

(** The invariant of the store. *)
Definition idle_scratch_empty (w : World) : Prop :=
  forall u p, users_data w !! u = Some p -> tidy p.

(** An operation that keeps the record of [user_id] tidy, and one that
    leaves it tidy whatever it was. *)
Definition keeps {A} (user_id : string) (m : M A) : Prop :=
  forall w, tidy (profile_of w user_id) -> tidy (profile_of (exec m w) user_id).

Definition establishes {A} (user_id : string) (m : M A) : Prop :=
  forall w, tidy (profile_of (exec m w) user_id).

(** The user an event comes from. *)
Definition event_user (e : Event) : string :=
  match e with
  | StartCommand user_id => user_id
  | TextMessage user_id _ => user_id
  | ButtonPress user_id _ => user_id
  end.

(** The draft held in a scratch, the particulars of a record, and whether
    the report type of a draft denotes a final report. *)
Definition draft_of (t : gmap string string) : IrData :=
  let get key := default "" (t !! key) in
  mkIrData (get "ir_type") (get "nature_type") (get "date_incident")
    (get "time_incident") (get "serviceman_details") (get "location")
    (get "injury_damage") (get "description") (get "followup").

Definition particulars_of (p : Profile) : Particulars :=
  mkParticulars (p_rank p) (p_full_name p) (p_company p) (p_unit p)
    (p_contact_number p).

Definition is_final (t : gmap string string) : bool :=
  match t !! "ir_type" with
  | Some label => Py.contains "FINAL" label
  | None => false
  end.

(** The two messages that carry a rendered report. *)
Definition report_messages (report : string) : list Outbound :=
  [ ReplyText ("```" +:+ NL +:+ report +:+ NL +:+ "```") None;
    ReplyText format_ir_completion_message (Some main_menu_keyboard) ].

(** A report dialogue up to the injury, used in the examples; the
    payload selects the report type. *)
Definition report_events (type_payload : string) : list Event :=
  [ ButtonPress "u" "new_ir"; ButtonPress "u" type_payload;
    ButtonPress "u" "nature_training_related";
    TextMessage "u" "160625 1730HRS";
    TextMessage "u" "T0123456D/PTE TAN/S1234/NSF/PES B1";
    TextMessage "u" "Camp"; TextMessage "u" "Sprained ankle" ].

(** The record [register_user] leaves in memory. *)
Definition registered_profile (rank name company unit contact : string) : Profile :=
  mkProfile (Some (Py.strip (Py.upper rank))) (Some (Py.strip (Py.upper name)))
    (Some (Py.strip (Py.upper company))) (Some (Py.strip (Py.upper unit)))
    (Some (clean_contact_number contact)) true IDLE ∅.

(** Registration in the words of the specification: the five validators
    in order; each waits for the first input it accepts, and an input
    that is refused changes nothing.  [accepted_inputs] lists the inputs
    accepted so far, as received (trimmed). *)
Definition registration_validators : list (string -> bool * string) :=
  [ validate_rank; validate_name; validate_company; validate_unit;
    validate_contact_number ].

Fixpoint accepted_inputs (validators : list (string -> bool * string))
    (inputs : list string) {struct inputs} : list string :=
  match inputs with
  | [] => []
  | x :: rest =>
      match validators with
      | [] => []
      | v :: vs =>
          if fst (v (Py.strip x))
          then Py.strip x :: accepted_inputs vs rest
          else accepted_inputs validators rest
      end
  end.

(** The value kept in the scratch for an accepted input. *)
Definition stored_value (input : string) : string := Py.strip (Py.upper input).

(** How far a registration has come, with the inputs accepted so far. *)
Inductive Progress : Type :=
| AtRank
| AtName (r : string)
| AtCompany (r n : string)
| AtUnit (r n c : string)
| AtContact (r n c u : string)
| Registered (r n c u t : string).

Definition values_of (pr : Progress) : list string :=
  match pr with
  | AtRank => []
  | AtName r => [r]
  | AtCompany r n => [r; n]
  | AtUnit r n c => [r; n; c]
  | AtContact r n c u => [r; n; c; u]
  | Registered r n c u t => [r; n; c; u; t]
  end.

Definition step_progress (pr : Progress) (x : string) : Progress :=
  let y := Py.strip x in
  match pr with
  | AtRank => if fst (validate_rank y) then AtName y else pr
  | AtName r => if fst (validate_name y) then AtCompany r y else pr
  | AtCompany r n => if fst (validate_company y) then AtUnit r n y else pr
  | AtUnit r n c => if fst (validate_unit y) then AtContact r n c y else pr
  | AtContact r n c u =>
      if fst (validate_contact_number y) then Registered r n c u y else pr
  | Registered _ _ _ _ _ => pr
  end.

(** A scratch entry holding the stored form of an accepted input. *)
Definition kept (p : Profile) (key input : string) : Prop :=
  p_temp_data p !! key = Some (stored_value input) /\
  Py.truthy (stored_value input) = true.

(** No particular has been written yet. *)
Definition unregistered (p : Profile) : Prop :=
  p_registered p = false /\ forall f, get_field f p = None.

(** What a record looks like at each point of a registration. *)
Definition at_progress (pr : Progress) (p : Profile) : Prop :=
  match pr with
  | AtRank => unregistered p /\ p_state p = AWAITING_RANK
  | AtName r =>
      unregistered p /\ p_state p = AWAITING_NAME /\ kept p "rank" r
  | AtCompany r n =>
      unregistered p /\ p_state p = AWAITING_COMPANY /\
      kept p "rank" r /\ kept p "full_name" n
  | AtUnit r n c =>
      unregistered p /\ p_state p = AWAITING_UNIT /\
      kept p "rank" r /\ kept p "full_name" n /\ kept p "company" c
  | AtContact r n c u =>
      unregistered p /\ p_state p = AWAITING_CONTACT /\
      kept p "rank" r /\ kept p "full_name" n /\ kept p "company" c /\
      kept p "unit" u
  | Registered r n c u t =>
      p = registered_profile (stored_value r) (stored_value n) (stored_value c)
            (stored_value u) t
  end.

(** The verdict on a text input in a state that expects text: whether
    the validator of the state accepts it, and the error text.  [None]
    in the states that expect no text. *)
Definition state_check (st : UserState) (input : string) : option (bool * string) :=
  match st with
  | AWAITING_RANK | EDITING_RANK => Some (validate_rank input)
  | AWAITING_NAME | EDITING_NAME => Some (validate_name input)
  | AWAITING_COMPANY | EDITING_COMPANY => Some (validate_company input)
  | AWAITING_UNIT | EDITING_UNIT => Some (validate_unit input)
  | AWAITING_CONTACT | EDITING_CONTACT => Some (validate_contact_number input)
  | AWAITING_DATE_TIME =>
      match validate_date_time input with
      | Some (is_valid, _, _, error_message) => Some (is_valid, error_message)
      | None => None
      end
  | AWAITING_SERVICEMAN =>
      match validate_serviceman_details input with
      | Some (is_valid, _, error_message) => Some (is_valid, error_message)
      | None => None
      end
  | AWAITING_LOCATION | AWAITING_INJURY | AWAITING_DESCRIPTION
  | AWAITING_FOLLOWUP => Some (validate_ir_content input)
  | IDLE | AWAITING_IR_TYPE | AWAITING_NATURE_TYPE => None
  end.

(** The empty draft. *)
Definition empty_draft : IrData := mkIrData "" "" "" "" "" "" "" "" "".

(** The payloads on which [handle_callback] reaches a handler that
    accepts them. *)
Definition recognised (data : string) : bool :=
  String.eqb data "new_ir"
  || bool_decide (is_Some (ir_type_map !! data))
  || bool_decide (is_Some (nature_type_map !! data))
  || String.eqb data "my_details"
  || (Py.startswith data "edit_"
      && bool_decide (is_Some (field_state_map !! Py.replace data "edit_" "")))
  || String.eqb data "back_to_main".

(** The payload of the edit button of a field and the prompt that
    answers it. *)
Definition edit_payload (f : Field) : string :=
  match f with
  | field_rank => "edit_rank"
  | field_full_name => "edit_name"
  | field_company => "edit_company"
  | field_unit => "edit_unit"
  | field_contact_number => "edit_contact"
  end.

Definition edit_prompt (f : Field) : option string -> string :=
  match f with
  | field_rank => format_edit_rank_prompt
  | field_full_name => format_edit_name_prompt
  | field_company => format_edit_company_prompt
  | field_unit => format_edit_unit_prompt
  | field_contact_number => format_edit_contact_prompt
  end.

(** The answers of [handle_callback] to a payload it does not accept. *)
Definition callback_errors : list string :=
  [ "Invalid IR type selected. Please try again.";
    "Invalid nature type selected. Please try again.";
    "Error retrieving your details. Please try again.";
    "Invalid field selected. Please try again." ].

(** An operation that appends between [lo] and [hi] messages to those
    already sent. *)
Definition says {A} (lo hi : nat) (m : M A) : Prop :=
  forall w, exists new,
    sent (exec m w) = sent w ++ new /\ lo <= length new <= hi.

(** The payloads that reach a branch of [handle_callback]. *)
Definition routed (data : string) : bool :=
  String.eqb data "new_ir" || Py.startswith data "ir_type_"
  || Py.startswith data "nature_" || String.eqb data "my_details"
  || Py.startswith data "edit_" || String.eqb data "back_to_main".

(** A particular in the form in which it is kept: upper case, trimmed
    and not empty. *)
Definition normal (v : string) : Prop := stored_value v = v /\ v <> "".

(** What a scratch may hold under the keys of the registration. *)
Definition valid_scratch (t : gmap string string) : Prop :=
  (forall v, t !! "rank" = Some v -> v ∈ VALID_RANKS) /\
  (forall key v, key ∈ ["full_name"; "company"; "unit"] ->
     t !! key = Some v -> normal v).

(** Particulars that are all present and well formed. *)
Definition valid_particulars (p : Profile) : Prop :=
  exists rank name company unit contact,
    particulars_of p
    = mkParticulars (Some rank) (Some name) (Some company) (Some unit)
        (Some contact) /\
    rank ∈ VALID_RANKS /\ normal name /\ normal company /\ normal unit /\
    mobile_number contact.

(** The invariant of a record: a registered user has valid particulars;
    the scratch is kept valid along the way. *)
Definition sound (p : Profile) : Prop :=
  valid_scratch (p_temp_data p) /\
  (p_registered p = true -> valid_particulars p).

Definition preserves {A} (user_id : string) (m : M A) : Prop :=
  forall w, sound (profile_of w user_id) -> sound (profile_of (exec m w) user_id).

(** What a validator promises about the value stored for an accepted
    input. *)
Definition field_promise (f : Field) (v : string) : Prop :=
  match f with
  | field_rank => v ∈ VALID_RANKS
  | field_contact_number => mobile_number v
  | _ => normal v
  end.

(** A record with another state and scratch. *)
Definition with_scratch (p : Profile) (st : UserState) (t : gmap string string)
  : Profile :=
  mkProfile (p_rank p) (p_full_name p) (p_company p) (p_unit p)
    (p_contact_number p) (p_registered p) st t.

(** A report dialogue up to the description: the request, the two
    selections and the five texts. *)
Definition report_dialogue (uid type_payload nature_payload date_time serviceman
    location injury description : string) : list Event :=
  [ ButtonPress uid "new_ir"; ButtonPress uid type_payload;
    ButtonPress uid nature_payload; TextMessage uid date_time;
    TextMessage uid serviceman; TextMessage uid location;
    TextMessage uid injury; TextMessage uid description ].



(** The draft read from the scratch [t], with the follow-up [followup]
    in place of what the scratch holds under that key. *)
Definition draft_with (t : gmap string string) (followup : string) : IrData :=
  let get key := default "" (t !! key) in
  mkIrData (get "ir_type") (get "nature_type") (get "date_incident")
    (get "time_incident") (get "serviceman_details") (get "location")
    (get "injury_damage") (get "description") followup.

(** The sections of a report that carry the description and the
    follow-up. *)
Definition closing_sections (description followup : string) : string :=
  "6) Brief Description of Incident:" +:+ NL +:+ description +:+ NL +:+ NL
    +:+ "7) Follow Up Updates:" +:+ NL +:+ followup +:+ NL +:+ NL
    +:+ "8) Stakeholder informed:".

(** * Facts about the built-ins *)

(** Case analysis over the 256 characters. *)
Ltac each_char c :=
  destruct c as [[] [] [] [] [] [] [] []]; vm_compute;
  intros; first [reflexivity | discriminate].

Section StringFacts.

Lemma is_space_upper_char c : Py.is_space (Py.upper_char c) = Py.is_space c.
Proof.
  each_char c.
Qed.

Lemma upper_char_idem c : Py.upper_char (Py.upper_char c) = Py.upper_char c.
Proof.
  each_char c.
Qed.

Lemma digit_not_space c : Py.is_digit c = true -> Py.is_space c = false.
Proof.
  each_char c.
Qed.

Lemma digit_not_separator c : Py.is_digit c = true -> separator_class c = false.
Proof.
  each_char c.
Qed.

Lemma append_cons c s t : String c s +:+ t = String c (s +:+ t).
Proof. reflexivity. Qed.

Lemma append_nil_l t : "" +:+ t = t.
Proof. reflexivity. Qed.

Lemma append_empty_r s : s +:+ "" = s.
Proof.
  induction s as [|c s IH]; [reflexivity|].
  now rewrite append_cons, IH.
Qed.

Lemma append_assoc s1 s2 s3 : (s1 +:+ s2) +:+ s3 = s1 +:+ (s2 +:+ s3).
Proof.
  induction s1 as [|c s1 IH]; [reflexivity|].
  now rewrite !append_cons, IH.
Qed.

Lemma length_append s1 s2 :
  String.length (s1 +:+ s2) = String.length s1 + String.length s2.
Proof.
  induction s1 as [|c s1 IH]; [reflexivity|].
  rewrite append_cons. simpl. now rewrite IH.
Qed.

Lemma upper_append s1 s2 : Py.upper (s1 +:+ s2) = Py.upper s1 +:+ Py.upper s2.
Proof.
  induction s1 as [|c s1 IH]; [reflexivity|].
  rewrite append_cons. simpl. now rewrite IH, append_cons.
Qed.

Lemma upper_idem s : Py.upper (Py.upper s) = Py.upper s.
Proof.
  induction s as [|c s IH]; simpl; [reflexivity|].
  now rewrite upper_char_idem, IH.
Qed.

Lemma length_upper s : String.length (Py.upper s) = String.length s.
Proof. induction s as [|c s IH]; simpl; [reflexivity | now rewrite IH]. Qed.

Lemma truthy_upper s : Py.truthy (Py.upper s) = Py.truthy s.
Proof. now destruct s. Qed.

Lemma lstrip_upper s : Py.lstrip (Py.upper s) = Py.upper (Py.lstrip s).
Proof.
  induction s as [|c s IH]; simpl; [reflexivity|].
  rewrite is_space_upper_char. now destruct (Py.is_space c).
Qed.

Lemma rstrip_upper s : Py.rstrip (Py.upper s) = Py.upper (Py.rstrip s).
Proof.
  induction s as [|c s IH]; simpl; [reflexivity|].
  rewrite IH, is_space_upper_char.
  destruct (Py.rstrip s); simpl; [now destruct (Py.is_space c) | reflexivity].
Qed.

(** [s.upper().strip()] and [s.strip().upper()] agree. *)
Lemma strip_upper s : Py.strip (Py.upper s) = Py.upper (Py.strip s).
Proof. unfold Py.strip. now rewrite lstrip_upper, rstrip_upper. Qed.

Lemma all_chars_append p s1 s2 :
  Py.all_chars p (s1 +:+ s2) = Py.all_chars p s1 && Py.all_chars p s2.
Proof.
  induction s1 as [|c s1 IH]; [reflexivity|].
  rewrite append_cons. simpl. now rewrite IH, andb_assoc.
Qed.

Lemma all_chars_impl (p q : ascii -> bool) s :
  (forall c, p c = true -> q c = true) ->
  Py.all_chars p s = true -> Py.all_chars q s = true.
Proof.
  intros Hpq. induction s as [|c s IH]; simpl; [reflexivity|].
  intros [Hc Hs]%andb_true_iff. rewrite (Hpq _ Hc). now apply IH.
Qed.

Lemma no_space_upper s :
  Py.all_chars no_space (Py.upper s) = Py.all_chars no_space s.
Proof.
  induction s as [|c s IH]; simpl; [reflexivity|].
  unfold no_space at 1 3. now rewrite is_space_upper_char, IH.
Qed.

(** A string without white space is left alone by [strip]. *)
Lemma rstrip_no_space s : Py.all_chars no_space s = true -> Py.rstrip s = s.
Proof.
  induction s as [|c s IH]; simpl; [reflexivity|].
  intros [Hc Hs]%andb_true_iff. rewrite (IH Hs).
  unfold no_space in Hc. apply negb_true_iff in Hc. rewrite Hc.
  now destruct s.
Qed.

Lemma strip_no_space s : Py.all_chars no_space s = true -> Py.strip s = s.
Proof.
  intros H. unfold Py.strip.
  assert (Py.lstrip s = s) as ->.
  { destruct s as [|c s]; simpl in *; [reflexivity|].
    apply andb_true_iff in H as [Hc _].
    unfold no_space in Hc. apply negb_true_iff in Hc. now rewrite Hc. }
  now apply rstrip_no_space.
Qed.

Lemma ends_space_cons c s :
  s <> "" -> ends_space (String c s) = ends_space s.
Proof. now destruct s. Qed.

Lemma ends_space_append_NL s : ends_space (s +:+ NL) = true.
Proof.
  induction s as [|c s IH]; [reflexivity|].
  rewrite append_cons.
  rewrite ends_space_cons; [assumption | now destruct s].
Qed.

Lemma ends_space_upper s : ends_space (Py.upper s) = ends_space s.
Proof.
  induction s as [|c s IH]; [reflexivity|].
  destruct s as [|d s]; [apply is_space_upper_char | exact IH].
Qed.

Lemma ends_space_no_space s :
  Py.all_chars no_space s = true -> ends_space s = false.
Proof.
  induction s as [|c s IH]; [reflexivity|].
  simpl Py.all_chars. intros [Hc Hs]%andb_true_iff.
  destruct s as [|d s]; [|now apply IH].
  unfold no_space in Hc. now apply negb_true_iff in Hc.
Qed.

Lemma ends_space_rstrip s : ends_space (Py.rstrip s) = false.
Proof.
  induction s as [|c s IH]; [reflexivity|].
  simpl Py.rstrip. destruct (Py.rstrip s) as [|d r] eqn:E.
  - destruct (Py.is_space c) eqn:Hc; [reflexivity | exact Hc].
  - exact IH.
Qed.

Lemma ends_space_strip s : ends_space (Py.strip s) = false.
Proof. apply ends_space_rstrip. Qed.

End StringFacts.

(** * Facts about the matcher *)

Section RegexFacts.

Import Re.

Lemma fullmatch_Void s : fullmatch Void s = false.
Proof. induction s as [|c s IH]; [reflexivity | exact IH]. Qed.

Lemma fullmatch_Alt a b s :
  fullmatch (Alt a b) s = fullmatch a s || fullmatch b s.
Proof.
  revert a b. induction s as [|c s IH]; intros a b; [reflexivity|].
  simpl. apply IH.
Qed.

Lemma fullmatch_Eps s : fullmatch Eps s = true <-> s = "".
Proof.
  destruct s as [|c s]; simpl; [tauto|].
  rewrite fullmatch_Void. split; discriminate.
Qed.

Lemma fullmatch_Seq a b s :
  fullmatch (Seq a b) s = true <->
  exists s1 s2, s = s1 +:+ s2 /\ fullmatch a s1 = true /\ fullmatch b s2 = true.
Proof.
  revert a b. induction s as [|c s IH]; intros a b.
  - simpl. rewrite andb_true_iff. split.
    + intros [Ha Hb]. now exists "", "".
    + intros (s1 & s2 & E & Ha & Hb).
      destruct s1; [|discriminate]. destruct s2; [|discriminate]. now split.
  - simpl. destruct (nullable a) eqn:Hn.
    + rewrite fullmatch_Alt, orb_true_iff, IH. split.
      * intros [(s1 & s2 & -> & Ha & Hb) | Hb].
        -- now exists (String c s1), s2.
        -- exists "", (String c s). now repeat split.
      * intros (s1 & s2 & E & Ha & Hb). destruct s1 as [|c1 s1].
        -- right. rewrite append_nil_l in E. now subst s2.
        -- left. rewrite append_cons in E. injection E as -> ->.
           now exists s1, s2.
    + rewrite IH. split.
      * intros (s1 & s2 & -> & Ha & Hb). now exists (String c s1), s2.
      * intros (s1 & s2 & E & Ha & Hb). destruct s1 as [|c1 s1].
        -- simpl in Ha. congruence.
        -- rewrite append_cons in E. injection E as -> ->.
           now exists s1, s2.
Qed.

Lemma fullmatch_Class p s :
  fullmatch (Class p) s = true <-> exists c, s = String c "" /\ p c = true.
Proof.
  destruct s as [|c s]; simpl.
  - split; [discriminate | intros (c & E & _); discriminate].
  - destruct (p c) eqn:Hp.
    + rewrite fullmatch_Eps. split.
      * intros ->. now exists c.
      * intros (d & E & _). now injection E.
    + rewrite fullmatch_Void. split; [discriminate|].
      intros (d & E & Hd). injection E as -> _. congruence.
Qed.

(** A class in front of [r] consumes one character. *)
Lemma fullmatch_Class_Seq p r c s :
  fullmatch (Seq (Class p) r) (String c s) = true <->
  p c = true /\ fullmatch r s = true.
Proof.
  rewrite fullmatch_Seq. split.
  - intros (s1 & s2 & E & (d & -> & Hd)%fullmatch_Class & Hr).
    rewrite append_cons, append_nil_l in E. now injection E as -> ->.
  - intros [Hc Hr]. exists (String c ""), s. repeat split; [|assumption].
    apply fullmatch_Class. now exists c.
Qed.

Lemma fullmatch_Class_Seq_nil p r : fullmatch (Seq (Class p) r) "" = false.
Proof. reflexivity. Qed.

(** [\d{n}] and the like: exactly [n] characters of the class. *)
Lemma fullmatch_times n p s :
  fullmatch (times n (Class p)) s = true <->
  String.length s = n /\ Py.all_chars p s = true.
Proof.
  revert s. induction n as [|n IH]; intros s.
  - change (times 0 (Class p)) with Eps. rewrite fullmatch_Eps. split.
    + now intros ->.
    + intros [E _]. now destruct s.
  - change (times (S n) (Class p)) with (Seq (Class p) (times n (Class p))).
    destruct s as [|c s].
    + rewrite fullmatch_Class_Seq_nil. split; [discriminate | now intros [E _]].
    + rewrite fullmatch_Class_Seq, IH. simpl. rewrite andb_true_iff.
      intuition lia.
Qed.

Lemma fullmatch_word w s : fullmatch (word w) s = true <-> s = w.
Proof.
  revert s. induction w as [|d w IH]; intros s.
  - apply fullmatch_Eps.
  - change (word (String d w)) with (Seq (lit d) (word w)).
    destruct s as [|c s].
    + unfold lit. rewrite fullmatch_Class_Seq_nil. split; discriminate.
    + unfold lit. rewrite fullmatch_Class_Seq, IH, Ascii.eqb_eq. split.
      * now intros [-> ->].
      * intros E. now injection E as -> ->.
Qed.

Lemma fullmatch_opt r s :
  fullmatch (opt r) s = true <-> fullmatch r s = true \/ s = "".
Proof.
  unfold opt. now rewrite fullmatch_Alt, orb_true_iff, fullmatch_Eps.
Qed.

Lemma fullmatch_lit c s : fullmatch (lit c) s = true <-> s = String c "".
Proof.
  unfold lit. rewrite fullmatch_Class. split.
  - intros (d & -> & ->%Ascii.eqb_eq). reflexivity.
  - intros ->. exists c. split; [reflexivity | apply Ascii.eqb_refl].
Qed.

(** On a string that does not end in white space, [$] can only stand at
    the very end: [re.match] of [^ body $] is a match of the whole
    string by [body]. *)
Lemma match_fullmatch body s :
  ends_space s = false ->
  (match_ body s = true <-> fullmatch body s = true).
Proof.
  intros Hs. unfold match_, dollar. rewrite fullmatch_Seq. split.
  - intros (s1 & s2 & -> & Hb & [->%fullmatch_lit | ->]%fullmatch_opt).
    + change (String "010" "") with NL in Hs.
      rewrite ends_space_append_NL in Hs. discriminate.
    + now rewrite append_empty_r.
  - intros Hb. exists s, "". rewrite append_empty_r. now repeat split.
Qed.

End RegexFacts.

(** * Facts about splitting and slicing *)

Section SplitFacts.




Lemma split_go_no_space s cur :
  (forall w, cur = Some w -> Py.all_chars no_space w = true) ->
  Forall (fun t => Py.all_chars no_space t = true) (Py.split_go cur s).
Proof.
  revert cur. induction s as [|c s IH]; intros cur Hcur; simpl.
  - destruct cur; [|constructor]. constructor; [now apply Hcur | constructor].
  - destruct (Py.is_space c) eqn:Hc.
    + destruct cur.
      * constructor; [now apply Hcur | now apply IH].
      * now apply IH.
    + destruct cur.
      * apply IH. intros w [= <-]. rewrite all_chars_append, (Hcur _ eq_refl).
        simpl. unfold no_space. now rewrite Hc.
      * apply IH. intros w [= <-]. simpl. unfold no_space. now rewrite Hc.
Qed.

(** The tokens of [s.split()] hold no white space. *)
Lemma split_no_space s :
  Forall (fun t => Py.all_chars no_space t = true) (Py.split s).
Proof. apply split_go_no_space. discriminate. Qed.

Lemma slice_to_append t x :
  Py.slice_to (String.length t) (t +:+ x) = t.
Proof.
  induction t as [|c t IH]; [now destruct x|].
  rewrite append_cons. simpl. now rewrite IH.
Qed.

Lemma all_chars_slice_to p n s :
  Py.all_chars p s = true -> Py.all_chars p (Py.slice_to n s) = true.
Proof.
  revert s. induction n as [|n IH]; intros [|c s]; simpl; try reflexivity.
  intros [Hc Hs]%andb_true_iff. rewrite Hc. now apply IH.
Qed.

Lemma all_chars_slice_from p n s :
  Py.all_chars p s = true -> Py.all_chars p (Py.slice_from n s) = true.
Proof.
  revert s. induction n as [|n IH]; intros [|c s]; simpl; try tauto.
  intros [Hc Hs]%andb_true_iff. now apply IH.
Qed.

Lemma int_go_digits s acc :
  Py.all_chars Py.is_digit s = true -> is_Some (Py.int_go acc s).
Proof.
  revert acc. induction s as [|c s IH]; intros acc; simpl; [eauto|].
  intros [Hc Hs]%andb_true_iff. rewrite Hc. now apply IH.
Qed.

(** [int] does not raise on a non-empty string of digits. *)
Lemma int_digits s :
  s <> "" -> Py.all_chars Py.is_digit s = true -> is_Some (Py.int s).
Proof.
  intros Hs Hd. destruct s; [congruence|]. now apply int_go_digits.
Qed.

Lemma match_DATE_PATTERN s :
  ends_space s = false ->
  (Re.match_ DATE_PATTERN s = true <-> chars_of Py.is_digit 6 s).
Proof.
  intros Hs. rewrite (match_fullmatch _ _ Hs). apply fullmatch_times.
Qed.

Lemma match_TIME_PATTERN u :
  ends_space u = false ->
  (Re.match_ TIME_PATTERN u = true <->
   exists t, chars_of Py.is_digit 4 t /\ (u = t +:+ "HR" \/ u = t +:+ "HRS")).
Proof.
  intros Hu. rewrite (match_fullmatch _ _ Hu). unfold TIME_PATTERN.
  rewrite fullmatch_Seq. split.
  - intros (t & r & -> & Ht%fullmatch_times & Hr).
    apply fullmatch_Seq in Hr as (r1 & r2 & -> & ->%fullmatch_word & Hr2).
    exists t. split; [exact Ht|].
    apply fullmatch_opt in Hr2 as [->%fullmatch_lit | ->]; [now right | now left].
  - intros (t & Ht & Hu'). exists t.
    destruct Hu' as [-> | ->].
    + exists "HR". split; [reflexivity|]. split; [now apply fullmatch_times|].
      apply fullmatch_Seq. exists "HR", "". now repeat split.
    + exists "HRS". split; [reflexivity|]. split; [now apply fullmatch_times|].
      apply fullmatch_Seq. exists "HR", "S". now repeat split.
Qed.

End SplitFacts.

(** * The date and time validator *)

Lemma two_tokens input p0 p1 :
  Py.split input = [p0; p1] ->
  ends_space p0 = false /\ ends_space (Py.upper p1) = false.
Proof.
  intros E. pose proof (split_no_space input) as H. rewrite E in H.
  inversion H as [|? ? H0 H']; subst. inversion H' as [|? ? H1 _]; subst.
  split; [now apply ends_space_no_space|].
  rewrite ends_space_upper. now apply ends_space_no_space.
Qed.

Lemma chars_of_slices t :
  chars_of Py.is_digit 4 t ->
  is_Some (Py.int (Py.slice_to 2 t)) /\ is_Some (Py.int (Py.slice_from 2 t)).
Proof.
  intros [Hl Hd].
  destruct t as [|a [|b [|c [|d [|e t]]]]]; try discriminate.
  split; apply int_digits; try discriminate.
  - now apply (all_chars_slice_to _ 2).
  - now apply (all_chars_slice_from _ 2).
Qed.

Lemma chars_of_date_slices t :
  chars_of Py.is_digit 6 t ->
  is_Some (Py.int (Py.slice_to 2 t)) /\
  is_Some (Py.int (Py.slice_to 2 (Py.slice_from 2 t))).
Proof.
  intros [Hl Hd].
  destruct t as [|a [|b [|c [|d [|e [|f [|g t]]]]]]]; try discriminate.
  split; apply int_digits; try discriminate.
  - now apply (all_chars_slice_to _ 2).
  - apply (all_chars_slice_to _ 2). now apply (all_chars_slice_from _ 2).
Qed.

(** The validator raises no exception. *)
Lemma validate_date_time_returns input : is_Some (validate_date_time input).
Proof.
  unfold validate_date_time.
  destruct (negb (Py.truthy (Py.strip input))); [eauto|].
  destruct (Py.split (Py.strip input)) as [|p0 [|p1 [|p2 l]]] eqn:E; eauto.
  destruct (two_tokens _ _ _ E) as [H0 H1].
  destruct (Re.match_ DATE_PATTERN p0) eqn:Hd; cbn [negb]; [|eauto].
  destruct (Re.match_ TIME_PATTERN (Py.upper p1)) eqn:Ht; cbn [negb]; [|eauto].
  apply (match_DATE_PATTERN _ H0) in Hd.
  apply (match_TIME_PATTERN _ H1) in Ht as (t & Ht & Hu).
  assert (Py.slice_to 4 (Py.upper p1) = t) as ->.
  { destruct Ht as [Hl _]. rewrite <- Hl. destruct Hu as [-> | ->]; apply slice_to_append. }
  destruct (chars_of_slices _ Ht) as [[h ->] [m ->]].
  destruct (chars_of_date_slices _ Hd) as [[d ->] [mo ->]].
  cbn [mbind option_bind]. destruct (_ || _); [eauto|].
  cbn [mbind option_bind]. destruct (_ || _); eauto.
Qed.





(** No calendar check: the 31st of February is accepted. *)
Example validate_date_time_310231 :
  validate_date_time "310231 2359hrs" = Some (true, "310231", "2359", "").
Proof. reflexivity. Qed.

(** The rejected examples of the specification. *)
Example validate_date_time_day_32 :
  validate_date_time "320625 1730HRS"
  = Some (false, "", "", "Invalid date. Please check day (01-31) and month (01-12)").
Proof. reflexivity. Qed.

Example validate_date_time_hour_25 :
  validate_date_time "160625 2500HRS"
  = Some (false, "", "", "Invalid time. Hours must be 00-23, minutes must be 00-59").
Proof. reflexivity. Qed.

(** * The serviceman validator *)

Lemma match_NRIC_PATTERN u :
  ends_space u = false ->
  (Re.match_ NRIC_PATTERN u = true <-> nric_shape u).
Proof.
  intros Hu. rewrite (match_fullmatch _ _ Hu). unfold NRIC_PATTERN, nric_shape.
  destruct u as [|a u].
  - rewrite fullmatch_Class_Seq_nil. split; [discriminate|].
    intros (a & d & b & E & _). discriminate.
  - rewrite fullmatch_Class_Seq, fullmatch_Seq. split.
    + intros (Ha & d & r & -> & Hd%fullmatch_times & (b & -> & Hb)%fullmatch_Class).
      now exists a, d, b.
    + intros (a' & d & b & [= <- ->] & Ha & Hd & Hb). split; [exact Ha|].
      exists d, (String b ""). split; [reflexivity|].
      split; [now apply fullmatch_times|].
      apply fullmatch_Class. now exists b.
Qed.


Lemma ends_space_upper_strip s : ends_space (Py.upper (Py.strip s)) = false.
Proof. rewrite ends_space_upper. apply ends_space_strip. Qed.

Lemma truthy_true s : Py.truthy s = true <-> s <> "".
Proof. destruct s; simpl; split; congruence. Qed.

Lemma five_stripped (parts : list string) nric rank_name four_d nsf pes :
  map Py.strip parts = [nric; rank_name; four_d; nsf; pes] ->
  ends_space (Py.upper nric) = false /\ ends_space (Py.upper pes) = false.
Proof.
  destruct parts as [|a [|b [|c [|d [|e [|f l]]]]]]; try discriminate.
  intros [= <- _ _ _ <-]. split; apply ends_space_upper_strip.
Qed.



(** The validator raises no exception. *)
Lemma validate_serviceman_details_returns input :
  is_Some (validate_serviceman_details input).
Proof.
  unfold validate_serviceman_details.
  destruct (negb (Py.truthy (Py.strip input))); [eauto|].
  destruct (map Py.strip (Py.split_on "/" (Py.strip input)))
    as [|nric [|rank_name [|four_d [|nsf [|pes [|x l]]]]]] eqn:E; eauto.
  destruct (five_stripped _ _ _ _ _ _ E) as [Hn _].
  destruct (Re.match_ NRIC_PATTERN (Py.upper nric)) eqn:Hnric; cbn [negb]; [|eauto].
  apply (match_NRIC_PATTERN _ Hn) in Hnric as (a & d & b & Hu & _).
  destruct nric; [discriminate Hu|].
  repeat (destruct (negb _); [eauto|]). eauto.
Qed.



(** The rejected example of the specification. *)
Example validate_serviceman_details_G9 :
  validate_serviceman_details "T0123456D/PTE TAN/S1234/NSF/PES G9"
  = Some (false, "", "PES must be in format: PES [A-F][1-4] (e.g., PES B1)").
Proof. reflexivity. Qed.

(** * Contact numbers *)

Lemma all_chars_filter_chars p s : Py.all_chars p (Py.filter_chars p s) = true.
Proof.
  induction s as [|c s IH]; [reflexivity|].
  simpl. destruct (p c) eqn:Hc; [|exact IH]. simpl. now rewrite Hc.
Qed.

Lemma filter_chars_all p s : Py.all_chars p s = true -> Py.filter_chars p s = s.
Proof.
  induction s as [|c s IH]; [reflexivity|].
  simpl. intros [Hc Hs]%andb_true_iff. now rewrite Hc, IH.
Qed.

Lemma length_slice_from n s :
  String.length (Py.slice_from n s) = String.length s - n.
Proof.
  revert s. induction n as [|n IH]; intros [|c s]; simpl; try lia. apply IH.
Qed.

Lemma sub_class_idem cls s : Re.sub_class cls (Re.sub_class cls s) = Re.sub_class cls s.
Proof. apply filter_chars_all, all_chars_filter_chars. Qed.

Lemma clean_contact_number_idem s :
  clean_contact_number (clean_contact_number s) = clean_contact_number s.
Proof.
  unfold clean_contact_number.
  remember (Re.sub_class separator_class s) as f eqn:Ef.
  assert (Re.sub_class separator_class f = f) as Hf.
  { subst f. apply sub_class_idem. }
  destruct (Py.startswith f "65" && (String.length f =? 10)) eqn:Hc.
  - apply andb_true_iff in Hc as [_ Hl%Nat.eqb_eq].
    assert (Re.sub_class separator_class (Py.slice_from 2 f) = Py.slice_from 2 f) as ->.
    { subst f. apply filter_chars_all, all_chars_slice_from, all_chars_filter_chars. }
    assert ((String.length (Py.slice_from 2 f) =? 10) = false) as ->.
    { apply Nat.eqb_neq. rewrite length_slice_from. lia. }
    now rewrite andb_false_r.
  - now rewrite Hf, Hc.
Qed.

Lemma mobile_first_digit c : one_of "89" c = true -> Py.is_digit c = true.
Proof. each_char c. Qed.

Lemma mobile_number_digits n :
  mobile_number n -> chars_of Py.is_digit 8 n.
Proof.
  intros (c & d & -> & Hc & Hl & Hd). split; simpl; [now rewrite Hl|].
  now rewrite (mobile_first_digit _ Hc).
Qed.

Lemma clean_contact_number_mobile n :
  mobile_number n -> clean_contact_number n = n.
Proof.
  intros [Hl Hd]%mobile_number_digits. unfold clean_contact_number.
  assert (Re.sub_class separator_class n = n) as ->.
  { apply filter_chars_all. revert Hd. apply all_chars_impl.
    intros c Hc. now rewrite (digit_not_separator _ Hc). }
  rewrite Hl. now rewrite andb_false_r.
Qed.

Lemma validate_contact_number_mobile n :
  mobile_number n -> validate_contact_number n = (true, "").
Proof.
  intros Hn. pose proof (mobile_number_digits _ Hn) as [Hl Hd].
  assert (Py.all_chars no_space n = true) as Hns.
  { revert Hd. apply all_chars_impl. intros c Hc. unfold no_space.
    now rewrite (digit_not_space _ Hc). }
  unfold validate_contact_number. rewrite (strip_no_space _ Hns).
  rewrite (clean_contact_number_mobile _ Hn).
  assert (Re.match_ MOBILE_PATTERN n = true) as ->.
  { apply match_fullmatch; [now apply ends_space_no_space|].
    destruct Hn as (c & d & -> & Hc & Hd').
    apply fullmatch_Class_Seq. split; [exact Hc | now apply fullmatch_times]. }
  destruct n; [discriminate Hl | reflexivity].
Qed.

(** C5.  Contact normalization (remove white space, hyphens, plus signs
    and parentheses, then drop a leading "65" when ten characters remain)
    is idempotent; a valid eight-digit number, already normalized, is
    returned unchanged and accepted by the contact validator; and
    "+65 9123 4567", "91234567" and "9123-4567" all normalize to
    "91234567" and are accepted. *)
Theorem contact_normalization_idempotent :
  (forall s, clean_contact_number (clean_contact_number s) = clean_contact_number s) /\
  (forall n, mobile_number n ->
     clean_contact_number n = n /\ validate_contact_number n = (true, "")) /\
  clean_contact_number "+65 9123 4567" = "91234567" /\
  clean_contact_number "91234567" = "91234567" /\
  clean_contact_number "9123-4567" = "91234567" /\
  validate_contact_number "+65 9123 4567" = (true, "") /\
  validate_contact_number "91234567" = (true, "") /\
  validate_contact_number "9123-4567" = (true, "").
Proof.
  split; [exact clean_contact_number_idem|].
  split; [|now repeat split].
  intros n Hn. split;
    [now apply clean_contact_number_mobile | now apply validate_contact_number_mobile].
Qed.

(** The theorem at the number 91234567. *)
Lemma contact_normalization_idempotent_witness :
  mobile_number "91234567" /\
  clean_contact_number "91234567" = "91234567" /\
  validate_contact_number "91234567" = (true, "").
Proof.
  assert (mobile_number "91234567") as H.
  { exists "9"%char, "1234567". now repeat split. }
  split; [exact H|].
  exact (proj1 (proj2 contact_normalization_idempotent) "91234567" H).
Defined.

(** * Facts about the store *)

Section MonadFacts.
Context {A B : Type}.

Lemma exec_bind (m : M A) (k : A -> M B) w :
  exec (bind m k) w = exec (k (eval m w)) (exec m w).
Proof. unfold exec, eval, bind. now destruct (m w). Qed.

Lemma eval_bind (m : M A) (k : A -> M B) w :
  eval (bind m k) w = eval (k (eval m w)) (exec m w).
Proof. unfold exec, eval, bind. now destruct (m w). Qed.

Lemma exec_ret (a : A) w : exec (ret a) w = w.
Proof. reflexivity. Qed.

Lemma eval_ret (a : A) w : eval (ret a) w = a.
Proof. reflexivity. Qed.

Lemma quiet_bind (m : M A) (k : A -> M B) :
  quiet m -> (forall a, quiet (k a)) -> quiet (bind m k).
Proof. intros Hm Hk w. now rewrite exec_bind, Hk, Hm. Qed.

Lemma quiet_ret (a : A) : quiet (ret a).
Proof. now intros w. Qed.

Lemma local_bind uid (m : M A) (k : A -> M B) :
  local uid m -> (forall a, local uid (k a)) -> local uid (bind m k).
Proof.
  intros Hm Hk w. rewrite exec_bind.
  destruct (Hk (eval m w) (exec m w)) as [Hd Hu], (Hm w) as [Hd' Hu'].
  split; [congruence|]. intros u Hne. now rewrite Hu, Hu'.
Qed.

Lemma local_ret uid (a : A) : local uid (ret a).
Proof. now intros w. Qed.

Lemma reading_bind (m : M A) (k : A -> M B) :
  reading m -> (forall a, reading (k a)) -> reading (bind m k).
Proof. intros Hm Hk w u. now rewrite exec_bind, Hk, Hm. Qed.

Lemma reading_ret (a : A) : reading (ret a).
Proof. now intros w u. Qed.

End MonadFacts.

Create HintDb store discriminated.
Create Rewrite HintDb store.
#[global] Hint Resolve quiet_ret local_ret reading_ret : store.

(** Closure of [quiet], [local] and [reading] under the monad. *)
Ltac closure :=
  repeat first
    [ apply quiet_bind | apply local_bind | apply reading_bind
    | match goal with
      | |- forall _, _ => intro
      | |- reading (if ?b then _ else _) => destruct b
      | |- reading (match ?x with _ => _ end) => destruct x
      | |- quiet (if ?b then _ else _) => destruct b
      | |- local _ (if ?b then _ else _) => destruct b
      | |- quiet (match ?x with _ => _ end) => destruct x
      | |- local _ (match ?x with _ => _ end) => destruct x
      end
    | solve [auto with store] ].

Lemma profile_of_lookup w u p : users_data w !! u = Some p -> profile_of w u = p.
Proof. unfold profile_of. now intros ->. Qed.

(** *** The primitives *)

Lemma quiet_save_users : quiet _save_users.
Proof. now intros w. Qed.

Lemma local_save_users uid : local uid _save_users.
Proof. now intros w. Qed.

Lemma profile_of_save_users w u : profile_of (exec _save_users w) u = profile_of w u.
Proof. reflexivity. Qed.

Lemma quiet_put_profile uid p : quiet (put_profile uid p).
Proof. now intros w. Qed.

Lemma local_put_profile uid p : local uid (put_profile uid p).
Proof.
  intros w. split; [reflexivity|]. intros u Hne.
  unfold profile_of, exec, put_profile. simpl. now rewrite lookup_insert_ne.
Qed.

Lemma profile_of_put_profile uid p w :
  profile_of (exec (put_profile uid p) w) uid = p.
Proof. unfold profile_of, exec, put_profile. simpl. now rewrite lookup_insert_eq. Qed.

Lemma eval_get_user_profile uid w : eval (_get_user_profile uid) w = profile_of w uid.
Proof.
  unfold eval, _get_user_profile, profile_of.
  now destruct (users_data w !! uid).
Qed.

Lemma profile_of_get_user_profile uid w u :
  profile_of (exec (_get_user_profile uid) w) u = profile_of w u.
Proof.
  unfold exec, _get_user_profile.
  destruct (users_data w !! uid) eqn:E; [reflexivity|].
  unfold profile_of. simpl.
  destruct (decide (u = uid)) as [->|Hne].
  - now rewrite lookup_insert_eq, E.
  - now rewrite lookup_insert_ne.
Qed.

Lemma quiet_get_user_profile uid : quiet (_get_user_profile uid).
Proof.
  intros w. unfold exec, _get_user_profile. now destruct (users_data w !! uid).
Qed.

Lemma local_get_user_profile uid : local uid (_get_user_profile uid).
Proof.
  intros w. split; [|intros; apply profile_of_get_user_profile].
  unfold exec, _get_user_profile. now destruct (users_data w !! uid).
Qed.

Lemma reading_get_user_profile uid : reading (_get_user_profile uid).
Proof. intros w u. apply profile_of_get_user_profile. Qed.

Lemma reading_send o : reading (send o).
Proof. now intros w u. Qed.

Lemma local_send uid o : local uid (send o).
Proof. now intros w. Qed.

Lemma profile_of_send o w u : profile_of (exec (send o) w) u = profile_of w u.
Proof. reflexivity. Qed.

Lemma sent_send o w : sent (exec (send o) w) = sent w ++ [o].
Proof. reflexivity. Qed.

#[global] Hint Resolve quiet_save_users local_save_users quiet_put_profile
  local_put_profile quiet_get_user_profile local_get_user_profile local_send
  reading_get_user_profile reading_send : store.

(** *** The service operations *)

Lemma quiet_update_user_profile uid ups : quiet (_update_user_profile uid ups).
Proof. unfold _update_user_profile. closure. Qed.

Lemma local_update_user_profile uid ups : local uid (_update_user_profile uid ups).
Proof. unfold _update_user_profile. closure. Qed.

Lemma profile_of_update_user_profile uid ups w :
  profile_of (exec (_update_user_profile uid ups) w) uid
  = profile_update (profile_of w uid) ups.
Proof.
  unfold _update_user_profile.
  now rewrite !exec_bind, profile_of_save_users, profile_of_put_profile,
    eval_get_user_profile.
Qed.

Lemma eval_update_user_profile uid ups w :
  eval (_update_user_profile uid ups) w
  = disk_ok w (writes (exec (_get_user_profile uid) w)).
Proof.
  unfold _update_user_profile. rewrite !eval_bind.
  destruct (local_get_user_profile uid w) as [Hd _].
  unfold eval at 1, _save_users, exec at 1, put_profile. simpl.
  now rewrite Hd.
Qed.

#[global] Hint Resolve quiet_update_user_profile local_update_user_profile : store.

#[global] Hint Rewrite @exec_bind @eval_bind @exec_ret @eval_ret
  eval_get_user_profile profile_of_get_user_profile profile_of_save_users
  profile_of_put_profile profile_of_update_user_profile profile_of_send
  sent_send : store.

Ltac by_closure op := unfold op; closure.

(** Readers *)

Lemma reading_is_user_registered uid : reading (is_user_registered uid).
Proof. by_closure is_user_registered. Qed.
Lemma quiet_is_user_registered uid : quiet (is_user_registered uid).
Proof. by_closure is_user_registered. Qed.
Lemma local_is_user_registered uid : local uid (is_user_registered uid).
Proof. by_closure is_user_registered. Qed.
Lemma eval_is_user_registered uid w :
  eval (is_user_registered uid) w = p_registered (profile_of w uid).
Proof. unfold is_user_registered. now autorewrite with store. Qed.

Lemma reading_get_user_particulars uid : reading (get_user_particulars uid).
Proof. by_closure get_user_particulars. Qed.
Lemma quiet_get_user_particulars uid : quiet (get_user_particulars uid).
Proof. by_closure get_user_particulars. Qed.
Lemma local_get_user_particulars uid : local uid (get_user_particulars uid).
Proof. by_closure get_user_particulars. Qed.
Lemma eval_get_user_particulars uid w :
  eval (get_user_particulars uid) w
  = if p_registered (profile_of w uid)
    then Some (particulars_of (profile_of w uid))
    else None.
Proof.
  unfold get_user_particulars. autorewrite with store.
  now destruct (p_registered (profile_of w uid)).
Qed.

#[global] Hint Resolve reading_get_user_particulars quiet_get_user_particulars
  local_get_user_particulars reading_is_user_registered
  quiet_is_user_registered local_is_user_registered : store.

Lemma reading_get_formatted_particulars uid : reading (get_formatted_particulars uid).
Proof. by_closure get_formatted_particulars. Qed.
Lemma quiet_get_formatted_particulars uid : quiet (get_formatted_particulars uid).
Proof. by_closure get_formatted_particulars. Qed.
Lemma local_get_formatted_particulars uid : local uid (get_formatted_particulars uid).
Proof. by_closure get_formatted_particulars. Qed.

Lemma reading_get_user_state uid : reading (get_user_state uid).
Proof. by_closure get_user_state. Qed.
Lemma quiet_get_user_state uid : quiet (get_user_state uid).
Proof. by_closure get_user_state. Qed.
Lemma local_get_user_state uid : local uid (get_user_state uid).
Proof. by_closure get_user_state. Qed.
Lemma eval_get_user_state uid w :
  eval (get_user_state uid) w = p_state (profile_of w uid).
Proof. unfold get_user_state. now autorewrite with store. Qed.

Lemma reading_get_user_temp_data uid key : reading (get_user_temp_data uid key).
Proof. by_closure get_user_temp_data. Qed.
Lemma quiet_get_user_temp_data uid key : quiet (get_user_temp_data uid key).
Proof. by_closure get_user_temp_data. Qed.
Lemma local_get_user_temp_data uid key : local uid (get_user_temp_data uid key).
Proof. by_closure get_user_temp_data. Qed.
Lemma eval_get_user_temp_data uid key w :
  eval (get_user_temp_data uid key) w = p_temp_data (profile_of w uid) !! key.
Proof. unfold get_user_temp_data. now autorewrite with store. Qed.

Lemma reading_get_comprehensive_ir_data uid : reading (get_comprehensive_ir_data uid).
Proof. by_closure get_comprehensive_ir_data. Qed.
Lemma quiet_get_comprehensive_ir_data uid : quiet (get_comprehensive_ir_data uid).
Proof. by_closure get_comprehensive_ir_data. Qed.
Lemma local_get_comprehensive_ir_data uid : local uid (get_comprehensive_ir_data uid).
Proof. by_closure get_comprehensive_ir_data. Qed.

#[global] Hint Resolve reading_get_formatted_particulars
  quiet_get_formatted_particulars local_get_formatted_particulars
  reading_get_user_state quiet_get_user_state local_get_user_state
  reading_get_user_temp_data quiet_get_user_temp_data local_get_user_temp_data
  reading_get_comprehensive_ir_data quiet_get_comprehensive_ir_data
  local_get_comprehensive_ir_data : store.

(** Writers *)

Lemma quiet_register_user uid r n c u t : quiet (register_user uid r n c u t).
Proof. by_closure register_user. Qed.
Lemma local_register_user uid r n c u t : local uid (register_user uid r n c u t).
Proof. by_closure register_user. Qed.
Lemma profile_of_register_user uid r n c u t w :
  profile_of (exec (register_user uid r n c u t) w) uid
  = mkProfile (Some (Py.strip (Py.upper r))) (Some (Py.strip (Py.upper n)))
      (Some (Py.strip (Py.upper c))) (Some (Py.strip (Py.upper u)))
      (Some (clean_contact_number t)) true IDLE ∅.
Proof. unfold register_user. now autorewrite with store. Qed.

Lemma quiet_set_user_state uid st : quiet (set_user_state uid st).
Proof. by_closure set_user_state. Qed.
Lemma local_set_user_state uid st : local uid (set_user_state uid st).
Proof. by_closure set_user_state. Qed.
Lemma profile_of_set_user_state uid st w :
  profile_of (exec (set_user_state uid st) w) uid
  = profile_update (profile_of w uid)
      (if decide (st = IDLE) then [SetState st; SetTempData ∅] else [SetState st]).
Proof. unfold set_user_state. now autorewrite with store. Qed.

Lemma quiet_clear_user_state uid : quiet (clear_user_state uid).
Proof. by_closure clear_user_state. Qed.
Lemma local_clear_user_state uid : local uid (clear_user_state uid).
Proof. by_closure clear_user_state. Qed.
Lemma profile_of_clear_user_state uid w :
  profile_of (exec (clear_user_state uid) w) uid
  = profile_update (profile_of w uid) [SetState IDLE; SetTempData ∅].
Proof. unfold clear_user_state. now autorewrite with store. Qed.

Lemma quiet_store_user_temp_data uid k v : quiet (store_user_temp_data uid k v).
Proof. by_closure store_user_temp_data. Qed.
Lemma local_store_user_temp_data uid k v : local uid (store_user_temp_data uid k v).
Proof. by_closure store_user_temp_data. Qed.
Lemma profile_of_store_user_temp_data uid k v w :
  profile_of (exec (store_user_temp_data uid k v) w) uid
  = assign (profile_of w uid)
      (SetTempData (<[k := v]> (p_temp_data (profile_of w uid)))).
Proof. unfold store_user_temp_data. now autorewrite with store. Qed.

Lemma quiet_clear_user_temp_data uid : quiet (clear_user_temp_data uid).
Proof. by_closure clear_user_temp_data. Qed.
Lemma local_clear_user_temp_data uid : local uid (clear_user_temp_data uid).
Proof. by_closure clear_user_temp_data. Qed.

#[global] Hint Resolve quiet_register_user local_register_user
  quiet_set_user_state local_set_user_state quiet_clear_user_state
  local_clear_user_state quiet_store_user_temp_data local_store_user_temp_data
  quiet_clear_user_temp_data local_clear_user_temp_data : store.

#[global] Hint Rewrite eval_is_user_registered eval_get_user_particulars
  eval_get_user_state eval_get_user_temp_data profile_of_register_user
  profile_of_set_user_state profile_of_clear_user_state
  profile_of_store_user_temp_data : store.

Lemma quiet_start_ir_creation uid : quiet (start_ir_creation uid).
Proof. by_closure start_ir_creation. Qed.
Lemma local_start_ir_creation uid : local uid (start_ir_creation uid).
Proof. by_closure start_ir_creation. Qed.
Lemma profile_of_start_ir_creation uid w :
  profile_of (exec (start_ir_creation uid) w) uid
  = assign (assign (profile_of w uid) (SetState AWAITING_IR_TYPE))
      (SetTempData
         (fold_left (fun t key => delete key t) ir_keys
            (p_temp_data (profile_of w uid)))).
Proof. unfold start_ir_creation. now autorewrite with store. Qed.

Lemma quiet_store_ir_data uid k v : quiet (store_ir_data uid k v).
Proof. apply quiet_store_user_temp_data. Qed.
Lemma local_store_ir_data uid k v : local uid (store_ir_data uid k v).
Proof. apply local_store_user_temp_data. Qed.
Lemma profile_of_store_ir_data uid k v w :
  profile_of (exec (store_ir_data uid k v) w) uid
  = assign (profile_of w uid)
      (SetTempData (<[k := v]> (p_temp_data (profile_of w uid)))).
Proof. apply profile_of_store_user_temp_data. Qed.

Lemma quiet_update_single_field uid f v : quiet (update_single_field uid f v).
Proof. by_closure update_single_field. Qed.
Lemma local_update_single_field uid f v : local uid (update_single_field uid f v).
Proof. by_closure update_single_field. Qed.

Lemma quiet_complete_comprehensive_ir_creation uid :
  quiet (complete_comprehensive_ir_creation uid).
Proof. by_closure complete_comprehensive_ir_creation. Qed.
Lemma local_complete_comprehensive_ir_creation uid :
  local uid (complete_comprehensive_ir_creation uid).
Proof. by_closure complete_comprehensive_ir_creation. Qed.

#[global] Hint Resolve quiet_start_ir_creation local_start_ir_creation
  quiet_store_ir_data local_store_ir_data quiet_update_single_field
  local_update_single_field quiet_complete_comprehensive_ir_creation
  local_complete_comprehensive_ir_creation : store.
#[global] Hint Rewrite profile_of_start_ir_creation profile_of_store_ir_data : store.

(** * Menu selections *)

Lemma ir_type_selection_effect uid data label w :
  ir_type_map !! data = Some label ->
  Py.truthy label = true ->
  profile_of (exec (_handle_ir_type_selection uid data) w) uid
  = assign (assign (profile_of w uid)
              (SetTempData (<["ir_type" := label]> (p_temp_data (profile_of w uid)))))
      (SetState AWAITING_NATURE_TYPE).
Proof.
  intros E Hl. unfold _handle_ir_type_selection. rewrite E, Hl. cbn [negb].
  unfold edit_message_text. now autorewrite with store.
Qed.

Lemma nature_type_selection_effect uid data label w :
  nature_type_map !! data = Some label ->
  Py.truthy label = true ->
  profile_of (exec (_handle_nature_type_selection uid data) w) uid
  = assign (assign (profile_of w uid)
              (SetTempData (<["nature_type" := label]> (p_temp_data (profile_of w uid)))))
      (SetState AWAITING_DATE_TIME).
Proof.
  intros E Hl. unfold _handle_nature_type_selection. rewrite E, Hl. cbn [negb].
  unfold edit_message_text. now autorewrite with store.
Qed.

Lemma ir_type_map_keys data label :
  ir_type_map !! data = Some label ->
  Py.truthy label = true /\
  String.eqb data "new_ir" = false /\ Py.startswith data "ir_type_" = true.
Proof.
  intros E. apply elem_of_list_to_map_2 in E.
  rewrite !elem_of_cons, elem_of_nil in E.
  destruct E as [[= -> ->] | [[= -> ->] | [[= -> ->] | [[= -> ->] | []]]]];
    now repeat split.
Qed.

Lemma nature_type_map_keys data label :
  nature_type_map !! data = Some label ->
  Py.truthy label = true /\
  String.eqb data "new_ir" = false /\ Py.startswith data "ir_type_" = false /\
  Py.startswith data "nature_" = true.
Proof.
  intros E. apply elem_of_list_to_map_2 in E.
  rewrite !elem_of_cons, elem_of_nil in E.
  destruct E as [[= -> ->] | [[= -> ->] | []]]; now repeat split.
Qed.

(** C10.  Menu selections are dispatched on their payload alone: whatever
    the world, and so whatever the current state of the user, a recognized
    IR-type payload stores [ir_type] and sets the state to
    [AWAITING_NATURE_TYPE], and a recognized nature-type payload stores
    [nature_type] and sets the state to [AWAITING_DATE_TIME]. *)
Theorem selection_dispatch_ignores_state w uid data label :
  (ir_type_map !! data = Some label ->
   let p := profile_of (exec (handle_callback uid data) w) uid in
   p_state p = AWAITING_NATURE_TYPE /\ p_temp_data p !! "ir_type" = Some label) /\
  (nature_type_map !! data = Some label ->
   let p := profile_of (exec (handle_callback uid data) w) uid in
   p_state p = AWAITING_DATE_TIME /\ p_temp_data p !! "nature_type" = Some label).
Proof.
  split; intros E p; subst p.
  - destruct (ir_type_map_keys _ _ E) as (Hl & H1 & H2).
    unfold handle_callback. rewrite H1, H2.
    rewrite (ir_type_selection_effect _ _ _ _ E Hl). simpl.
    split; [reflexivity | apply lookup_insert_eq].
  - destruct (nature_type_map_keys _ _ E) as (Hl & H1 & H2 & H3).
    unfold handle_callback. rewrite H1, H2, H3.
    rewrite (nature_type_selection_effect _ _ _ _ E Hl). simpl.
    split; [reflexivity | apply lookup_insert_eq].
Qed.

(** The theorem for a user who has never been seen, hence idle and not
    in [AWAITING_IR_TYPE]. *)
Lemma selection_dispatch_ignores_state_witness :
  p_state (profile_of (world0 (fun _ => true)) "u") = IDLE /\
  (let p := profile_of (exec (handle_callback "u" "ir_type_update")
                          (world0 (fun _ => true))) "u" in
   p_state p = AWAITING_NATURE_TYPE /\ p_temp_data p !! "ir_type" = Some "UPDATE") /\
  (let p := profile_of (exec (handle_callback "u" "nature_training_related")
                          (world0 (fun _ => true))) "u" in
   p_state p = AWAITING_DATE_TIME /\
   p_temp_data p !! "nature_type" = Some "TRAINING RELATED").
Proof.
  split; [reflexivity|]. split.
  - apply (proj1 (selection_dispatch_ignores_state
                    (world0 (fun _ => true)) "u" "ir_type_update" "UPDATE")).
    reflexivity.
  - apply (proj2 (selection_dispatch_ignores_state
                    (world0 (fun _ => true)) "u" "nature_training_related"
                    "TRAINING RELATED")).
    reflexivity.
Defined.

(** * Entering the report flow *)

Lemma lookup_fold_delete_None (keys : list string) (m : gmap string string) k :
  m !! k = None -> fold_left (fun t key => delete key t) keys m !! k = None.
Proof.
  revert m. induction keys as [|a keys IH]; intros m Hm; [exact Hm|].
  simpl. apply IH. rewrite lookup_delete. now destruct (decide (a = k)).
Qed.

Lemma lookup_fold_delete (keys : list string) (m : gmap string string) k :
  k ∈ keys -> fold_left (fun t key => delete key t) keys m !! k = None.
Proof.
  revert m. induction keys as [|a keys IH]; intros m Hk.
  - now apply elem_of_nil in Hk.
  - simpl. destruct (decide (a = k)) as [->|Hne].
    + apply lookup_fold_delete_None, lookup_delete_eq.
    + apply IH. apply elem_of_cons in Hk as [->|Hk]; [congruence | exact Hk].
Qed.

Lemma sent_edit_message_text text kb w :
  sent (exec (edit_message_text text kb) w) = sent w ++ [EditMessageText text kb].
Proof. reflexivity. Qed.

Lemma sent_reply_text text kb w :
  sent (exec (reply_text text kb) w) = sent w ++ [ReplyText text kb].
Proof. reflexivity. Qed.

Lemma profile_of_edit_message_text text kb w u :
  profile_of (exec (edit_message_text text kb) w) u = profile_of w u.
Proof. reflexivity. Qed.

Lemma profile_of_reply_text text kb w u :
  profile_of (exec (reply_text text kb) w) u = profile_of w u.
Proof. reflexivity. Qed.

#[global] Hint Rewrite sent_edit_message_text sent_reply_text
  profile_of_edit_message_text profile_of_reply_text : store.

(** C2, as amended.  A 'new IR' request starts the report flow exactly
    when the record of the user is registered, whatever the current
    state: the state becomes [AWAITING_IR_TYPE], the draft keys are
    cleared and the IR-type menu is sent.  When the record is not
    registered the request is rejected: the user is told to complete
    registration and no record is changed. *)
Theorem new_ir_gate w uid :
  let w' := exec (handle_callback uid "new_ir") w in
  (p_registered (profile_of w uid) = true ->
   p_state (profile_of w' uid) = AWAITING_IR_TYPE /\
   (forall key, key ∈ ir_keys -> p_temp_data (profile_of w' uid) !! key = None) /\
   sent w' = sent w ++ [EditMessageText "Select the type of IR:" (Some ir_type_keyboard)]) /\
  (p_registered (profile_of w uid) = false ->
   (forall u, profile_of w' u = profile_of w u) /\
   sent w' = sent w ++
     [EditMessageText "Please complete registration first by using /start" None]).
Proof.
  intros w'. subst w'.
  change (handle_callback uid "new_ir") with (_handle_new_ir uid).
  unfold _handle_new_ir. rewrite exec_bind, eval_is_user_registered.
  split; intros Hr; rewrite Hr; cbn [negb].
  - autorewrite with store. split; [reflexivity|]. split.
    + intros key Hk. cbn [p_temp_data assign]. now apply lookup_fold_delete.
    + now rewrite quiet_start_ir_creation, quiet_is_user_registered.
  - autorewrite with store. split.
    + intros u. apply reading_is_user_registered.
    + now rewrite quiet_is_user_registered.
Qed.

(** C2, as stated, fails: a registered user who is editing the rank, and
    so is not idle, presses 'new IR' and the report flow starts. *)
Lemma new_ir_outside_idle :
  let w := exec (handle_callback "u" "edit_rank")
             (run registration_events (world0 (fun _ => true))) in
  p_registered (profile_of w "u") = true /\
  p_state (profile_of w "u") = EDITING_RANK /\
  p_state (profile_of (exec (handle_callback "u" "new_ir") w) "u") = AWAITING_IR_TYPE.
Proof. vm_compute. repeat split. Qed.

(** The theorem for a registered user and for an unknown one. *)
Lemma new_ir_gate_witness :
  (let w := run registration_events (world0 (fun _ => true)) in
   let w' := exec (handle_callback "u" "new_ir") w in
   p_registered (profile_of w "u") = true /\
   p_state (profile_of w' "u") = AWAITING_IR_TYPE /\
   (forall key, key ∈ ir_keys -> p_temp_data (profile_of w' "u") !! key = None) /\
   sent w' = sent w ++ [EditMessageText "Select the type of IR:" (Some ir_type_keyboard)]) /\
  (let w := world0 (fun _ => true) in
   let w' := exec (handle_callback "u" "new_ir") w in
   p_registered (profile_of w "u") = false /\
   (forall u, profile_of w' u = profile_of w u) /\
   sent w' = sent w ++
     [EditMessageText "Please complete registration first by using /start" None]).
Proof.
  split; intros w w'.
  - assert (p_registered (profile_of w "u") = true) as H by (vm_compute; reflexivity).
    split; [exact H|].
    exact (proj1 (new_ir_gate w "u") H).
  - assert (p_registered (profile_of w "u") = false) as H by reflexivity.
    split; [exact H|].
    exact (proj2 (new_ir_gate w "u") H).
Defined.

(** * Editing one field *)

Lemma exec_get_user_profile_registered uid w :
  p_registered (profile_of w uid) = true -> exec (_get_user_profile uid) w = w.
Proof.
  unfold profile_of, exec, _get_user_profile.
  destruct (users_data w !! uid); [reflexivity | discriminate].
Qed.

Lemma exec_get_user_state_registered uid w :
  p_registered (profile_of w uid) = true -> exec (get_user_state uid) w = w.
Proof.
  intros H. unfold get_user_state.
  now rewrite exec_bind, exec_ret, exec_get_user_profile_registered.
Qed.

Lemma profile_of_update_single_field uid f v w :
  profile_of (exec (update_single_field uid f v) w) uid
  = if p_registered (profile_of w uid)
    then assign (profile_of w uid) (SetField f (edited_value f v))
    else profile_of w uid.
Proof.
  unfold update_single_field. rewrite exec_bind, eval_get_user_profile.
  destruct (p_registered (profile_of w uid)); cbn [negb].
  - autorewrite with store. now destruct f.
  - now autorewrite with store.
Qed.

Lemma eval_update_single_field_registered uid f v w :
  p_registered (profile_of w uid) = true ->
  eval (update_single_field uid f v) w = disk_ok w (writes w).
Proof.
  intros H. unfold update_single_field.
  rewrite eval_bind, eval_get_user_profile, H. cbn [negb].
  rewrite eval_update_user_profile, !exec_get_user_profile_registered; try assumption.
  reflexivity.
Qed.

Lemma field_edit_success validate f label uid input w :
  p_registered (profile_of w uid) = true ->
  fst (validate input) = true ->
  disk_ok w (writes w) = true ->
  profile_of (exec (field_edit validate f label uid input) w) uid
  = profile_update (assign (profile_of w uid) (SetField f (edited_value f input)))
      [SetState IDLE; SetTempData ∅].
Proof.
  intros Hr Hv Hd. unfold field_edit.
  destruct (validate input) as [is_valid err]. simpl in Hv. subst is_valid.
  rewrite exec_bind, eval_update_single_field_registered, Hd by assumption.
  rewrite !exec_bind, eval_get_user_particulars. cbv zeta.
  rewrite profile_of_reply_text, !profile_of_update_single_field, Hr.
  assert (p_registered (assign (profile_of w uid) (SetField f (edited_value f input))) = true) as ->.
  { now destruct f. }
  cbn [format_details_updated_view details_lines].
  rewrite exec_bind, profile_of_set_user_state, profile_of_reply_text.
  rewrite reading_get_user_particulars, profile_of_reply_text.
  now rewrite profile_of_update_single_field, Hr.
Qed.

(** C8.  For a registered user in the editing state of a field, an input
    that the validator of the field accepts and whose write succeeds
    leaves the cleaned value in exactly that field, returns the state to
    [IDLE], and changes neither the other four particulars nor the
    registered flag. *)
Theorem single_field_edit w uid f text :
  p_registered (profile_of w uid) = true ->
  p_state (profile_of w uid) = editing_state f ->
  fst (field_validator f (Py.strip text)) = true ->
  disk_ok w (writes w) = true ->
  let p := profile_of w uid in
  let p' := profile_of (exec (handle_message uid text) w) uid in
  p_state p' = IDLE /\
  get_field f p' = Some (edited_value f (Py.strip text)) /\
  (forall g, g <> f -> get_field g p' = get_field g p) /\
  p_registered p' = true.
Proof.
  intros Hr Hs Hv Hd p p'. subst p p'.
  unfold handle_message.
  rewrite exec_bind, eval_get_user_state, Hs, exec_get_user_state_registered by assumption.
  destruct f; cbn [editing_state];
    unfold _handle_rank_edit, _handle_name_edit, _handle_company_edit,
      _handle_unit_edit, _handle_contact_edit;
    rewrite field_edit_success by assumption;
    (split; [reflexivity|]); (split; [reflexivity|]);
    (split; [|exact Hr]); intros [] Hg; try congruence; reflexivity.
Qed.

(** The theorem for a registered captain who edits the rank to MAJ. *)
Lemma single_field_edit_witness :
  let w := exec (handle_callback "u" "edit_rank")
             (run registration_events (world0 (fun _ => true))) in
  let p := profile_of w "u" in
  let p' := profile_of (exec (handle_message "u" " maj ") w) "u" in
  p_state p' = IDLE /\
  get_field field_rank p' = Some (edited_value field_rank (Py.strip " maj ")) /\
  (forall g, g <> field_rank -> get_field g p' = get_field g p) /\
  p_registered p' = true.
Proof.
  apply (single_field_edit _ "u" field_rank " maj "); vm_compute; reflexivity.
Defined.

(** * The invariant of the store *)

Section TidyFacts.
Context {A B : Type} (uid : string).

Lemma keeps_bind (m : M A) (k : A -> M B) :
  keeps uid m -> (forall a, keeps uid (k a)) -> keeps uid (bind m k).
Proof. intros Hm Hk w Hw. rewrite exec_bind. now apply Hk, Hm. Qed.

Lemma establishes_bind_l (m : M A) (k : A -> M B) :
  establishes uid m -> (forall a, keeps uid (k a)) -> establishes uid (bind m k).
Proof. intros Hm Hk w. rewrite exec_bind. apply Hk, Hm. Qed.

Lemma establishes_bind_r (m : M A) (k : A -> M B) :
  (forall a, establishes uid (k a)) -> establishes uid (bind m k).
Proof. intros Hk w. rewrite exec_bind. apply Hk. Qed.

Lemma keeps_establishes (m : M A) : establishes uid m -> keeps uid m.
Proof. intros Hm w _. apply Hm. Qed.

Lemma keeps_reading (m : M A) : reading m -> keeps uid m.
Proof. intros Hm w Hw. now rewrite Hm. Qed.

Lemma keeps_ret (a : A) : keeps uid (ret a).
Proof. now intros w Hw. Qed.

End TidyFacts.

Lemma establishes_set_user_state uid st : establishes uid (set_user_state uid st).
Proof.
  intros w. rewrite profile_of_set_user_state. unfold tidy.
  destruct (decide (st = IDLE)) as [->|Hne]; simpl; [reflexivity|].
  intros Habs. congruence.
Qed.

Lemma establishes_register_user uid r n c u t :
  establishes uid (register_user uid r n c u t).
Proof. intros w. rewrite profile_of_register_user. now unfold tidy. Qed.

Lemma establishes_start_ir_creation uid : establishes uid (start_ir_creation uid).
Proof. intros w. rewrite profile_of_start_ir_creation. unfold tidy. discriminate. Qed.

Lemma establishes_complete_comprehensive_ir_creation uid :
  establishes uid (complete_comprehensive_ir_creation uid).
Proof.
  unfold complete_comprehensive_ir_creation.
  apply establishes_bind_r. intros ir_data.
  apply establishes_bind_l; [apply establishes_set_user_state|].
  intros []. apply keeps_ret.
Qed.

Lemma keeps_update_single_field uid f v : keeps uid (update_single_field uid f v).
Proof.
  intros w Hw. rewrite profile_of_update_single_field.
  destruct (p_registered (profile_of w uid)); [|exact Hw].
  now destruct f.
Qed.

Lemma keeps_send uid o : keeps uid (send o).
Proof. now intros w Hw. Qed.

Create HintDb tidy discriminated.
#[global] Hint Resolve keeps_ret keeps_send keeps_update_single_field
  establishes_set_user_state establishes_register_user
  establishes_start_ir_creation establishes_complete_comprehensive_ir_creation
  : tidy.
#[global] Hint Extern 1 (keeps _ _) => (apply keeps_reading; solve [auto with store]) : tidy.

(** Search for a proof of [keeps] or [establishes] along the binds. *)
Ltac tidy_step :=
  lazymatch goal with
  | |- forall _, _ => intro; tidy_step
  | |- keeps _ (bind _ _) =>
      first [ apply keeps_bind; [tidy_step | tidy_step]
            | apply keeps_establishes; tidy_step ]
  | |- establishes _ (bind _ _) =>
      first [ apply establishes_bind_r; tidy_step
            | apply establishes_bind_l; [tidy_step | tidy_step] ]
  | |- keeps _ (if ?b then _ else _) => destruct b; tidy_step
  | |- establishes _ (if ?b then _ else _) => destruct b; tidy_step
  | |- keeps _ (match ?x with _ => _ end) => destruct x; tidy_step
  | |- establishes _ (match ?x with _ => _ end) => destruct x; tidy_step
  | |- keeps _ _ =>
      first [ solve [auto with tidy] | apply keeps_establishes; solve [auto with tidy] ]
  | |- establishes _ _ => solve [auto with tidy]
  end.

(** The handlers, down to the service operations. *)
Ltac unfold_handlers :=
  unfold handle, start_command, handle_message, handle_callback,
    _handle_rank_input, _handle_name_input, _handle_company_input,
    _handle_unit_input, _handle_contact_input, _handle_date_time_input,
    _handle_serviceman_input, _handle_location_input, _handle_injury_input,
    _handle_description_input, _handle_followup_input, _handle_rank_edit,
    _handle_name_edit, _handle_company_edit, _handle_unit_edit,
    _handle_contact_edit, registration_input, ir_content_input, field_edit,
    _generate_comprehensive_ir_report, _handle_new_ir,
    _handle_ir_type_selection, _handle_nature_type_selection,
    _handle_my_details, _handle_edit_field, _handle_back_to_main,
    reply_text, edit_message_text.

Lemma keeps_handle e : keeps (event_user e) (handle e).
Proof.
  destruct e as [uid | uid text | uid data]; cbn [event_user]; unfold_handlers.
  - tidy_step.
  - tidy_step.
  - tidy_step.
Qed.

Lemma local_handle e : local (event_user e) (handle e).
Proof.
  destruct e as [uid | uid text | uid data]; cbn [event_user]; unfold_handlers;
    closure.
Qed.

Lemma tidy_profile_of w u : idle_scratch_empty w -> tidy (profile_of w u).
Proof.
  intros Hw. unfold profile_of.
  destruct (users_data w !! u) as [p|] eqn:E; [now apply (Hw u) | now intros _].
Qed.

Lemma idle_scratch_empty_handle e w :
  idle_scratch_empty w -> idle_scratch_empty (exec (handle e) w).
Proof.
  intros Hw u p Hl. rewrite <- (profile_of_lookup _ _ _ Hl).
  destruct (decide (u = event_user e)) as [->|Hne].
  - apply keeps_handle. now apply tidy_profile_of.
  - destruct (local_handle e w) as [_ Hu]. rewrite (Hu u Hne).
    now apply tidy_profile_of.
Qed.

Lemma idle_scratch_empty_run es w :
  idle_scratch_empty w -> idle_scratch_empty (run es w).
Proof.
  revert w. induction es as [|e es IH]; intros w Hw; [exact Hw|].
  simpl. now apply IH, idle_scratch_empty_handle.
Qed.

(** C9.  [current_state == IDLE] implies an empty scratch, for every
    record, after every completed operation: the invariant holds of the
    empty store, every inbound event preserves it, so it holds after any
    sequence of events; and each operation that sets the state to [IDLE]
    ([set_user_state], [clear_user_state],
    [complete_comprehensive_ir_creation], [register_user]) leaves the
    scratch empty. *)
Theorem idle_implies_empty_scratch :
  (forall ok, idle_scratch_empty (world0 ok)) /\
  (forall e w, idle_scratch_empty w -> idle_scratch_empty (exec (handle e) w)) /\
  (forall es ok, idle_scratch_empty (run es (world0 ok))) /\
  (forall uid w,
     let p := profile_of (exec (set_user_state uid IDLE) w) uid in
     p_state p = IDLE /\ p_temp_data p = ∅) /\
  (forall uid w,
     let p := profile_of (exec (clear_user_state uid) w) uid in
     p_state p = IDLE /\ p_temp_data p = ∅) /\
  (forall uid w,
     let p := profile_of (exec (complete_comprehensive_ir_creation uid) w) uid in
     p_state p = IDLE /\ p_temp_data p = ∅) /\
  (forall uid rank name company unit contact w,
     let p := profile_of (exec (register_user uid rank name company unit contact) w) uid in
     p_state p = IDLE /\ p_temp_data p = ∅).
Proof.
  assert (forall ok, idle_scratch_empty (world0 ok)) as H0.
  { intros ok u p Hl. simpl in Hl. now rewrite lookup_empty in Hl. }
  split; [exact H0|].
  split; [exact idle_scratch_empty_handle|].
  split; [intros es ok; apply idle_scratch_empty_run, H0|].
  split; [|split; [|split]]; intros uid.
  - intros w p. subst p. now rewrite profile_of_set_user_state.
  - intros w p. subst p. now rewrite profile_of_clear_user_state.
  - intros w p. subst p. unfold complete_comprehensive_ir_creation.
    rewrite !exec_bind, exec_ret. now rewrite profile_of_set_user_state.
  - intros r n c u t w p. subst p. now rewrite profile_of_register_user.
Qed.

(** The theorem on the empty store and the first event. *)
Lemma idle_implies_empty_scratch_witness :
  let w := world0 (fun _ => true) in
  idle_scratch_empty w /\
  idle_scratch_empty (exec (handle (ButtonPress "u" "ir_type_initial")) w).
Proof.
  intros w.
  assert (idle_scratch_empty w) as H.
  { intros u p Hl. simpl in Hl. rewrite lookup_empty in Hl. discriminate. }
  split; [exact H|].
  exact (proj1 (proj2 idle_implies_empty_scratch) _ w H).
Defined.

(** * Final reports *)

(** Equations for rewriting. *)
Lemma sent_store_ir_data uid k v w : sent (exec (store_ir_data uid k v) w) = sent w.
Proof. apply quiet_store_ir_data. Qed.
Lemma sent_store_user_temp_data uid k v w :
  sent (exec (store_user_temp_data uid k v) w) = sent w.
Proof. apply quiet_store_user_temp_data. Qed.
Lemma sent_set_user_state uid st w : sent (exec (set_user_state uid st) w) = sent w.
Proof. apply quiet_set_user_state. Qed.
Lemma sent_get_user_state uid w : sent (exec (get_user_state uid) w) = sent w.
Proof. apply quiet_get_user_state. Qed.
Lemma sent_get_user_temp_data uid k w : sent (exec (get_user_temp_data uid k) w) = sent w.
Proof. apply quiet_get_user_temp_data. Qed.
Lemma sent_get_user_particulars uid w : sent (exec (get_user_particulars uid) w) = sent w.
Proof. apply quiet_get_user_particulars. Qed.
Lemma sent_get_formatted_particulars uid w :
  sent (exec (get_formatted_particulars uid) w) = sent w.
Proof. apply quiet_get_formatted_particulars. Qed.
Lemma sent_register_user uid r n c u t w :
  sent (exec (register_user uid r n c u t) w) = sent w.
Proof. apply quiet_register_user. Qed.
Lemma sent_complete_comprehensive_ir_creation uid w :
  sent (exec (complete_comprehensive_ir_creation uid) w) = sent w.
Proof. apply quiet_complete_comprehensive_ir_creation. Qed.

Lemma profile_of_get_user_state uid w u :
  profile_of (exec (get_user_state uid) w) u = profile_of w u.
Proof. apply reading_get_user_state. Qed.
Lemma profile_of_get_user_temp_data uid k w u :
  profile_of (exec (get_user_temp_data uid k) w) u = profile_of w u.
Proof. apply reading_get_user_temp_data. Qed.
Lemma profile_of_get_user_particulars uid w u :
  profile_of (exec (get_user_particulars uid) w) u = profile_of w u.
Proof. apply reading_get_user_particulars. Qed.
Lemma profile_of_get_formatted_particulars uid w u :
  profile_of (exec (get_formatted_particulars uid) w) u = profile_of w u.
Proof. apply reading_get_formatted_particulars. Qed.

Lemma eval_get_comprehensive_ir_data uid w :
  eval (get_comprehensive_ir_data uid) w = draft_of (p_temp_data (profile_of w uid)).
Proof. unfold get_comprehensive_ir_data. now autorewrite with store. Qed.

Lemma eval_complete_comprehensive_ir_creation uid w :
  eval (complete_comprehensive_ir_creation uid) w
  = draft_of (p_temp_data (profile_of w uid)).
Proof.
  unfold complete_comprehensive_ir_creation.
  now rewrite !eval_bind, eval_ret, eval_get_comprehensive_ir_data.
Qed.

Lemma profile_of_complete_comprehensive_ir_creation uid w :
  profile_of (exec (complete_comprehensive_ir_creation uid) w) uid
  = profile_update (profile_of w uid) [SetState IDLE; SetTempData ∅].
Proof.
  unfold complete_comprehensive_ir_creation.
  rewrite !exec_bind, exec_ret, profile_of_set_user_state.
  now rewrite reading_get_comprehensive_ir_data.
Qed.

#[global] Hint Rewrite sent_store_ir_data sent_store_user_temp_data
  sent_set_user_state sent_get_user_state sent_get_user_temp_data
  sent_get_user_particulars sent_get_formatted_particulars sent_register_user
  sent_complete_comprehensive_ir_creation profile_of_get_user_state
  profile_of_get_user_temp_data profile_of_get_user_particulars
  profile_of_get_formatted_particulars eval_complete_comprehensive_ir_creation
  profile_of_complete_comprehensive_ir_creation : store.

(** The report step: the draft is taken and the state set to [IDLE]; the
    report is sent when the particulars are there, the system error
    otherwise. *)
Lemma generate_report_state uid w :
  profile_of (exec (_generate_comprehensive_ir_report uid) w) uid
  = profile_update (profile_of w uid) [SetState IDLE; SetTempData ∅].
Proof.
  unfold _generate_comprehensive_ir_report. rewrite !exec_bind.
  destruct (generate_comprehensive_ir_report _ _); [rewrite exec_bind|];
    now autorewrite with store.
Qed.

Lemma generate_report_sent uid w :
  let p := profile_of w uid in
  let w' := exec (_generate_comprehensive_ir_report uid) w in
  (p_registered p = true ->
   exists report,
     generate_comprehensive_ir_report (draft_of (p_temp_data p))
       (Some (particulars_of p)) = Some report /\
     sent w' = sent w ++ report_messages report) /\
  (p_registered p = false ->
   sent w' = sent w ++ [ReplyText format_system_error None]).
Proof.
  intros p w'. subst p w'. unfold _generate_comprehensive_ir_report.
  rewrite !exec_bind. autorewrite with store.
  assert (p_registered (profile_update (profile_of w uid) [SetState IDLE; SetTempData ∅])
          = p_registered (profile_of w uid)) as -> by reflexivity.
  assert (particulars_of (profile_update (profile_of w uid) [SetState IDLE; SetTempData ∅])
          = particulars_of (profile_of w uid)) as -> by reflexivity.
  split; intros Hr; rewrite Hr; cbn [generate_comprehensive_ir_report].
  - autorewrite with store. eexists. split; [reflexivity|].
    unfold report_messages. now rewrite <- app_assoc.
  - now autorewrite with store.
Qed.

Lemma final_test o :
  Py.truthy_opt o && Py.contains "FINAL" (default "" o)
  = match o with Some label => Py.contains "FINAL" label | None => false end.
Proof. now destruct o as [[|c l]|]. Qed.

Lemma followup_draft_of t v : followup (draft_of (<["followup" := v]> t)) = v.
Proof. unfold draft_of. cbn [followup]. now rewrite lookup_insert_eq. Qed.

(** What the report step finds after [key] has been stored last. *)
Lemma report_after_store uid key v w :
  let p := profile_of w uid in
  let w' := exec (store_ir_data uid key v ;; _generate_comprehensive_ir_report uid) w in
  let draft := draft_of (<[key := v]> (p_temp_data p)) in
  p_state (profile_of w' uid) = IDLE /\
  (p_registered p = true ->
   exists report,
     generate_comprehensive_ir_report draft (Some (particulars_of p)) = Some report /\
     sent w' = sent w ++ report_messages report) /\
  (p_registered p = false ->
   sent w' = sent w ++ [ReplyText format_system_error None]).
Proof.
  intros p w' draft. subst p w' draft. rewrite exec_bind.
  set (W := exec (store_ir_data uid key v) w).
  assert (profile_of W uid
          = assign (profile_of w uid)
              (SetTempData (<[key := v]> (p_temp_data (profile_of w uid))))) as HW.
  { unfold W. now autorewrite with store. }
  assert (sent W = sent w) as HsW.
  { unfold W. now autorewrite with store. }
  destruct (generate_report_sent uid W) as [Hreg Hunreg].
  rewrite generate_report_state, HW in *. rewrite HsW in *.
  split; [reflexivity|]. split; [exact Hreg | exact Hunreg].
Qed.

Lemma description_input_final uid input w :
  fst (validate_ir_content input) = true ->
  is_final (p_temp_data (profile_of w uid)) = true ->
  let p := profile_of w uid in
  let w' := exec (_handle_description_input uid input) w in
  let draft :=
    draft_of (<["followup" := "This serves as a final report"]>
                (<["description" := Py.strip input]> (p_temp_data p))) in
  p_state (profile_of w' uid) = IDLE /\
  (p_registered p = true ->
   exists report,
     generate_comprehensive_ir_report draft (Some (particulars_of p)) = Some report /\
     sent w' = sent w ++ report_messages report) /\
  (p_registered p = false ->
   sent w' = sent w ++ [ReplyText format_system_error None]).
Proof.
  intros Hv Hf p w' draft. subst p w' draft.
  unfold _handle_description_input.
  destruct (validate_ir_content input) as [is_valid err]. simpl in Hv. subst is_valid.
  rewrite !exec_bind, eval_get_user_temp_data, profile_of_store_ir_data.
  cbn [p_temp_data assign]. rewrite lookup_insert_ne by done.
  rewrite final_test. fold (is_final (p_temp_data (profile_of w uid))). rewrite Hf.
  set (W := exec (get_user_temp_data uid "ir_type")
              (exec (store_ir_data uid "description" (Py.strip input)) w)).
  assert (profile_of W uid
          = assign (profile_of w uid)
              (SetTempData (<["description" := Py.strip input]>
                              (p_temp_data (profile_of w uid))))) as HW.
  { unfold W. now autorewrite with store. }
  assert (sent W = sent w) as HsW.
  { unfold W. now autorewrite with store. }
  pose proof (report_after_store uid "followup" "This serves as a final report" W)
    as H.
  cbv zeta in H. rewrite HW, HsW in H. exact H.
Qed.

Lemma description_input_not_final uid input w :
  fst (validate_ir_content input) = true ->
  is_final (p_temp_data (profile_of w uid)) = false ->
  let p := profile_of w uid in
  let w' := exec (_handle_description_input uid input) w in
  p_state (profile_of w' uid) = AWAITING_FOLLOWUP /\
  p_temp_data (profile_of w' uid) = <["description" := Py.strip input]> (p_temp_data p) /\
  sent w' = sent w ++ [ReplyText format_followup_prompt None].
Proof.
  intros Hv Hf p w'. subst p w'.
  unfold _handle_description_input.
  destruct (validate_ir_content input) as [is_valid err]. simpl in Hv. subst is_valid.
  rewrite !exec_bind, eval_get_user_temp_data, profile_of_store_ir_data.
  cbn [p_temp_data assign]. rewrite lookup_insert_ne by done.
  rewrite final_test. fold (is_final (p_temp_data (profile_of w uid))). rewrite Hf.
  rewrite exec_bind. autorewrite with store. now repeat split.
Qed.

Lemma followup_input_valid uid input w :
  fst (validate_ir_content input) = true ->
  let p := profile_of w uid in
  let w' := exec (_handle_followup_input uid input) w in
  let draft := draft_of (<["followup" := Py.strip input]> (p_temp_data p)) in
  p_state (profile_of w' uid) = IDLE /\
  (p_registered p = true ->
   exists report,
     generate_comprehensive_ir_report draft (Some (particulars_of p)) = Some report /\
     sent w' = sent w ++ report_messages report) /\
  (p_registered p = false ->
   sent w' = sent w ++ [ReplyText format_system_error None]).
Proof.
  intros Hv p w' draft. subst p w' draft.
  unfold _handle_followup_input.
  destruct (validate_ir_content input) as [is_valid err]. simpl in Hv. subst is_valid.
  exact (report_after_store uid "followup" (Py.strip input) w).
Qed.

Lemma followup_input_invalid uid input w :
  fst (validate_ir_content input) = false ->
  let w' := exec (_handle_followup_input uid input) w in
  profile_of w' uid = profile_of w uid /\
  sent w' = sent w ++
    [ReplyText (format_validation_error (snd (validate_ir_content input))) None].
Proof.
  intros Hv w'. subst w'. unfold _handle_followup_input.
  destruct (validate_ir_content input) as [is_valid err]. simpl in Hv. subst is_valid.
  now autorewrite with store.
Qed.

Lemma draft_of_followup t v : draft_of (<["followup" := v]> t) = draft_with t v.
Proof.
  unfold draft_of, draft_with.
  rewrite !lookup_insert_ne by done. now rewrite lookup_insert_eq.
Qed.

Lemma report_sections draft pa report :
  generate_comprehensive_ir_report draft (Some pa) = Some report ->
  exists head tail,
    report = head +:+ closing_sections (description draft) (followup draft) +:+ tail.
Proof.
  intros [= <-].
  exists (date_incident draft +:+ " / " +:+ Py.fmt (pa_unit pa) +:+ " / XX / "
          +:+ Py.fmt (pa_company pa) +:+ " - " +:+ ir_type draft +:+ NL
          +:+ "1) Nature and Type of Incident:" +:+ NL
          +:+ nature_type draft +:+ NL +:+ NL
          +:+ "2) Date and Time of Incident:" +:+ NL
          +:+ date_incident draft +:+ " " +:+ time_incident draft +:+ "HRS"
          +:+ NL +:+ NL
          +:+ "3) Serviceman Involved:" +:+ NL
          +:+ serviceman_details draft +:+ NL +:+ NL
          +:+ "4) Location of Incident:" +:+ NL
          +:+ location draft +:+ NL +:+ NL
          +:+ "5) Injury/Damage:" +:+ NL
          +:+ injury_damage draft +:+ NL +:+ NL).
  exists (NL +:+ "a) NOK:YES" +:+ NL
          +:+ "b) Date/Time of Verbal Report to GSOC:" +:+ NL
          +:+ "c) Date/Time of ESIS Report:" +:+ NL
          +:+ "d) Date/Time reported to 9DIV DOO:" +:+ NL +:+ NL
          +:+ "9) Unit Reporting POC:" +:+ NL
          +:+ Py.fmt (pa_rank pa) +:+ " " +:+ Py.fmt (pa_full_name pa) +:+ NL
          +:+ "PC / " +:+ Py.fmt (pa_company pa) +:+ "/ " +:+ Py.fmt (pa_unit pa) +:+ NL
          +:+ Py.fmt (pa_contact_number pa)).
  unfold closing_sections. now rewrite !append_assoc.
Qed.

(** C7, as amended.  After a description that validates: when the stored
    report type contains "FINAL", the state is [IDLE],
    [AWAITING_FOLLOWUP] being skipped, and for a registered user the
    report is rendered at once from the draft with the fixed sentence as
    its follow-up, and carries the description just sent and that
    sentence in its sections 6 and 7; otherwise the state becomes
    [AWAITING_FOLLOWUP] and only the follow-up prompt is sent.  In
    [AWAITING_FOLLOWUP] a follow-up that validates ends the dialogue, and
    for a registered user the report is rendered with it in section 7;
    one that does not validate is answered with the validation error and
    changes nothing. *)
Theorem final_reports_skip_followup w uid text :
  let p := profile_of w uid in
  let input := Py.strip text in
  let w' := exec (handle_message uid text) w in
  (p_state p = AWAITING_DESCRIPTION ->
   fst (validate_ir_content input) = true ->
   if is_final (p_temp_data p) then
     p_state (profile_of w' uid) = IDLE /\
     (p_registered p = true ->
      exists report head tail,
        generate_comprehensive_ir_report
          (draft_with (<["description" := Py.strip input]> (p_temp_data p))
             "This serves as a final report")
          (Some (particulars_of p)) = Some report /\
        report = head +:+ closing_sections (Py.strip input)
                            "This serves as a final report" +:+ tail /\
        sent w' = sent w ++ report_messages report)
   else
     p_state (profile_of w' uid) = AWAITING_FOLLOWUP /\
     p_temp_data (profile_of w' uid)
     = <["description" := Py.strip input]> (p_temp_data p) /\
     sent w' = sent w ++ [ReplyText format_followup_prompt None]) /\
  (p_state p = AWAITING_FOLLOWUP ->
   if fst (validate_ir_content input) then
     p_state (profile_of w' uid) = IDLE /\
     (p_registered p = true ->
      exists report head tail,
        generate_comprehensive_ir_report (draft_with (p_temp_data p) (Py.strip input))
          (Some (particulars_of p)) = Some report /\
        report = head +:+ closing_sections (default "" (p_temp_data p !! "description"))
                            (Py.strip input) +:+ tail /\
        sent w' = sent w ++ report_messages report)
   else
     profile_of w' uid = p /\
     sent w' = sent w ++
       [ReplyText (format_validation_error (snd (validate_ir_content input))) None]).
Proof.
  intros p input w'. subst p input w'.
  unfold handle_message. rewrite exec_bind, eval_get_user_state.
  set (W := exec (get_user_state uid) w).
  assert (profile_of W uid = profile_of w uid) as HW
    by apply profile_of_get_user_state.
  assert (sent W = sent w) as HsW by apply sent_get_user_state.
  rewrite <- HW, <- HsW.
  split; intros Hs; rewrite Hs.
  - intros Hv.
    destruct (is_final (p_temp_data (profile_of W uid))) eqn:Hf.
    + destruct (description_input_final uid (Py.strip text) W Hv Hf) as (Hst & Hreg & _).
      split; [exact Hst|]. intros Hr.
      destruct (Hreg Hr) as (report & Hrep & Hsent).
      rewrite draft_of_followup in Hrep.
      destruct (report_sections _ _ _ Hrep) as (head & tail & E).
      exists report, head, tail. split; [exact Hrep|]. split; [|exact Hsent].
      rewrite E. cbn [draft_with description followup].
      now rewrite lookup_insert_eq.
    + now apply description_input_not_final.
  - destruct (fst (validate_ir_content (Py.strip text))) eqn:Hv.
    + destruct (followup_input_valid uid (Py.strip text) W Hv) as (Hst & Hreg & _).
      split; [exact Hst|]. intros Hr.
      destruct (Hreg Hr) as (report & Hrep & Hsent).
      rewrite draft_of_followup in Hrep.
      destruct (report_sections _ _ _ Hrep) as (head & tail & E).
      exists report, head, tail. split; [exact Hrep|]. split; [exact E | exact Hsent].
    + now apply followup_input_invalid.
Qed.

(** C7, as stated, fails: the type and nature buttons are open to a user
    who is not registered, who so reaches [AWAITING_DESCRIPTION] with a
    draft of a final type; the description validates, the follow-up step
    is skipped, but no report is rendered: the only answer is the system
    error, and the draft is gone. *)
Lemma final_report_of_unregistered_user :
  let w := run (report_events "ir_type_update_and_final") (world0 (fun _ => true)) in
  let w' := exec (handle_message "u" "Fell during training") w in
  p_registered (profile_of w "u") = false /\
  p_state (profile_of w "u") = AWAITING_DESCRIPTION /\
  is_final (p_temp_data (profile_of w "u")) = true /\
  fst (validate_ir_content (Py.strip "Fell during training")) = true /\
  sent w' = sent w ++ [ReplyText format_system_error None] /\
  p_state (profile_of w' "u") = IDLE /\
  p_temp_data (profile_of w' "u") = ∅.
Proof.
  vm_compute. repeat (split; [reflexivity|]). reflexivity.
Qed.

(** The theorem on a final and on a non-final report of a registered
    user. *)
Lemma final_reports_skip_followup_witness :
  (let w := run (registration_events ++ report_events "ir_type_update_and_final")
              (world0 (fun _ => true)) in
   let w' := exec (handle_message "u" "Fell during training") w in
   p_state (profile_of w "u") = AWAITING_DESCRIPTION /\
   p_state (profile_of w' "u") = IDLE /\
   exists report head tail,
     report = head +:+ closing_sections "Fell during training"
                         "This serves as a final report" +:+ tail /\
     sent w' = sent w ++ report_messages report) /\
  (let w := run (registration_events ++ report_events "ir_type_update"
                   ++ [TextMessage "u" "Fell during training"])
              (world0 (fun _ => true)) in
   let w' := exec (handle_message "u" "160625 1800HRS - seen by MO") w in
   p_state (profile_of w "u") = AWAITING_FOLLOWUP /\
   p_state (profile_of w' "u") = IDLE /\
   exists report head tail,
     report = head +:+ closing_sections "Fell during training"
                         "160625 1800HRS - seen by MO" +:+ tail /\
     sent w' = sent w ++ report_messages report).
Proof.
  split; intros w w'.
  - assert (p_registered (profile_of w "u") = true) as Hr by (vm_compute; reflexivity).
    assert (p_state (profile_of w "u") = AWAITING_DESCRIPTION) as Hs
      by (vm_compute; reflexivity).
    split; [exact Hs|].
    pose proof (proj1 (final_reports_skip_followup w "u" "Fell during training") Hs)
      as H.
    assert (is_final (p_temp_data (profile_of w "u")) = true) as Hf
      by (vm_compute; reflexivity).
    rewrite Hf in H. destruct (H eq_refl) as (Hst & Hreg).
    destruct (Hreg Hr) as (report & head & tail & _ & E & Hsent).
    split; [exact Hst|]. exists report, head, tail. split; [exact E | exact Hsent].
  - assert (p_registered (profile_of w "u") = true) as Hr by (vm_compute; reflexivity).
    assert (p_state (profile_of w "u") = AWAITING_FOLLOWUP) as Hs
      by (vm_compute; reflexivity).
    split; [exact Hs|].
    pose proof (proj2 (final_reports_skip_followup w "u" "160625 1800HRS - seen by MO")
                  Hs) as H.
    assert (fst (validate_ir_content (Py.strip "160625 1800HRS - seen by MO")) = true)
      as Hv by (vm_compute; reflexivity).
    rewrite Hv in H. destruct H as (Hst & Hreg).
    destruct (Hreg Hr) as (report & head & tail & _ & E & Hsent).
    split; [exact Hst|]. exists report, head, tail. split; [|exact Hsent].
    assert (default "" (p_temp_data (profile_of w "u") !! "description")
            = "Fell during training") as Hd by (vm_compute; reflexivity).
    rewrite Hd in E. exact E.
Defined.

(** * Failed writes *)

(** A record that exists is read without a write. *)
Lemma exec_get_user_profile_known uid w :
  is_Some (users_data w !! uid) -> exec (_get_user_profile uid) w = w.
Proof.
  intros [p Hp]. unfold exec, _get_user_profile. now rewrite Hp.
Qed.

Lemma known_of_state uid w :
  p_state (profile_of w uid) <> IDLE -> is_Some (users_data w !! uid).
Proof.
  unfold profile_of. destruct (users_data w !! uid); [eauto | now intros []].
Qed.

Lemma exec_get_user_state_known uid w :
  is_Some (users_data w !! uid) -> exec (get_user_state uid) w = w.
Proof.
  intros H. unfold get_user_state.
  now rewrite exec_bind, exec_ret, exec_get_user_profile_known.
Qed.

Lemma exec_get_user_temp_data_known uid key w :
  is_Some (users_data w !! uid) -> exec (get_user_temp_data uid key) w = w.
Proof.
  intros H. unfold get_user_temp_data.
  now rewrite exec_bind, exec_ret, exec_get_user_profile_known.
Qed.

Lemma eval_update_user_profile_known uid ups w :
  is_Some (users_data w !! uid) ->
  eval (_update_user_profile uid ups) w = disk_ok w (writes w).
Proof.
  intros H. now rewrite eval_update_user_profile, exec_get_user_profile_known.
Qed.

Lemma contact_input_failing uid input w rank name company unit :
  is_Some (users_data w !! uid) ->
  disk_ok w (writes w) = false ->
  fst (validate_contact_number input) = true ->
  p_temp_data (profile_of w uid) !! "rank" = Some rank ->
  p_temp_data (profile_of w uid) !! "full_name" = Some name ->
  p_temp_data (profile_of w uid) !! "company" = Some company ->
  p_temp_data (profile_of w uid) !! "unit" = Some unit ->
  Py.truthy rank && Py.truthy name && Py.truthy company && Py.truthy unit = true ->
  let w' := exec (_handle_contact_input uid input) w in
  profile_of w' uid = registered_profile rank name company unit input /\
  sent w' = sent w ++ [ReplyText format_system_error None].
Proof.
  intros Hk Hw Hv Hr Hn Hc Hu Ht w'. subst w'. unfold _handle_contact_input.
  destruct (validate_contact_number input) as [is_valid err]. simpl in Hv. subst is_valid.
  rewrite !exec_bind, !eval_get_user_temp_data.
  rewrite !exec_get_user_temp_data_known by assumption.
  rewrite Hr, Hn, Hc, Hu, Ht. rewrite exec_bind.
  assert (eval (register_user uid rank name company unit input) w = false) as ->.
  { unfold register_user. now rewrite eval_update_user_profile_known. }
  autorewrite with store. split; reflexivity.
Qed.

Lemma field_edit_failing validate f label uid input w :
  disk_ok w (writes w) = false ->
  p_registered (profile_of w uid) = true ->
  fst (validate input) = true ->
  let w' := exec (field_edit validate f label uid input) w in
  profile_of w' uid = assign (profile_of w uid) (SetField f (edited_value f input)) /\
  sent w' = sent w ++ [ReplyText format_system_error None].
Proof.
  intros Hw Hr Hv w'. subst w'. unfold field_edit.
  destruct (validate input) as [is_valid err]. simpl in Hv. subst is_valid.
  rewrite exec_bind, eval_update_single_field_registered, Hw by assumption.
  autorewrite with store. rewrite profile_of_update_single_field, Hr.
  split; [reflexivity|]. now rewrite quiet_update_single_field.
Qed.

(** Whenever the write of a transition fails, what
    [_update_user_profile] has put in the record stays there: the failed
    last step of a registration leaves the record registered and idle,
    with the five particulars and an empty scratch, and a failed field
    edit leaves the new value in the field, while the user is sent the
    system error. *)
Lemma failed_write_keeps_update w uid :
  disk_ok w (writes w) = false ->
  (forall updates,
     is_Some (users_data w !! uid) ->
     eval (_update_user_profile uid updates) w = false /\
     profile_of (exec (_update_user_profile uid updates) w) uid
     = profile_update (profile_of w uid) updates) /\
  (forall text rank name company unit,
     p_state (profile_of w uid) = AWAITING_CONTACT ->
     fst (validate_contact_number (Py.strip text)) = true ->
     p_temp_data (profile_of w uid) !! "rank" = Some rank ->
     p_temp_data (profile_of w uid) !! "full_name" = Some name ->
     p_temp_data (profile_of w uid) !! "company" = Some company ->
     p_temp_data (profile_of w uid) !! "unit" = Some unit ->
     Py.truthy rank && Py.truthy name && Py.truthy company && Py.truthy unit = true ->
     let w' := exec (handle_message uid text) w in
     profile_of w' uid = registered_profile rank name company unit (Py.strip text) /\
     sent w' = sent w ++ [ReplyText format_system_error None]) /\
  (forall text f,
     p_registered (profile_of w uid) = true ->
     p_state (profile_of w uid) = editing_state f ->
     fst (field_validator f (Py.strip text)) = true ->
     let w' := exec (handle_message uid text) w in
     profile_of w' uid
     = assign (profile_of w uid) (SetField f (edited_value f (Py.strip text))) /\
     sent w' = sent w ++ [ReplyText format_system_error None]).
Proof.
  intros Hw. split; [|split].
  - intros updates Hk. split; [now rewrite eval_update_user_profile_known|].
    apply profile_of_update_user_profile.
  - intros text r n c u Hs Hv Hr Hn Hc Hu Ht w'. subst w'.
    assert (is_Some (users_data w !! uid)) as Hk.
    { apply known_of_state. now rewrite Hs. }
    unfold handle_message.
    rewrite exec_bind, eval_get_user_state, Hs, exec_get_user_state_known by assumption.
    now apply contact_input_failing.
  - intros text f Hr Hs Hv w'. subst w'.
    unfold handle_message.
    rewrite exec_bind, eval_get_user_state, Hs, exec_get_user_state_registered
      by assumption.
    destruct f; cbn [editing_state];
      unfold _handle_rank_edit, _handle_name_edit, _handle_company_edit,
        _handle_unit_edit, _handle_contact_edit;
      now apply field_edit_failing.
Qed.

(** C1.  The claim fails on the code.  The write of the last step of a
    registration fails (the eleventh write, the first ten having
    succeeded).  The handler takes its "registration failed" branch and
    sends the system error, which asks to try again later; yet the state
    has advanced from [AWAITING_CONTACT] to [IDLE], the record is
    registered, the contact number is set and the scratch is emptied,
    because [_update_user_profile] updates the record before it writes.
    The same input sent again is not a retry of the step: it is answered
    by the hint to use the start command.  A failed field edit likewise
    leaves the new rank in the record. *)
Theorem failed_write_advances_state :
  (let w := run (take 5 registration_events) (world0 (fun n => n <? 10)) in
   let w' := exec (handle (TextMessage "u" "+65 9123 4567")) w in
   let w'' := exec (handle (TextMessage "u" "+65 9123 4567")) w' in
   p_state (profile_of w "u") = AWAITING_CONTACT /\
   p_registered (profile_of w "u") = false /\
   p_contact_number (profile_of w "u") = None /\
   disk_ok w (writes w) = false /\
   sent w' = sent w ++ [ReplyText format_system_error None] /\
   p_state (profile_of w' "u") = IDLE /\
   p_registered (profile_of w' "u") = true /\
   p_contact_number (profile_of w' "u") = Some "91234567" /\
   p_temp_data (profile_of w "u") <> p_temp_data (profile_of w' "u") /\
   sent w'' = sent w' ++
     [ReplyText "Please use /start to begin the registration process." None]) /\
  (let w := run (registration_events ++ [ButtonPress "u" "edit_rank"])
              (world0 (fun n => n <? 12)) in
   let w' := exec (handle (TextMessage "u" "maj")) w in
   p_state (profile_of w "u") = EDITING_RANK /\
   p_rank (profile_of w "u") = Some "CPT" /\
   disk_ok w (writes w) = false /\
   sent w' = sent w ++ [ReplyText format_system_error None] /\
   p_rank (profile_of w' "u") = Some "MAJ" /\
   p_state (profile_of w' "u") = EDITING_RANK).
Proof.
  split.
  - vm_compute. repeat (split; [reflexivity|]). split; [discriminate | reflexivity].
  - vm_compute. repeat (split; [reflexivity|]). reflexivity.
Qed.

(** * Registration *)

Lemma registration_input_effect validate key prompt next uid input w :
  next <> IDLE ->
  profile_of (exec (registration_input validate key prompt next uid input) w) uid
  = if fst (validate input)
    then assign (assign (profile_of w uid)
                   (SetTempData (<[key := stored_value input]>
                                   (p_temp_data (profile_of w uid)))))
           (SetState next)
    else profile_of w uid.
Proof.
  intros Hn. unfold registration_input.
  destruct (validate input) as [[] err]; cbn [fst].
  - rewrite !exec_bind. autorewrite with store.
    destruct (decide (next = IDLE)); [contradiction | reflexivity].
  - now autorewrite with store.
Qed.

Lemma contact_input_effect uid input w rank name company unit :
  p_temp_data (profile_of w uid) !! "rank" = Some rank ->
  p_temp_data (profile_of w uid) !! "full_name" = Some name ->
  p_temp_data (profile_of w uid) !! "company" = Some company ->
  p_temp_data (profile_of w uid) !! "unit" = Some unit ->
  Py.truthy rank && Py.truthy name && Py.truthy company && Py.truthy unit = true ->
  profile_of (exec (_handle_contact_input uid input) w) uid
  = if fst (validate_contact_number input)
    then registered_profile rank name company unit input
    else profile_of w uid.
Proof.
  intros Hr Hn Hc Hu Ht. unfold _handle_contact_input.
  destruct (validate_contact_number input) as [[] err]; cbn [fst].
  - rewrite !exec_bind. autorewrite with store.
    rewrite Hr, Hn, Hc, Hu, Ht. rewrite exec_bind.
    destruct (eval (register_user _ _ _ _ _ _) _).
    + rewrite exec_bind. now autorewrite with store.
    + now autorewrite with store.
  - now autorewrite with store.
Qed.

Lemma handle_message_dispatch uid text w :
  exists w0,
    (forall u, profile_of w0 u = profile_of w u) /\
    exec (handle_message uid text) w
    = exec (match p_state (profile_of w uid) with
            | AWAITING_RANK => _handle_rank_input uid (Py.strip text)
            | AWAITING_NAME => _handle_name_input uid (Py.strip text)
            | AWAITING_COMPANY => _handle_company_input uid (Py.strip text)
            | AWAITING_UNIT => _handle_unit_input uid (Py.strip text)
            | AWAITING_CONTACT => _handle_contact_input uid (Py.strip text)
            | AWAITING_DATE_TIME => _handle_date_time_input uid (Py.strip text)
            | AWAITING_SERVICEMAN => _handle_serviceman_input uid (Py.strip text)
            | AWAITING_LOCATION => _handle_location_input uid (Py.strip text)
            | AWAITING_INJURY => _handle_injury_input uid (Py.strip text)
            | AWAITING_DESCRIPTION => _handle_description_input uid (Py.strip text)
            | AWAITING_FOLLOWUP => _handle_followup_input uid (Py.strip text)
            | EDITING_RANK => _handle_rank_edit uid (Py.strip text)
            | EDITING_NAME => _handle_name_edit uid (Py.strip text)
            | EDITING_COMPANY => _handle_company_edit uid (Py.strip text)
            | EDITING_UNIT => _handle_unit_edit uid (Py.strip text)
            | EDITING_CONTACT => _handle_contact_edit uid (Py.strip text)
            | IDLE | AWAITING_IR_TYPE | AWAITING_NATURE_TYPE =>
                reply_text "Please use /start to begin the registration process." None
            end) w0.
Proof.
  exists (exec (get_user_state uid) w). split.
  - intros u. apply profile_of_get_user_state.
  - unfold handle_message. now rewrite exec_bind, eval_get_user_state.
Qed.

Lemma validated_truthy (v : string -> bool * string) y :
  v ∈ [validate_rank; validate_name; validate_company; validate_unit] ->
  fst (v y) = true -> Py.truthy (stored_value y) = true.
Proof.
  intros Hv. unfold stored_value. rewrite strip_upper, truthy_upper.
  rewrite !elem_of_cons, elem_of_nil in Hv.
  destruct Hv as [-> | [-> | [-> | [-> | []]]]];
    unfold validate_rank, validate_name, validate_company, validate_unit;
    try rewrite truthy_upper;
    destruct (Py.truthy (Py.strip y)); cbn [negb fst]; congruence.
Qed.

Lemma kept_truthy (p : Profile) key input : kept p key input -> Py.truthy (stored_value input) = true.
Proof. now intros [_ H]. Qed.

Lemma kept_lookup (p : Profile) key input :
  kept p key input -> p_temp_data p !! key = Some (stored_value input).
Proof. now intros [H _]. Qed.

Lemma kept_insert (p : Profile) key input k v st :
  k <> key -> kept p key input ->
  kept (assign (assign p (SetTempData (<[k := v]> (p_temp_data p)))) (SetState st))
    key input.
Proof.
  intros Hne [Hl Ht]. split; [|exact Ht].
  cbn [assign p_temp_data]. now rewrite lookup_insert_ne.
Qed.

Lemma kept_new (p : Profile) key input st :
  Py.truthy (stored_value input) = true ->
  kept (assign (assign p (SetTempData (<[key := stored_value input]> (p_temp_data p))))
          (SetState st)) key input.
Proof.
  intros Ht. split; [|exact Ht]. cbn [assign p_temp_data]. apply lookup_insert_eq.
Qed.

Lemma unregistered_step (p : Profile) t st :
  unregistered p -> unregistered (assign (assign p (SetTempData t)) (SetState st)).
Proof.
  intros [Hr Hf]. split; [exact Hr|].
  intros f. rewrite <- (Hf f). now destruct f.
Qed.

Lemma at_progress_step uid pr x w :
  at_progress pr (profile_of w uid) ->
  at_progress (step_progress pr x) (profile_of (exec (handle_message uid x) w) uid).
Proof.
  intros H. destruct (handle_message_dispatch uid x w) as (w0 & Hw0 & ->).
  rewrite <- (Hw0 uid) in H |- *.
  destruct pr as [|r|r n|r n c|r n c u|r n c u t]; cbn [at_progress] in H.
  - destruct H as (Hu & Hs). rewrite Hs.
    unfold _handle_rank_input. rewrite registration_input_effect by discriminate.
    unfold step_progress.
    destruct (fst (validate_rank (Py.strip x))) eqn:Hv; cbn [at_progress]; [|tauto].
    split; [now apply unregistered_step|]. split; [reflexivity|].
    apply kept_new. apply (validated_truthy validate_rank); [rewrite !elem_of_cons; tauto | exact Hv].
  - destruct H as (Hu & Hs & Hr). rewrite Hs.
    unfold _handle_name_input. rewrite registration_input_effect by discriminate.
    unfold step_progress.
    destruct (fst (validate_name (Py.strip x))) eqn:Hv; cbn [at_progress]; [|tauto].
    split; [now apply unregistered_step|]. split; [reflexivity|].
    split; [now apply kept_insert|].
    apply kept_new. apply (validated_truthy validate_name); [rewrite !elem_of_cons; tauto | exact Hv].
  - destruct H as (Hu & Hs & Hr & Hn). rewrite Hs.
    unfold _handle_company_input. rewrite registration_input_effect by discriminate.
    unfold step_progress.
    destruct (fst (validate_company (Py.strip x))) eqn:Hv; cbn [at_progress]; [|tauto].
    split; [now apply unregistered_step|]. split; [reflexivity|].
    split; [now apply kept_insert|]. split; [now apply kept_insert|].
    apply kept_new. apply (validated_truthy validate_company); [rewrite !elem_of_cons; tauto | exact Hv].
  - destruct H as (Hu & Hs & Hr & Hn & Hc). rewrite Hs.
    unfold _handle_unit_input. rewrite registration_input_effect by discriminate.
    unfold step_progress.
    destruct (fst (validate_unit (Py.strip x))) eqn:Hv; cbn [at_progress]; [|tauto].
    split; [now apply unregistered_step|]. split; [reflexivity|].
    split; [now apply kept_insert|]. split; [now apply kept_insert|].
    split; [now apply kept_insert|].
    apply kept_new. apply (validated_truthy validate_unit); [rewrite !elem_of_cons; tauto | exact Hv].
  - destruct H as (Hu & Hs & Hr & Hn & Hc & Hun). rewrite Hs.
    rewrite (contact_input_effect uid (Py.strip x) w0 _ _ _ _
               (kept_lookup _ _ _ Hr) (kept_lookup _ _ _ Hn)
               (kept_lookup _ _ _ Hc) (kept_lookup _ _ _ Hun)).
    + unfold step_progress.
      destruct (fst (validate_contact_number (Py.strip x))); cbn [at_progress];
        [reflexivity | tauto].
    + now rewrite (kept_truthy _ _ _ Hr), (kept_truthy _ _ _ Hn),
        (kept_truthy _ _ _ Hc), (kept_truthy _ _ _ Hun).
  - rewrite H. cbn [registered_profile p_state step_progress at_progress].
    now autorewrite with store.
Qed.

Lemma at_progress_start uid w :
  profile_of w uid = DEFAULT_USER_PROFILE ->
  at_progress AtRank (profile_of (exec (start_command uid) w) uid).
Proof.
  intros H. unfold start_command.
  rewrite exec_bind, eval_is_user_registered, H. cbn [p_registered DEFAULT_USER_PROFILE].
  rewrite exec_bind. autorewrite with store.
  rewrite reading_is_user_registered, H.
  now repeat split; try intros [].
Qed.

Lemma at_progress_run uid inputs pr w :
  at_progress pr (profile_of w uid) ->
  at_progress (fold_left step_progress inputs pr)
    (profile_of (run (map (TextMessage uid) inputs) w) uid).
Proof.
  revert pr w. induction inputs as [|x inputs IH]; intros pr w H; [exact H|].
  cbn [map run fold_left handle]. now apply IH, at_progress_step.
Qed.

Lemma accepted_inputs_nil inputs : accepted_inputs [] inputs = [].
Proof. now destruct inputs. Qed.

Lemma values_of_fold inputs pr :
  values_of (fold_left step_progress inputs pr)
  = values_of pr
      ++ accepted_inputs (drop (length (values_of pr)) registration_validators) inputs.
Proof.
  revert pr. induction inputs as [|x inputs IH]; intros pr.
  - cbn [fold_left accepted_inputs]. now rewrite app_nil_r.
  - cbn [fold_left]. rewrite IH.
    destruct pr as [|r|r n|r n c|r n c u|r n c u t];
      cbn [step_progress values_of length drop registration_validators accepted_inputs];
      try (destruct (fst _); cbn [values_of length drop app]; reflexivity).
    now rewrite accepted_inputs_nil.
Qed.

Lemma values_of_fold_start inputs :
  values_of (fold_left step_progress inputs AtRank)
  = accepted_inputs registration_validators inputs.
Proof. exact (values_of_fold inputs AtRank). Qed.

(** C4.  From a fresh record, after the start command and any sequence
    of text inputs, the record is registered if and only if all five
    fields (rank, name, company, unit, contact) have validated in order;
    as long as fewer have, the record is not registered and none of its
    particulars is set; and once the fifth has, the record holds all five
    collected values, written by the one terminal transition. *)
Theorem registration_completes w uid inputs :
  profile_of w uid = DEFAULT_USER_PROFILE ->
  let w' := run (StartCommand uid :: map (TextMessage uid) inputs) w in
  let p' := profile_of w' uid in
  let acc := accepted_inputs registration_validators inputs in
  (p_registered p' = true <-> length acc = 5) /\
  (length acc < 5 -> unregistered p') /\
  (forall r n c u t,
     acc = [r; n; c; u; t] ->
     p' = registered_profile (stored_value r) (stored_value n) (stored_value c)
            (stored_value u) t).
Proof.
  intros H0 w' p' acc.
  pose proof (at_progress_run uid inputs AtRank _ (at_progress_start uid w H0)) as H.
  pose proof (values_of_fold_start inputs) as Hv. fold acc in Hv.
  change (profile_of (run (map (TextMessage uid) inputs) (exec (start_command uid) w)) uid)
    with p' in H.
  destruct (fold_left step_progress inputs AtRank) as [|r|r n|r n c|r n c u|r n c u t];
    cbn [values_of] in Hv; rewrite <- Hv; cbn [at_progress] in H; cbn [length].
  1-5: destruct H as ([Hr Hf] & _); rewrite Hr;
       (split; [split; [discriminate | lia] |]);
       (split; [intros _; now split | discriminate]).
  rewrite H. split; [now split|]. split; [lia|].
  now intros r' n' c' u' t' [= <- <- <- <- <-].
Qed.

(** The theorem on a complete and on a partial registration. *)
Lemma registration_completes_witness :
  (let inputs := ["cpt"; "Tan Ah Kow"; "Alpha"; "1 SIR"; "+65 9123 4567"] in
   let w' := run (StartCommand "u" :: map (TextMessage "u") inputs)
               (world0 (fun _ => true)) in
   p_registered (profile_of w' "u") = true /\
   profile_of w' "u"
   = registered_profile "CPT" "TAN AH KOW" "ALPHA" "1 SIR" "+65 9123 4567") /\
  (let inputs := ["cpt"; "7"; "Tan Ah Kow"; "Alpha"] in
   let w' := run (StartCommand "u" :: map (TextMessage "u") inputs)
               (world0 (fun _ => true)) in
   unregistered (profile_of w' "u")).
Proof.
  split; intros inputs w'.
  - destruct (registration_completes (world0 (fun _ => true)) "u" inputs eq_refl)
      as (H1 & _ & H3).
    split; [apply H1; vm_compute; reflexivity|].
    apply (H3 "cpt" "Tan Ah Kow" "Alpha" "1 SIR" "+65 9123 4567").
    vm_compute. reflexivity.
  - destruct (registration_completes (world0 (fun _ => true)) "u" inputs eq_refl)
      as (_ & H2 & _).
    apply H2. vm_compute. lia.
Defined.

(** * More on the validators *)




Lemma truthy_false s : Py.truthy s = false <-> s = "".
Proof. destruct s; simpl; split; congruence. Qed.

Lemma rank_codes_clean :
  Forall (fun r => Py.strip (Py.upper r) = r) VALID_RANKS.
Proof. repeat constructor. Qed.

Lemma validate_rank_stored s :
  fst (validate_rank s) = true <-> Py.upper (Py.strip s) ∈ VALID_RANKS.
Proof.
  unfold validate_rank.
  destruct (Py.truthy (Py.upper (Py.strip s))) eqn:Ht; cbn [negb].
  - destruct (bool_decide (Py.upper (Py.strip s) ∈ VALID_RANKS)) eqn:Hd; cbn [negb fst].
    + apply bool_decide_eq_true in Hd. tauto.
    + apply bool_decide_eq_false in Hd. split; [discriminate | tauto].
  - apply truthy_false in Ht. rewrite Ht. cbn [fst].
    split; [discriminate|]. intros Habs. exfalso. revert Habs.
    unfold VALID_RANKS. rewrite !elem_of_cons, elem_of_nil.
    intuition discriminate.
Qed.








Lemma filter_chars_lstrip p s :
  (forall c, Py.is_space c = true -> p c = false) ->
  Py.filter_chars p (Py.lstrip s) = Py.filter_chars p s.
Proof.
  intros Hp. induction s as [|c s IH]; [reflexivity|].
  simpl. destruct (Py.is_space c) eqn:Hc; [|reflexivity].
  now rewrite (Hp _ Hc).
Qed.

Lemma filter_chars_rstrip p s :
  (forall c, Py.is_space c = true -> p c = false) ->
  Py.filter_chars p (Py.rstrip s) = Py.filter_chars p s.
Proof.
  intros Hp. induction s as [|c s IH]; [reflexivity|].
  simpl Py.rstrip. destruct (Py.rstrip s) as [|d r] eqn:E.
  - simpl in IH. simpl. rewrite <- IH.
    destruct (Py.is_space c) eqn:Hc; [now rewrite (Hp _ Hc)|].
    simpl. now destruct (p c).
  - simpl. simpl in IH. now rewrite <- IH.
Qed.

Lemma separator_of_space c :
  Py.is_space c = true -> negb (separator_class c) = false.
Proof. each_char c. Qed.

Lemma not_separator_no_space c :
  negb (separator_class c) = true -> no_space c = true.
Proof. each_char c. Qed.

Lemma clean_contact_number_strip s :
  clean_contact_number (Py.strip s) = clean_contact_number s.
Proof.
  unfold clean_contact_number, Re.sub_class, Py.strip.
  now rewrite filter_chars_rstrip, filter_chars_lstrip by exact separator_of_space.
Qed.

Lemma clean_contact_number_no_space s :
  Py.all_chars no_space (clean_contact_number s) = true.
Proof.
  assert (Py.all_chars no_space (Re.sub_class separator_class s) = true) as H.
  { apply (all_chars_impl (fun c => negb (separator_class c)));
      [exact not_separator_no_space | apply all_chars_filter_chars]. }
  unfold clean_contact_number.
  destruct (_ && _); [now apply all_chars_slice_from | exact H].
Qed.

Lemma match_MOBILE_PATTERN n :
  ends_space n = false ->
  (Re.match_ MOBILE_PATTERN n = true <-> mobile_number n).
Proof.
  intros Hn. rewrite (match_fullmatch _ _ Hn). unfold MOBILE_PATTERN, mobile_number.
  destruct n as [|c d].
  - rewrite fullmatch_Class_Seq_nil. split; [discriminate|].
    intros (c & d & E & _). discriminate.
  - rewrite fullmatch_Class_Seq, fullmatch_times. split.
    + intros [Hc Hd]. now exists c, d.
    + now intros (c' & d' & [= <- <-] & Hc & Hd).
Qed.

Lemma validate_contact_number_clean s :
  fst (validate_contact_number s) = true <-> mobile_number (clean_contact_number s).
Proof.
  unfold validate_contact_number. rewrite clean_contact_number_strip.
  pose proof (ends_space_no_space _ (clean_contact_number_no_space s)) as He.
  destruct (Py.truthy (Py.strip s)) eqn:Ht; cbn [negb].
  - destruct (Re.match_ MOBILE_PATTERN (clean_contact_number s)) eqn:Hm; cbn [negb fst].
    + apply (match_MOBILE_PATTERN _ He) in Hm. tauto.
    + split; [discriminate|]. intros H. apply (match_MOBILE_PATTERN _ He) in H.
      congruence.
  - cbn [fst]. split; [discriminate|]. intros (c & d & E & _).
    apply truthy_false in Ht. rewrite <- clean_contact_number_strip, Ht in E.
    discriminate.
Qed.


(** X5.  The date and time validator and the serviceman validator return
    on every input: [int] is only called on digits and [nric[0]] only on
    a non-empty NRIC, so neither [ValueError] nor [IndexError] arises. *)
Theorem validators_never_raise s :
  is_Some (validate_date_time s) /\ is_Some (validate_serviceman_details s).
Proof.
  split; [apply validate_date_time_returns | apply validate_serviceman_details_returns].
Qed.

Ltac contract_cases :=
  repeat match goal with
         | |- context [if ?b then _ else _] => destruct b
         end;
  cbn [fst snd]; split; intros H; try rewrite append_cons in H;
  first [reflexivity | discriminate].

Ltac option_cases :=
  repeat match goal with
         | |- context [match ?x with _ => _ end] =>
             lazymatch x with
             | Py.split _ => destruct x as [|? [|? [|? ?]]]
             | map _ _ => destruct x as [|? [|? [|? [|? [|? [|? ?]]]]]]
             | _ => destruct x
             end
         end.

(** X6.  Every validator returns an empty error text exactly when it
    accepts; the date and time validator and the serviceman validator
    return empty parts when they refuse. *)
Theorem validators_error_iff_invalid s :
  (snd (validate_rank s) = "" <-> fst (validate_rank s) = true) /\
  (snd (validate_name s) = "" <-> fst (validate_name s) = true) /\
  (snd (validate_company s) = "" <-> fst (validate_company s) = true) /\
  (snd (validate_unit s) = "" <-> fst (validate_unit s) = true) /\
  (snd (validate_contact_number s) = "" <-> fst (validate_contact_number s) = true) /\
  (snd (validate_ir_content s) = "" <-> fst (validate_ir_content s) = true) /\
  (forall valid date time err,
     validate_date_time s = Some (valid, date, time, err) ->
     (err = "" <-> valid = true) /\ (valid = false -> date = "" /\ time = "")) /\
  (forall valid out err,
     validate_serviceman_details s = Some (valid, out, err) ->
     (err = "" <-> valid = true) /\ (valid = false -> out = "")).
Proof.
  split; [unfold validate_rank; contract_cases|].
  split; [unfold validate_name; contract_cases|].
  split; [unfold validate_company; contract_cases|].
  split; [unfold validate_unit; contract_cases|].
  split; [unfold validate_contact_number; contract_cases|].
  split; [unfold validate_ir_content; contract_cases|].
  split.
  - intros valid date time err. unfold validate_date_time.
    cbv [mbind option_bind]. option_cases; try discriminate;
      intros [= <- <- <- <-]; (split; [split|]); intros; try discriminate; auto.
  - intros valid out err. unfold validate_serviceman_details. option_cases;
      try discriminate;
      intros [= <- <- <-]; (split; [split|]); intros; try discriminate; auto.
Qed.





(** X6 on a refused date. *)
Lemma validators_error_iff_invalid_witness :
  validate_date_time "16062 1730HRS"
  = Some (false, "", "", "Date must be in DDMMYY format (e.g., 160625)") /\
  ("" = "" /\ "" = "").
Proof.
  assert (validate_date_time "16062 1730HRS"
          = Some (false, "", "", "Date must be in DDMMYY format (e.g., 160625)")) as H
    by reflexivity.
  split; [exact H|].
  destruct validators_error_iff_invalid with (s := "16062 1730HRS")
    as (_ & _ & _ & _ & _ & _ & Hd & _).
  exact (proj2 (Hd _ _ _ _ H) eq_refl).
Defined.

(** * More on the store and the handlers *)

Lemma rstrip_idem s : Py.rstrip (Py.rstrip s) = Py.rstrip s.
Proof.
  induction s as [|c s IH]; [reflexivity|].
  simpl. destruct (Py.rstrip s) as [|d r] eqn:E.
  - destruct (Py.is_space c) eqn:Hc; [reflexivity|]. simpl. now rewrite Hc.
  - simpl. simpl in IH. destruct (Py.rstrip r) eqn:Er.
    + destruct (Py.is_space d); [discriminate IH|]. now rewrite IH.
    + now rewrite IH.
Qed.

Lemma lstrip_rstrip_lstrip s :
  Py.lstrip (Py.rstrip (Py.lstrip s)) = Py.rstrip (Py.lstrip s).
Proof.
  induction s as [|c s IH]; [reflexivity|].
  cbn [Py.lstrip]. destruct (Py.is_space c) eqn:Hc; [exact IH|].
  cbn [Py.rstrip]. destruct (Py.rstrip s); rewrite ?Hc; cbn [Py.lstrip];
    now rewrite Hc.
Qed.

Lemma strip_idem s : Py.strip (Py.strip s) = Py.strip s.
Proof. unfold Py.strip. now rewrite lstrip_rstrip_lstrip, rstrip_idem. Qed.

Lemma stored_value_idem s : stored_value (stored_value s) = stored_value s.
Proof.
  unfold stored_value. now rewrite !strip_upper, strip_idem, upper_idem.
Qed.

(** X7.  The scratch is a dictionary of its own: a value stored under a
    key is read back under that key, the other keys, the state, the
    registered flag and the particulars are left as they were, and
    [clear_user_temp_data] leaves no key behind. *)
Theorem temp_data_round_trip uid key value w :
  let w' := exec (store_user_temp_data uid key value) w in
  eval (get_user_temp_data uid key) w' = Some value /\
  (forall key', key' <> key ->
     eval (get_user_temp_data uid key') w' = eval (get_user_temp_data uid key') w) /\
  p_state (profile_of w' uid) = p_state (profile_of w uid) /\
  p_registered (profile_of w' uid) = p_registered (profile_of w uid) /\
  (forall f, get_field f (profile_of w' uid) = get_field f (profile_of w uid)) /\
  (forall key', eval (get_user_temp_data uid key')
                  (exec (clear_user_temp_data uid) w') = None).
Proof.
  intros w'. subst w'.
  split; [|split; [|split; [|split; [|split]]]].
  - rewrite eval_get_user_temp_data, profile_of_store_user_temp_data.
    apply lookup_insert_eq.
  - intros key' Hne.
    rewrite !eval_get_user_temp_data, profile_of_store_user_temp_data.
    now apply lookup_insert_ne.
  - now rewrite profile_of_store_user_temp_data.
  - now rewrite profile_of_store_user_temp_data.
  - intros f. rewrite profile_of_store_user_temp_data. now destruct f.
  - intros key'. rewrite eval_get_user_temp_data. unfold clear_user_temp_data.
    rewrite !exec_bind. autorewrite with store. apply lookup_empty.
Qed.

Lemma lookup_fold_delete_notin (keys : list string) (m : gmap string string) k :
  k ∉ keys -> fold_left (fun t key => delete key t) keys m !! k = m !! k.
Proof.
  revert m. induction keys as [|a keys IH]; intros m Hk; [reflexivity|].
  apply not_elem_of_cons in Hk as [Hne Hk].
  simpl. rewrite (IH _ Hk). now apply lookup_delete_ne.
Qed.

(** X8.  [start_ir_creation] sets [AWAITING_IR_TYPE] and removes the
    nine keys of a draft, so the draft read back is empty whatever an
    abandoned report left behind; the other keys of the scratch, the
    registered flag and the particulars are kept. *)
Theorem start_ir_creation_clears_draft uid w :
  let p := profile_of w uid in
  let w' := exec (start_ir_creation uid) w in
  eval (get_comprehensive_ir_data uid) w' = empty_draft /\
  p_state (profile_of w' uid) = AWAITING_IR_TYPE /\
  (forall key, key ∉ ir_keys ->
     p_temp_data (profile_of w' uid) !! key = p_temp_data p !! key) /\
  p_registered (profile_of w' uid) = p_registered p /\
  (forall f, get_field f (profile_of w' uid) = get_field f p).
Proof.
  intros p w'. subst p w'.
  rewrite eval_get_comprehensive_ir_data, profile_of_start_ir_creation.
  cbn [assign p_temp_data p_state p_registered].
  split.
  - unfold draft_of, empty_draft.
    rewrite !(lookup_fold_delete ir_keys) by (unfold ir_keys; rewrite !elem_of_cons; tauto).
    reflexivity.
  - split; [reflexivity|]. split; [intros key Hk; now apply lookup_fold_delete_notin|].
    split; [reflexivity | now intros []].
Qed.

(** X9.  Users are isolated: a sequence of events none of which comes
    from a user leaves the record of that user as it was. *)
Theorem events_touch_one_user es w u :
  Forall (fun e => event_user e <> u) es ->
  profile_of (run es w) u = profile_of w u.
Proof.
  revert w. induction es as [|e es IH]; intros w Hes; [reflexivity|].
  inversion Hes as [|? ? He Hes']; subst. cbn [run]. rewrite (IH _ Hes').
  destruct (local_handle e w) as [_ Hu]. apply Hu. congruence.
Qed.

Lemma handle_message_refused uid input st w err :
  state_check st input = Some (false, err) ->
  let m := match st with
           | AWAITING_RANK => _handle_rank_input uid input
           | AWAITING_NAME => _handle_name_input uid input
           | AWAITING_COMPANY => _handle_company_input uid input
           | AWAITING_UNIT => _handle_unit_input uid input
           | AWAITING_CONTACT => _handle_contact_input uid input
           | AWAITING_DATE_TIME => _handle_date_time_input uid input
           | AWAITING_SERVICEMAN => _handle_serviceman_input uid input
           | AWAITING_LOCATION => _handle_location_input uid input
           | AWAITING_INJURY => _handle_injury_input uid input
           | AWAITING_DESCRIPTION => _handle_description_input uid input
           | AWAITING_FOLLOWUP => _handle_followup_input uid input
           | EDITING_RANK => _handle_rank_edit uid input
           | EDITING_NAME => _handle_name_edit uid input
           | EDITING_COMPANY => _handle_company_edit uid input
           | EDITING_UNIT => _handle_unit_edit uid input
           | EDITING_CONTACT => _handle_contact_edit uid input
           | IDLE | AWAITING_IR_TYPE | AWAITING_NATURE_TYPE =>
               reply_text "Please use /start to begin the registration process." None
           end in
  exec m w = exec (reply_text (format_validation_error err) None) w.
Proof.
  intros H m. subst m.
  destruct st; cbn [state_check] in H; try discriminate;
    unfold_handlers;
    try (destruct (validate_date_time input) as [[[[[] ?] ?] ?]|]; try discriminate);
    try (destruct (validate_serviceman_details input) as [[[[] ?] ?]|]; try discriminate);
    injection H as H; try rewrite H; try (injection H as <-); subst; reflexivity.
Qed.

(** X10.  A text that the validator of the current state refuses
    changes no record, the state included, and is answered by the
    validation error alone; this holds in each of the sixteen states
    that expect a text. *)
Theorem refused_input_changes_nothing w uid text err :
  state_check (p_state (profile_of w uid)) (Py.strip text) = Some (false, err) ->
  let w' := exec (handle_message uid text) w in
  (forall u, profile_of w' u = profile_of w u) /\
  sent w' = sent w ++ [ReplyText (format_validation_error err) None].
Proof.
  intros H w'. subst w'. unfold handle_message.
  rewrite exec_bind, eval_get_user_state.
  rewrite (handle_message_refused uid _ _ _ err H).
  split.
  - intros u. now rewrite profile_of_reply_text, profile_of_get_user_state.
  - now rewrite sent_reply_text, sent_get_user_state.
Qed.

(** X11.  In the three states that expect a button ([IDLE],
    [AWAITING_IR_TYPE], [AWAITING_NATURE_TYPE]) a text message changes
    no record and is answered by the hint to use the start command,
    whether or not the user is registered. *)
Theorem text_outside_a_dialogue w uid text :
  p_state (profile_of w uid) ∈ [IDLE; AWAITING_IR_TYPE; AWAITING_NATURE_TYPE] ->
  let w' := exec (handle_message uid text) w in
  (forall u, profile_of w' u = profile_of w u) /\
  sent w' = sent w ++
    [ReplyText "Please use /start to begin the registration process." None].
Proof.
  intros H w'. subst w'. unfold handle_message.
  rewrite exec_bind, eval_get_user_state.
  rewrite !elem_of_cons, elem_of_nil in H.
  destruct H as [-> | [-> | [-> | []]]];
    (split; [intros u; now rewrite profile_of_reply_text, profile_of_get_user_state|]);
    now rewrite sent_reply_text, sent_get_user_state.
Qed.

Lemma store_then_state uid key v prompt next w :
  next <> IDLE ->
  let w' := exec (store_ir_data uid key v ;; reply_text prompt None ;;
                  set_user_state uid next) w in
  profile_of w' uid
  = assign (assign (profile_of w uid)
              (SetTempData (<[key := v]> (p_temp_data (profile_of w uid)))))
      (SetState next) /\
  sent w' = sent w ++ [ReplyText prompt None].
Proof.
  intros Hn w'. subst w'. rewrite !exec_bind. autorewrite with store.
  destruct (decide (next = IDLE)); [contradiction | now split].
Qed.

(** X12.  The middle of a report dialogue: an accepted date and time is
    stored in its two parts and the serviceman details are asked for; the
    accepted details are stored in their formatted form and the location
    is asked for; the location and the injury are stored trimmed, each
    followed by the next prompt and the next state; the rest of the
    scratch is kept at every step. *)
Theorem report_chain_steps w uid text :
  let p := profile_of w uid in
  let input := Py.strip text in
  let w' := exec (handle_message uid text) w in
  let p' := profile_of w' uid in
  (forall date time err,
     p_state p = AWAITING_DATE_TIME ->
     validate_date_time input = Some (true, date, time, err) ->
     p_state p' = AWAITING_SERVICEMAN /\
     p_temp_data p'
     = <["time_incident" := time]> (<["date_incident" := date]> (p_temp_data p)) /\
     sent w' = sent w ++ [ReplyText format_serviceman_prompt None]) /\
  (forall details err,
     p_state p = AWAITING_SERVICEMAN ->
     validate_serviceman_details input = Some (true, details, err) ->
     p_state p' = AWAITING_LOCATION /\
     p_temp_data p' = <["serviceman_details" := details]> (p_temp_data p) /\
     sent w' = sent w ++ [ReplyText format_location_prompt None]) /\
  (p_state p = AWAITING_LOCATION ->
   fst (validate_ir_content input) = true ->
   p_state p' = AWAITING_INJURY /\
   p_temp_data p' = <["location" := input]> (p_temp_data p) /\
   sent w' = sent w ++ [ReplyText format_injury_prompt None]) /\
  (p_state p = AWAITING_INJURY ->
   fst (validate_ir_content input) = true ->
   p_state p' = AWAITING_DESCRIPTION /\
   p_temp_data p' = <["injury_damage" := input]> (p_temp_data p) /\
   sent w' = sent w ++ [ReplyText format_description_prompt None]).
Proof.
  intros p input w' p'. subst p input w' p'. unfold handle_message.
  rewrite exec_bind, eval_get_user_state.
  set (W := exec (get_user_state uid) w).
  assert (profile_of W uid = profile_of w uid) as HW by apply profile_of_get_user_state.
  assert (sent W = sent w) as HsW by apply sent_get_user_state.
  rewrite <- HW, <- HsW.
  split; [|split; [|split]].
  - intros date time err Hs Hv. rewrite Hs.
    unfold _handle_date_time_input. rewrite Hv.
    rewrite !exec_bind. autorewrite with store. now repeat split.
  - intros details err Hs Hv. rewrite Hs.
    unfold _handle_serviceman_input. rewrite Hv.
    destruct (store_then_state uid "serviceman_details" details
                format_location_prompt AWAITING_LOCATION W) as [Hp Hsent];
      [discriminate|].
    rewrite Hp, Hsent. now repeat split.
  - intros Hs Hv. rewrite Hs. unfold _handle_location_input, ir_content_input.
    destruct (validate_ir_content (Py.strip text)) as [is_valid e].
    simpl in Hv. subst is_valid.
    destruct (store_then_state uid "location" (Py.strip (Py.strip text))
                format_injury_prompt AWAITING_INJURY W) as [Hp Hsent];
      [discriminate|].
    rewrite Hp, Hsent, strip_idem. now repeat split.
  - intros Hs Hv. rewrite Hs. unfold _handle_injury_input, ir_content_input.
    destruct (validate_ir_content (Py.strip text)) as [is_valid e].
    simpl in Hv. subst is_valid.
    destruct (store_then_state uid "injury_damage" (Py.strip (Py.strip text))
                format_description_prompt AWAITING_DESCRIPTION W) as [Hp Hsent];
      [discriminate|].
    rewrite Hp, Hsent, strip_idem. now repeat split.
Qed.

(** X7 on a rank stored for a user met for the first time. *)
Lemma temp_data_round_trip_witness :
  let w := world0 (fun _ => true) in
  let w' := exec (store_user_temp_data "u" "rank" "CPT") w in
  eval (get_user_temp_data "u" "rank") w' = Some "CPT" /\
  eval (get_user_temp_data "u" "unit") w' = eval (get_user_temp_data "u" "unit") w.
Proof.
  intros w w'.
  destruct (temp_data_round_trip "u" "rank" "CPT" w) as (H1 & H2 & _).
  split; [exact H1 | apply H2; discriminate].
Defined.

(** X8 on a scratch that holds a rank and the location of an abandoned
    report. *)
Lemma start_ir_creation_clears_draft_witness :
  let w := exec (store_ir_data "u" "location" "Camp")
             (exec (store_user_temp_data "u" "rank" "CPT") (world0 (fun _ => true))) in
  let w' := exec (start_ir_creation "u") w in
  eval (get_comprehensive_ir_data "u") w' = empty_draft /\
  p_temp_data (profile_of w' "u") !! "rank" = p_temp_data (profile_of w "u") !! "rank".
Proof.
  intros w w'.
  destruct (start_ir_creation_clears_draft "u" w) as (H1 & _ & H3 & _).
  split; [exact H1 | apply H3].
  unfold ir_keys. rewrite !not_elem_of_cons. repeat split; try discriminate.
  apply not_elem_of_nil.
Defined.

(** X9 on two events of another user. *)
Lemma events_touch_one_user_witness :
  profile_of (run [StartCommand "a"; TextMessage "a" "cpt"] (world0 (fun _ => true))) "b"
  = profile_of (world0 (fun _ => true)) "b".
Proof.
  apply events_touch_one_user. repeat constructor; discriminate.
Defined.

(** X10 on a rank that is not one of the codes. *)
Lemma refused_input_changes_nothing_witness :
  let w := exec (start_command "u") (world0 (fun _ => true)) in
  let w' := exec (handle_message "u" "general") w in
  (forall u, profile_of w' u = profile_of w u) /\
  sent w' = sent w ++
    [ReplyText (format_validation_error (snd (validate_rank "general"))) None].
Proof.
  intros w. apply (refused_input_changes_nothing w "u" "general").
  vm_compute. reflexivity.
Defined.

(** X11 on a user who has never been seen. *)
Lemma text_outside_a_dialogue_witness :
  let w := world0 (fun _ => true) in
  let w' := exec (handle_message "u" "hello") w in
  (forall u, profile_of w' u = profile_of w u) /\
  sent w' = sent w ++
    [ReplyText "Please use /start to begin the registration process." None].
Proof.
  intros w. apply (text_outside_a_dialogue w "u" "hello").
  apply list_elem_of_here.
Defined.

(** X12 on the date and time of a report. *)
Lemma report_chain_steps_witness :
  let w := run (registration_events
                ++ [ ButtonPress "u" "new_ir"; ButtonPress "u" "ir_type_initial";
                     ButtonPress "u" "nature_training_related" ])
             (world0 (fun _ => true)) in
  let w' := exec (handle_message "u" " 160625 1730hrs ") w in
  p_state (profile_of w' "u") = AWAITING_SERVICEMAN /\
  p_temp_data (profile_of w' "u")
  = <["time_incident" := "1730"]>
      (<["date_incident" := "160625"]> (p_temp_data (profile_of w "u"))) /\
  sent w' = sent w ++ [ReplyText format_serviceman_prompt None].
Proof.
  intros w.
  apply (proj1 (report_chain_steps w "u" " 160625 1730hrs ") "160625" "1730" "").
  - vm_compute. reflexivity.
  - vm_compute. reflexivity.
Defined.

(** * Valid particulars *)

Lemma normal_stored_value (v : string -> bool * string) s :
  v ∈ [validate_rank; validate_name; validate_company; validate_unit] ->
  fst (v s) = true -> normal (stored_value s).
Proof.
  intros Hv Hs. split; [apply stored_value_idem|].
  apply truthy_true. now apply (validated_truthy v).
Qed.

Lemma field_promise_edited f s :
  fst (field_validator f s) = true -> field_promise f (edited_value f s).
Proof.
  destruct f; cbn [field_validator field_promise edited_value]; intros H.
  - apply validate_rank_stored in H. now rewrite strip_upper.
  - apply (normal_stored_value validate_name); [|exact H].
    rewrite !elem_of_cons; tauto.
  - apply (normal_stored_value validate_company); [|exact H].
    rewrite !elem_of_cons; tauto.
  - apply (normal_stored_value validate_unit); [|exact H].
    rewrite !elem_of_cons; tauto.
  - now apply validate_contact_number_clean.
Qed.

Section SoundFacts.
Context {A B : Type} (uid : string).

Lemma preserves_bind (m : M A) (k : A -> M B) :
  preserves uid m -> (forall a, preserves uid (k a)) -> preserves uid (bind m k).
Proof. intros Hm Hk w Hw. rewrite exec_bind. now apply Hk, Hm. Qed.

Lemma preserves_reading (m : M A) : reading m -> preserves uid m.
Proof. intros Hm w Hw. now rewrite Hm. Qed.

Lemma preserves_ret (a : A) : preserves uid (ret a).
Proof. now intros w Hw. Qed.

End SoundFacts.

Lemma valid_scratch_empty : valid_scratch ∅.
Proof. split; intros; now rewrite lookup_empty in *. Qed.

Lemma valid_scratch_insert t key v :
  valid_scratch t ->
  (key = "rank" -> v ∈ VALID_RANKS) ->
  (key ∈ ["full_name"; "company"; "unit"] -> normal v) ->
  valid_scratch (<[key := v]> t).
Proof.
  intros [Hr Hn] Hkr Hkn. split.
  - intros v'. destruct (decide (key = "rank")) as [->|Hne].
    + rewrite lookup_insert_eq. intros [= <-]. now apply Hkr.
    + rewrite lookup_insert_ne by exact Hne. apply Hr.
  - intros key' v' Hk'. destruct (decide (key = key')) as [->|Hne].
    + rewrite lookup_insert_eq. intros [= <-]. now apply Hkn.
    + rewrite lookup_insert_ne by exact Hne. now apply Hn.
Qed.

Lemma lookup_fold_delete_Some (keys : list string) (m : gmap string string) k v :
  fold_left (fun t key => delete key t) keys m !! k = Some v -> m !! k = Some v.
Proof.
  revert m. induction keys as [|a keys IH]; intros m Hm; [exact Hm|].
  simpl in Hm. apply IH in Hm. rewrite lookup_delete in Hm.
  now destruct (decide (a = k)).
Qed.

Lemma valid_scratch_fold_delete keys t :
  valid_scratch t -> valid_scratch (fold_left (fun t key => delete key t) keys t).
Proof.
  intros [Hr Hn]. split.
  - intros v Hv. eapply Hr, lookup_fold_delete_Some, Hv.
  - intros key v Hk Hv. eapply Hn; [exact Hk|]. eapply lookup_fold_delete_Some, Hv.
Qed.

Lemma sound_scratch p t : sound p -> valid_scratch t -> sound (assign p (SetTempData t)).
Proof. intros [_ Hp] Ht. split; [exact Ht | exact Hp]. Qed.

Lemma sound_state p st : sound p -> sound (assign p (SetState st)).
Proof. now intros [Ht Hp]. Qed.

Lemma sound_field p f v : sound p -> field_promise f v -> sound (assign p (SetField f v)).
Proof.
  intros [Ht Hp] Hv. split; [now destruct f|].
  intros Hr. destruct Hp as (r & n & c & u & t & [= Er En Ec Eu Et] & Hr' & Hn & Hc & Hu & Hm).
  { now destruct f. }
  unfold valid_particulars, particulars_of.
  destruct f; cbn [assign p_rank p_full_name p_company p_unit p_contact_number];
    rewrite ?Er, ?En, ?Ec, ?Eu, ?Et; cbn [field_promise] in Hv;
    eexists _, _, _, _, _; (split; [reflexivity|]); tauto.
Qed.

Lemma preserves_send uid o : preserves uid (send o).
Proof. now intros w Hw. Qed.

Lemma preserves_set_user_state uid st : preserves uid (set_user_state uid st).
Proof.
  intros w Hw. rewrite profile_of_set_user_state.
  destruct (decide (st = IDLE)); cbn [profile_update fold_left].
  - apply sound_scratch; [now apply sound_state | apply valid_scratch_empty].
  - now apply sound_state.
Qed.

Lemma preserves_store_user_temp_data uid key v :
  (key = "rank" -> v ∈ VALID_RANKS) ->
  (key ∈ ["full_name"; "company"; "unit"] -> normal v) ->
  preserves uid (store_user_temp_data uid key v).
Proof.
  intros Hr Hn w Hw. rewrite profile_of_store_user_temp_data.
  apply sound_scratch; [exact Hw|]. apply valid_scratch_insert; [apply Hw | exact Hr | exact Hn].
Qed.

Lemma preserves_store_ir_data uid key v :
  key ∈ ir_keys -> preserves uid (store_ir_data uid key v).
Proof.
  intros Hk. apply preserves_store_user_temp_data.
  - intros ->. exfalso. revert Hk. unfold ir_keys.
    rewrite !elem_of_cons, elem_of_nil. intuition discriminate.
  - intros Hk'. exfalso. revert Hk Hk'. unfold ir_keys.
    rewrite !elem_of_cons, !elem_of_nil. intuition congruence.
Qed.

Lemma preserves_start_ir_creation uid : preserves uid (start_ir_creation uid).
Proof.
  intros w Hw. rewrite profile_of_start_ir_creation.
  apply sound_scratch; [now apply sound_state|].
  apply valid_scratch_fold_delete, Hw.
Qed.

Lemma preserves_complete_comprehensive_ir_creation uid :
  preserves uid (complete_comprehensive_ir_creation uid).
Proof.
  unfold complete_comprehensive_ir_creation.
  apply preserves_bind; [apply preserves_reading, reading_get_comprehensive_ir_data|].
  intros ir_data. apply preserves_bind; [apply preserves_set_user_state|].
  intros []. apply preserves_ret.
Qed.

Lemma preserves_update_single_field uid f input :
  fst (field_validator f input) = true ->
  preserves uid (update_single_field uid f input).
Proof.
  intros Hv w Hw. rewrite profile_of_update_single_field.
  destruct (p_registered (profile_of w uid)); [|exact Hw].
  apply sound_field; [exact Hw | now apply field_promise_edited].
Qed.

Lemma normal_fixed v : normal v -> Py.strip (Py.upper v) = v.
Proof. now intros [H _]. Qed.

Lemma sound_registered rank name company unit contact :
  rank ∈ VALID_RANKS -> normal name -> normal company -> normal unit ->
  fst (validate_contact_number contact) = true ->
  sound (mkProfile (Some (Py.strip (Py.upper rank))) (Some (Py.strip (Py.upper name)))
           (Some (Py.strip (Py.upper company))) (Some (Py.strip (Py.upper unit)))
           (Some (clean_contact_number contact)) true IDLE ∅).
Proof.
  intros Hr Hn Hc Hu Ht.
  split; [apply valid_scratch_empty|]. intros _.
  exists rank, name, company, unit, (clean_contact_number contact).
  split.
  - unfold particulars_of. cbn.
    rewrite (proj1 (Forall_forall _ _) rank_codes_clean _ Hr).
    now rewrite !normal_fixed.
  - split; [exact Hr|]. split; [exact Hn|]. split; [exact Hc|].
    split; [exact Hu|]. now apply validate_contact_number_clean.
Qed.

Create HintDb sound discriminated.
#[global] Hint Resolve preserves_ret preserves_send preserves_set_user_state
  preserves_start_ir_creation preserves_complete_comprehensive_ir_creation
  : sound.
#[global] Hint Extern 1 (preserves _ (store_ir_data _ _ _)) =>
  (apply preserves_store_ir_data; unfold ir_keys; rewrite !elem_of_cons; tauto)
  : sound.
#[global] Hint Extern 1 (preserves _ _) =>
  (apply preserves_reading; solve [auto with store]) : sound.

(** Search for a proof of [preserves] along the binds. *)
Ltac sound_step :=
  lazymatch goal with
  | |- forall _, _ => intro; sound_step
  | |- preserves _ (bind _ _) => apply preserves_bind; [sound_step | sound_step]
  | |- preserves _ (if ?b then _ else _) => destruct b; sound_step
  | |- preserves _ (match ?x with _ => _ end) => destruct x; sound_step
  | |- preserves _ _ => solve [auto with sound]
  end.

Lemma preserves_registration_input validate key prompt next uid input :
  (fst (validate input) = true ->
   (key = "rank" -> stored_value input ∈ VALID_RANKS) /\
   (key ∈ ["full_name"; "company"; "unit"] -> normal (stored_value input))) ->
  preserves uid (registration_input validate key prompt next uid input).
Proof.
  intros H. unfold registration_input, reply_text.
  destruct (validate input) as [[] err]; cbn [fst] in H; [|sound_step].
  destruct (H eq_refl) as [Hr Hn].
  apply preserves_bind; [now apply preserves_store_user_temp_data|].
  sound_step.
Qed.

Lemma preserves_rank_input uid input : preserves uid (_handle_rank_input uid input).
Proof.
  apply preserves_registration_input. intros H. split; [|].
  - intros _. apply validate_rank_stored in H. unfold stored_value.
    now rewrite strip_upper.
  - rewrite !elem_of_cons, elem_of_nil. intuition discriminate.
Qed.

Lemma preserves_text_input validate key prompt next uid input :
  validate ∈ [validate_rank; validate_name; validate_company; validate_unit] ->
  key <> "rank" ->
  preserves uid (registration_input validate key prompt next uid input).
Proof.
  intros Hv Hk. apply preserves_registration_input. intros H.
  split; [intros ->; contradiction|]. intros _.
  now apply (normal_stored_value validate).
Qed.

Lemma preserves_contact_input uid input : preserves uid (_handle_contact_input uid input).
Proof.
  intros w Hw. unfold _handle_contact_input.
  destruct (validate_contact_number input) as [[] err] eqn:Ev;
    [|now autorewrite with store].
  rewrite !exec_bind. autorewrite with store.
  pose proof Hw as [[Hr Hn] Hp].
  destruct (p_temp_data (profile_of w uid) !! "rank") as [rank|] eqn:Er;
    [|autorewrite with store; rewrite ?profile_of_get_user_temp_data; exact Hw].
  destruct (p_temp_data (profile_of w uid) !! "full_name") as [name|] eqn:En;
    [|autorewrite with store; rewrite ?profile_of_get_user_temp_data; exact Hw].
  destruct (p_temp_data (profile_of w uid) !! "company") as [company|] eqn:Ec;
    [|autorewrite with store; rewrite ?profile_of_get_user_temp_data; exact Hw].
  destruct (p_temp_data (profile_of w uid) !! "unit") as [unit|] eqn:Eu;
    [|autorewrite with store; rewrite ?profile_of_get_user_temp_data; exact Hw].
  destruct (_ && _); [|autorewrite with store; rewrite ?profile_of_get_user_temp_data; exact Hw].
  assert (sound (mkProfile (Some (Py.strip (Py.upper rank)))
                   (Some (Py.strip (Py.upper name)))
                   (Some (Py.strip (Py.upper company)))
                   (Some (Py.strip (Py.upper unit)))
                   (Some (clean_contact_number input)) true IDLE ∅)) as Hreg.
  { apply sound_registered.
    - now apply Hr.
    - apply (Hn "full_name"); [rewrite !elem_of_cons; tauto | exact En].
    - apply (Hn "company"); [rewrite !elem_of_cons; tauto | exact Ec].
    - apply (Hn "unit"); [rewrite !elem_of_cons; tauto | exact Eu].
    - now rewrite Ev. }
  rewrite exec_bind.
  destruct (eval (register_user _ _ _ _ _ _) _).
  - rewrite exec_bind. autorewrite with store.
    rewrite ?profile_of_get_formatted_particulars.
    autorewrite with store. exact Hreg.
  - autorewrite with store. exact Hreg.
Qed.

Lemma preserves_field_edit f label uid input :
  preserves uid (field_edit (field_validator f) f label uid input).
Proof.
  unfold field_edit, reply_text.
  destruct (field_validator f input) as [[] err] eqn:Ev; [|sound_step].
  apply preserves_bind; [apply preserves_update_single_field; now rewrite Ev|].
  sound_step.
Qed.

#[global] Hint Resolve preserves_rank_input preserves_contact_input : sound.
#[global] Hint Extern 1 (preserves _ (registration_input _ _ _ _ _ _)) =>
  (apply preserves_text_input; [rewrite !elem_of_cons; tauto | discriminate])
  : sound.
#[global] Hint Extern 1 (preserves _ (field_edit _ ?f _ _ _)) =>
  exact (preserves_field_edit f _ _ _) : sound.

(** The handlers, down to the input handlers of the registration and
    of the edits. *)
Ltac unfold_dispatch :=
  unfold handle, start_command, handle_message, handle_callback,
    _handle_name_input, _handle_company_input, _handle_unit_input,
    _handle_date_time_input, _handle_serviceman_input,
    _handle_location_input, _handle_injury_input, _handle_description_input,
    _handle_followup_input, _handle_rank_edit, _handle_name_edit,
    _handle_company_edit, _handle_unit_edit, _handle_contact_edit,
    ir_content_input, _generate_comprehensive_ir_report, _handle_new_ir,
    _handle_ir_type_selection, _handle_nature_type_selection,
    _handle_my_details, _handle_edit_field, _handle_back_to_main,
    reply_text, edit_message_text.

Lemma preserves_handle e : preserves (event_user e) (handle e).
Proof.
  destruct e as [uid | uid text | uid data]; cbn [event_user]; unfold_dispatch.
  - sound_step.
  - sound_step.
  - sound_step.
Qed.

Lemma sound_default : sound DEFAULT_USER_PROFILE.
Proof. split; [apply valid_scratch_empty | discriminate]. Qed.

Lemma sound_handle e w :
  (forall u, sound (profile_of w u)) ->
  forall u, sound (profile_of (exec (handle e) w) u).
Proof.
  intros Hw u. destruct (decide (u = event_user e)) as [->|Hne].
  - apply preserves_handle, Hw.
  - destruct (local_handle e w) as [_ Hu]. rewrite (Hu u Hne). apply Hw.
Qed.

Lemma sound_run es w :
  (forall u, sound (profile_of w u)) -> forall u, sound (profile_of (run es w) u).
Proof.
  revert w. induction es as [|e es IH]; intros w Hw; [exact Hw|].
  simpl. apply IH, sound_handle, Hw.
Qed.

Lemma rank_truthy r : r ∈ VALID_RANKS -> Py.truthy r = true.
Proof.
  intros H. apply truthy_true. intros ->. revert H. unfold VALID_RANKS.
  rewrite !elem_of_cons, elem_of_nil. intuition discriminate.
Qed.

Lemma eval_get_formatted_particulars uid w rank name company unit contact :
  p_registered (profile_of w uid) = true ->
  particulars_of (profile_of w uid)
  = mkParticulars (Some rank) (Some name) (Some company) (Some unit) (Some contact) ->
  Py.truthy rank = true -> Py.truthy name = true -> Py.truthy company = true ->
  Py.truthy unit = true -> Py.truthy contact = true ->
  eval (get_formatted_particulars uid) w
  = rank +:+ " " +:+ name +:+ " - " +:+ company +:+ " - " +:+ unit +:+ " - " +:+ contact.
Proof.
  intros Hr Hp H1 H2 H3 H4 H5. unfold get_formatted_particulars.
  rewrite eval_bind, eval_get_user_particulars, Hr, Hp.
  cbn [pa_rank pa_full_name pa_company pa_unit pa_contact_number Py.truthy_opt Py.fmt].
  now rewrite H1, H2, H3, H4, H5.
Qed.



(** * The menus *)

Lemma exec_is_user_registered_registered uid w :
  p_registered (profile_of w uid) = true -> exec (is_user_registered uid) w = w.
Proof.
  intros H. unfold is_user_registered.
  now rewrite exec_bind, exec_ret, exec_get_user_profile_registered.
Qed.

Lemma sent_is_user_registered uid w : sent (exec (is_user_registered uid) w) = sent w.
Proof. apply quiet_is_user_registered. Qed.

Lemma profile_of_is_user_registered uid w u :
  profile_of (exec (is_user_registered uid) w) u = profile_of w u.
Proof. apply reading_is_user_registered. Qed.

(** X14.  The start command never touches the particulars.  For a
    registered user it greets with the formatted particulars and the
    main menu, and leaves the user idle with an empty scratch, so a draft
    in progress is dropped; for any other user it asks for the rank and
    sets [AWAITING_RANK], keeping whatever the scratch held. *)
Theorem start_command_resets w uid :
  let p := profile_of w uid in
  let w' := exec (start_command uid) w in
  let p' := profile_of w' uid in
  (forall f, get_field f p' = get_field f p) /\
  p_registered p' = p_registered p /\
  (p_registered p = true ->
   p_state p' = IDLE /\ p_temp_data p' = ∅ /\
   sent w' = sent w ++
     [ReplyText (format_welcome_back_message (eval (get_formatted_particulars uid) w))
        (Some main_menu_keyboard)]) /\
  (p_registered p = false ->
   p_state p' = AWAITING_RANK /\ p_temp_data p' = p_temp_data p /\
   sent w' = sent w ++ [ReplyText format_rank_prompt None]).
Proof.
  intros p w' p'. subst p w' p'. unfold start_command.
  rewrite exec_bind, eval_is_user_registered.
  destruct (p_registered (profile_of w uid)) eqn:Hr.
  - rewrite (exec_is_user_registered_registered _ _ Hr).
    rewrite !exec_bind. autorewrite with store.
    rewrite ?profile_of_get_formatted_particulars, ?sent_get_formatted_particulars.
    cbn [decide]. split; [now intros []|]. split; [exact Hr|].
    split; [now intros _ | discriminate].
  - rewrite !exec_bind. autorewrite with store.
    rewrite ?profile_of_is_user_registered, ?sent_is_user_registered.
    split; [now intros []|]. split; [exact Hr|].
    split; [discriminate | now intros _].
Qed.

(** X15.  The way back to the main menu is open to everyone: whoever
    presses it, registered or not and in whatever state, is left idle
    with an empty scratch and unchanged particulars, and is greeted with
    the formatted particulars, which are empty for a user who is not
    registered. *)
Theorem back_to_main_resets w uid :
  let p := profile_of w uid in
  let w' := exec (handle_callback uid "back_to_main") w in
  let p' := profile_of w' uid in
  p_state p' = IDLE /\ p_temp_data p' = ∅ /\
  (forall f, get_field f p' = get_field f p) /\
  p_registered p' = p_registered p /\
  sent w' = sent w ++
    [EditMessageText (format_welcome_back_message (eval (get_formatted_particulars uid) w))
       (Some main_menu_keyboard)] /\
  (p_registered p = false -> eval (get_formatted_particulars uid) w = "").
Proof.
  intros p w' p'. subst p w' p'.
  change (handle_callback uid "back_to_main") with (_handle_back_to_main uid).
  unfold _handle_back_to_main. rewrite !exec_bind. autorewrite with store.
  rewrite ?profile_of_get_formatted_particulars, ?sent_get_formatted_particulars.
  cbn [decide]. split; [reflexivity|]. split; [reflexivity|].
  split; [now intros []|]. split; [reflexivity|]. split; [reflexivity|].
  intros Hr. unfold get_formatted_particulars.
  now rewrite eval_bind, eval_get_user_particulars, Hr.
Qed.

Lemma field_maps_lookup pa f :
  field_state_map !! Py.replace (edit_payload f) "edit_" "" = Some (editing_state f) /\
  field_prompt_map pa !! Py.replace (edit_payload f) "edit_" ""
  = Some (edit_prompt f (get_field f (mkProfile (pa_rank pa) (pa_full_name pa)
                                        (pa_company pa) (pa_unit pa)
                                        (pa_contact_number pa) true IDLE ∅))).
Proof.
  split; [now destruct f|].
  assert (field_prompt_map pa
          = <["rank" := format_edit_rank_prompt (pa_rank pa)]>
              (<["name" := format_edit_name_prompt (pa_full_name pa)]>
                 (<["company" := format_edit_company_prompt (pa_company pa)]>
                    (<["unit" := format_edit_unit_prompt (pa_unit pa)]>
                       (<["contact" := format_edit_contact_prompt (pa_contact_number pa)]> ∅)))))
    as -> by reflexivity.
  destruct f;
    cbn [edit_payload edit_prompt get_field p_rank p_full_name p_company p_unit
           p_contact_number];
    [ change (Py.replace "edit_rank" "edit_" "") with "rank"
    | change (Py.replace "edit_name" "edit_" "") with "name"
    | change (Py.replace "edit_company" "edit_" "") with "company"
    | change (Py.replace "edit_unit" "edit_" "") with "unit"
    | change (Py.replace "edit_contact" "edit_" "") with "contact" ];
    repeat (rewrite lookup_insert_ne by discriminate); apply lookup_insert_eq.
Qed.

(** X16.  A request to edit a field, from the button of that field: a
    registered user is put in the editing state of the field, whatever
    the state before, and is shown the current value; scratch and
    particulars stay as they are.  A user who is not registered is told
    that the details cannot be retrieved, and nothing changes. *)
Theorem edit_request w uid f :
  let p := profile_of w uid in
  let w' := exec (handle_callback uid (edit_payload f)) w in
  let p' := profile_of w' uid in
  (p_registered p = true ->
   p' = assign p (SetState (editing_state f)) /\
   sent w' = sent w ++ [EditMessageText (edit_prompt f (get_field f p)) None]) /\
  (p_registered p = false ->
   p' = p /\
   sent w' = sent w ++
     [EditMessageText "Error retrieving your details. Please try again." None]).
Proof.
  intros p w' p'. subst p w' p'.
  assert (handle_callback uid (edit_payload f) = _handle_edit_field uid (edit_payload f))
    as -> by now destruct f.
  unfold _handle_edit_field. rewrite exec_bind, eval_get_user_particulars.
  destruct (p_registered (profile_of w uid)) eqn:Hr.
  - split; [intros _ | discriminate].
    destruct (field_maps_lookup (particulars_of (profile_of w uid)) f) as [-> ->].
    rewrite exec_bind. unfold edit_message_text. autorewrite with store.
    rewrite ?profile_of_get_user_particulars, ?sent_get_user_particulars.
    split; [now destruct f | now destruct f].
  - split; [discriminate | intros _].
    unfold edit_message_text. autorewrite with store.
    now rewrite ?profile_of_get_user_particulars, ?sent_get_user_particulars.
Qed.

(** X17.  Viewing the details changes no record: a registered user is
    shown the five particulars with the keyboard of the details view,
    any other user is sent to the registration. *)
Theorem my_details_reads w uid :
  let p := profile_of w uid in
  let w' := exec (handle_callback uid "my_details") w in
  (forall u, profile_of w' u = profile_of w u) /\
  (p_registered p = true ->
   exists details,
     format_details_view (Some (particulars_of p)) = Some details /\
     sent w' = sent w ++ [EditMessageText details (Some details_view_keyboard)]) /\
  (p_registered p = false ->
   sent w' = sent w ++
     [EditMessageText "Please complete registration first by using /start" None]).
Proof.
  intros p w'. subst p w'.
  change (handle_callback uid "my_details") with (_handle_my_details uid).
  split.
  - intros u. revert w u. change (reading (_handle_my_details uid)).
    unfold _handle_my_details, edit_message_text. closure.
  - unfold _handle_my_details. rewrite exec_bind, eval_is_user_registered.
    destruct (p_registered (profile_of w uid)) eqn:Hr; cbn [negb].
    + split; [intros _ | discriminate].
      rewrite exec_bind, eval_get_user_particulars.
      rewrite profile_of_is_user_registered, Hr.
      cbn [format_details_view details_lines].
      eexists. split; [reflexivity|].
      rewrite !exec_bind, exec_ret. unfold edit_message_text.
      rewrite sent_get_formatted_particulars. autorewrite with store.
      now rewrite ?sent_get_user_particulars, ?sent_is_user_registered.
    + split; [discriminate | intros _].
      unfold edit_message_text. autorewrite with store.
      now rewrite ?sent_is_user_registered.
Qed.

Lemma lookup_None_not_Some {V} (m : gmap string V) k :
  bool_decide (is_Some (m !! k)) = false -> m !! k = None.
Proof.
  intros H. apply bool_decide_eq_false in H.
  destruct (m !! k); [exfalso; apply H; eauto | reflexivity].
Qed.

(** X18.  A button press whose payload no handler accepts changes no
    record; it is either ignored or answered by one of the four error
    texts, whatever the state of the user. *)
Theorem unrecognised_payload_changes_nothing w uid data :
  recognised data = false ->
  let w' := exec (handle_callback uid data) w in
  (forall u, profile_of w' u = profile_of w u) /\
  (sent w' = sent w \/
   exists text, text ∈ callback_errors /\
     sent w' = sent w ++ [EditMessageText text None]).
Proof.
  unfold recognised. rewrite !orb_false_iff.
  intros [[[[[H1 H2] H3] H4] H5] H6]. cbv zeta.
  apply lookup_None_not_Some in H2. apply lookup_None_not_Some in H3.
  unfold handle_callback. rewrite H1, H4, H6.
  destruct (Py.startswith data "ir_type_").
  { unfold _handle_ir_type_selection. rewrite H2. split; [reflexivity|].
    right. eexists. split; [|reflexivity]. apply list_elem_of_here. }
  destruct (Py.startswith data "nature_").
  { unfold _handle_nature_type_selection. rewrite H3. split; [reflexivity|].
    right. eexists. split; [|reflexivity].
    unfold callback_errors. rewrite !elem_of_cons. tauto. }
  destruct (Py.startswith data "edit_"); [|split; [reflexivity | now left]].
  cbn [andb] in H5. apply lookup_None_not_Some in H5.
  unfold _handle_edit_field. rewrite H5.
  rewrite exec_bind, eval_get_user_particulars.
  destruct (p_registered (profile_of w uid)).
  - split; [intros u; apply profile_of_get_user_particulars|].
    right. eexists. split; [|unfold edit_message_text; autorewrite with store;
                             now rewrite ?sent_get_user_particulars].
    unfold callback_errors. rewrite !elem_of_cons. tauto.
  - split; [intros u; apply profile_of_get_user_particulars|].
    right. eexists. split; [|unfold edit_message_text; autorewrite with store;
                             now rewrite ?sent_get_user_particulars].
    unfold callback_errors. rewrite !elem_of_cons. tauto.
Qed.

(** X18 on a payload with a misspelt field. *)
Lemma unrecognised_payload_changes_nothing_witness :
  let w := run registration_events (world0 (fun _ => true)) in
  let w' := exec (handle_callback "u" "edit_email") w in
  (forall u, profile_of w' u = profile_of w u) /\
  (sent w' = sent w \/
   exists text, text ∈ callback_errors /\
     sent w' = sent w ++ [EditMessageText text None]).
Proof.
  apply (unrecognised_payload_changes_nothing _ "u" "edit_email"). reflexivity.
Defined.

Lemma buttons_ir_type :
  buttons ir_type_keyboard
  = [ mkButton "INITIAL" "ir_type_initial";
      mkButton "INITIAL & FINAL" "ir_type_initial_and_final";
      mkButton "UPDATE" "ir_type_update";
      mkButton "UPDATE & FINAL" "ir_type_update_and_final" ].
Proof. reflexivity. Qed.

Lemma buttons_nature_type :
  buttons nature_type_keyboard
  = [ mkButton "NON-TRAINING RELATED" "nature_non_training_related";
      mkButton "TRAINING RELATED" "nature_training_related" ].
Proof. reflexivity. Qed.

(** X19.  The keyboards and the dispatcher agree.  The payload that
    [get_ir_type_keyboard] derives from each label of [IR_TYPES] is a
    key of [ir_type_map] and decodes to the label on the button, and
    every key of the map is on a button; likewise for the nature types;
    and every button of the four keyboards carries a payload that
    [handle_callback] accepts. *)
Theorem keyboards_match_dispatch :
  (forall b, b ∈ buttons ir_type_keyboard ->
     b_text b ∈ IR_TYPES /\ ir_type_map !! b_callback_data b = Some (b_text b)) /\
  (forall data label, ir_type_map !! data = Some label ->
     mkButton label data ∈ buttons ir_type_keyboard) /\
  (forall b, b ∈ buttons nature_type_keyboard ->
     b_text b ∈ NATURE_TYPES /\
     nature_type_map !! b_callback_data b = Some (b_text b)) /\
  (forall data label, nature_type_map !! data = Some label ->
     mkButton label data ∈ buttons nature_type_keyboard) /\
  (forall kb b, b ∈ buttons kb -> recognised (b_callback_data b) = true).
Proof.
  split; [|split; [|split; [|split]]].
  - intros b. rewrite buttons_ir_type, !elem_of_cons, elem_of_nil.
    intros [-> | [-> | [-> | [-> | []]]]]; (split; [|reflexivity]);
      cbn [b_text]; unfold IR_TYPES; rewrite !elem_of_cons; tauto.
  - intros data label E. apply elem_of_list_to_map_2 in E.
    rewrite !elem_of_cons, elem_of_nil in E.
    rewrite buttons_ir_type, !elem_of_cons.
    destruct E as [[= -> ->] | [[= -> ->] | [[= -> ->] | [[= -> ->] | []]]]];
      solve [repeat first [left; reflexivity | right]].
  - intros b. rewrite buttons_nature_type, !elem_of_cons, elem_of_nil.
    intros [-> | [-> | []]]; (split; [|reflexivity]);
      cbn [b_text]; unfold NATURE_TYPES; rewrite !elem_of_cons; tauto.
  - intros data label E. apply elem_of_list_to_map_2 in E.
    rewrite !elem_of_cons, elem_of_nil in E.
    rewrite buttons_nature_type, !elem_of_cons.
    destruct E as [[= -> ->] | [[= -> ->] | []]];
      solve [repeat first [left; reflexivity | right]].
  - intros [] b.
    + change (buttons main_menu_keyboard) with (concat get_main_menu_keyboard).
      unfold get_main_menu_keyboard. cbn [concat app].
      rewrite !elem_of_cons, elem_of_nil. intros [-> | [-> | []]]; reflexivity.
    + change (buttons details_view_keyboard) with (concat get_details_view_keyboard).
      unfold get_details_view_keyboard. cbn [concat app].
      rewrite !elem_of_cons, elem_of_nil.
      intros [-> | [-> | [-> | [-> | [-> | [-> | []]]]]]]; reflexivity.
    + rewrite buttons_ir_type, !elem_of_cons, elem_of_nil.
      intros [-> | [-> | [-> | [-> | []]]]]; reflexivity.
    + rewrite buttons_nature_type, !elem_of_cons, elem_of_nil.
      intros [-> | [-> | []]]; reflexivity.
Qed.

(** X19 on the second button of the IR types. *)
Lemma keyboards_match_dispatch_witness :
  b_text (mkButton "INITIAL & FINAL" "ir_type_initial_and_final") ∈ IR_TYPES /\
  ir_type_map !! b_callback_data (mkButton "INITIAL & FINAL" "ir_type_initial_and_final")
  = Some (b_text (mkButton "INITIAL & FINAL" "ir_type_initial_and_final")).
Proof.
  apply (proj1 keyboards_match_dispatch).
  rewrite buttons_ir_type, !elem_of_cons. tauto.
Defined.

(** X14 on a registered user. *)
Lemma start_command_resets_witness :
  let w := run registration_events (world0 (fun _ => true)) in
  let w' := exec (start_command "u") w in
  p_state (profile_of w' "u") = IDLE /\ p_temp_data (profile_of w' "u") = ∅ /\
  sent w' = sent w ++
    [ReplyText (format_welcome_back_message (eval (get_formatted_particulars "u") w))
       (Some main_menu_keyboard)].
Proof.
  intros w.
  destruct (start_command_resets w "u") as (_ & _ & H & _).
  apply H. vm_compute. reflexivity.
Defined.

(** X15 on a user in the middle of the registration. *)
Lemma back_to_main_resets_witness :
  let w := run [StartCommand "u"; TextMessage "u" "cpt"] (world0 (fun _ => true)) in
  let w' := exec (handle_callback "u" "back_to_main") w in
  p_state (profile_of w "u") = AWAITING_NAME /\
  p_state (profile_of w' "u") = IDLE /\ p_temp_data (profile_of w' "u") = ∅ /\
  eval (get_formatted_particulars "u") w = "".
Proof.
  intros w.
  destruct (back_to_main_resets w "u") as (H1 & H2 & _ & _ & _ & H6).
  split; [vm_compute; reflexivity|].
  split; [exact H1|]. split; [exact H2|].
  apply H6. vm_compute. reflexivity.
Defined.

(** X16 on a registered user who asks to edit the unit. *)
Lemma edit_request_witness :
  let w := run registration_events (world0 (fun _ => true)) in
  let w' := exec (handle_callback "u" "edit_unit") w in
  profile_of w' "u" = assign (profile_of w "u") (SetState EDITING_UNIT) /\
  sent w' = sent w ++
    [EditMessageText (format_edit_unit_prompt (p_unit (profile_of w "u"))) None].
Proof.
  intros w.
  apply (proj1 (edit_request w "u" field_unit)). vm_compute. reflexivity.
Defined.

(** X17 on a user who is not registered. *)
Lemma my_details_reads_witness :
  let w := world0 (fun _ => true) in
  let w' := exec (handle_callback "u" "my_details") w in
  sent w' = sent w ++
    [EditMessageText "Please complete registration first by using /start" None].
Proof.
  intros w.
  destruct (my_details_reads w "u") as (_ & _ & H).
  apply H. reflexivity.
Defined.

(** * Answers *)

Section SaysFacts.
Context {A B : Type}.

Lemma says_quiet lo hi (m : M A) : quiet m -> lo = 0 -> says lo hi m.
Proof.
  intros Hm -> w. exists []. rewrite app_nil_r. split; [apply Hm | simpl; lia].
Qed.

Lemma says_quiet_bind lo hi (m : M A) (k : A -> M B) :
  quiet m -> (forall a, says lo hi (k a)) -> says lo hi (bind m k).
Proof.
  intros Hm Hk w. rewrite exec_bind.
  destruct (Hk (eval m w) (exec m w)) as (new & E & Hl).
  exists new. now rewrite E, Hm.
Qed.

Lemma says_send lo hi o : lo <= 1 <= hi -> says lo hi (send o).
Proof. intros H w. exists [o]. split; [reflexivity | exact H]. Qed.

Lemma says_send_bind lo hi o (k : unit -> M B) :
  1 <= hi -> (forall a, says (lo - 1) (hi - 1) (k a)) -> says lo hi (bind (send o) k).
Proof.
  intros H Hk w. rewrite exec_bind.
  destruct (Hk (eval (send o) w) (exec (send o) w)) as (new & E & Hl).
  exists (o :: new). rewrite E, sent_send, <- app_assoc. split; [reflexivity|].
  simpl. lia.
Qed.

End SaysFacts.

(** Count the messages along the binds. *)
Ltac says_step :=
  lazymatch goal with
  | |- forall _, _ => intro; says_step
  | |- says _ _ (bind (send _) _) => apply says_send_bind; [lia | says_step]
  | |- says _ _ (bind _ _) =>
      apply says_quiet_bind; [solve [auto with store] | says_step]
  | |- says _ _ (if ?b then _ else _) => destruct b; says_step
  | |- says _ _ (match ?x with _ => _ end) => destruct x; says_step
  | |- says _ _ (send _) => apply says_send; cbn; lia
  | |- says _ _ _ => apply says_quiet; [solve [auto with store] | reflexivity]
  end.

Lemma says_start_command uid : says 1 2 (start_command uid).
Proof. unfold_handlers. says_step. Qed.

Lemma says_handle_message uid text : says 1 2 (handle_message uid text).
Proof. unfold_handlers. says_step. Qed.

Lemma says_handle_callback uid data :
  routed data = true -> says 1 1 (handle_callback uid data).
Proof.
  unfold routed. unfold_handlers.
  destruct (String.eqb data "new_ir"); [intros _; says_step|].
  destruct (Py.startswith data "ir_type_"); [intros _; says_step|].
  destruct (Py.startswith data "nature_"); [intros _; says_step|].
  destruct (String.eqb data "my_details"); [intros _; says_step|].
  destruct (Py.startswith data "edit_"); [intros _; says_step|].
  destruct (String.eqb data "back_to_main"); [intros _; says_step|].
  discriminate.
Qed.

Lemma handle_callback_ignored uid data w :
  routed data = false -> exec (handle_callback uid data) w = w.
Proof.
  unfold routed, handle_callback.
  destruct (String.eqb data "new_ir"); [discriminate|].
  destruct (Py.startswith data "ir_type_"); [discriminate|].
  destruct (Py.startswith data "nature_"); [discriminate|].
  destruct (String.eqb data "my_details"); [discriminate|].
  destruct (Py.startswith data "edit_"); [discriminate|].
  destruct (String.eqb data "back_to_main"); [discriminate|].
  reflexivity.
Qed.

Lemma sent_handle_extends e w : exists new, sent (exec (handle e) w) = sent w ++ new.
Proof.
  destruct e as [uid | uid text | uid data]; cbn [handle].
  - destruct (says_start_command uid w) as (new & E & _). now exists new.
  - destruct (says_handle_message uid text w) as (new & E & _). now exists new.
  - destruct (routed data) eqn:Hr.
    + destruct (says_handle_callback uid data Hr w) as (new & E & _). now exists new.
    + exists []. now rewrite handle_callback_ignored, app_nil_r.
Qed.

Lemma sent_run_extends es w : exists new, sent (run es w) = sent w ++ new.
Proof.
  revert w. induction es as [|e es IH]; intros w.
  - exists []. now rewrite app_nil_r.
  - simpl. destruct (IH (exec (handle e) w)) as (new2 & E2).
    destruct (sent_handle_extends e w) as (new1 & E1).
    exists (new1 ++ new2). now rewrite E2, E1, app_assoc.
Qed.

(** X20.  The controller always answers.  A start command and a text
    message are each answered by one or two messages, and a button press
    whose payload reaches a branch of the dispatcher by exactly one;
    any other button press is ignored, leaving the world as it is.  What
    was sent before is never changed, over any sequence of events. *)
Theorem every_event_is_answered :
  (forall e w, exists new,
     sent (exec (handle e) w) = sent w ++ new /\
     match e with
     | StartCommand _ | TextMessage _ _ => 1 <= length new <= 2
     | ButtonPress _ data =>
         if routed data then length new = 1
         else new = [] /\ exec (handle e) w = w
     end) /\
  (forall es w, exists new, sent (run es w) = sent w ++ new).
Proof.
  split; [|exact sent_run_extends].
  intros [uid | uid text | uid data] w; cbn [handle].
  - apply says_start_command.
  - apply says_handle_message.
  - destruct (routed data) eqn:Hr.
    + destruct (says_handle_callback uid data Hr w) as (new & E & Hl).
      exists new. split; [exact E | lia].
    + exists []. rewrite handle_callback_ignored by exact Hr.
      now rewrite app_nil_r.
Qed.

(** * A whole report *)

Lemma new_ir_step uid w :
  p_registered (profile_of w uid) = true ->
  profile_of (exec (handle_callback uid "new_ir") w) uid
  = with_scratch (profile_of w uid) AWAITING_IR_TYPE
      (fold_left (fun t key => delete key t) ir_keys (p_temp_data (profile_of w uid))).
Proof.
  intros Hr. change (handle_callback uid "new_ir") with (_handle_new_ir uid).
  unfold _handle_new_ir. rewrite exec_bind, eval_is_user_registered, Hr. cbn [negb].
  rewrite exec_bind, profile_of_edit_message_text, profile_of_start_ir_creation.
  now rewrite reading_is_user_registered.
Qed.

Lemma ir_type_step uid data label p st t w :
  profile_of w uid = with_scratch p st t ->
  ir_type_map !! data = Some label ->
  profile_of (exec (handle_callback uid data) w) uid
  = with_scratch p AWAITING_NATURE_TYPE (<["ir_type" := label]> t).
Proof.
  intros Hp E. destruct (ir_type_map_keys _ _ E) as (Hl & H1 & H2).
  unfold handle_callback. rewrite H1, H2.
  now rewrite (ir_type_selection_effect _ _ _ _ E Hl), Hp.
Qed.

Lemma nature_type_step uid data label p st t w :
  profile_of w uid = with_scratch p st t ->
  nature_type_map !! data = Some label ->
  profile_of (exec (handle_callback uid data) w) uid
  = with_scratch p AWAITING_DATE_TIME (<["nature_type" := label]> t).
Proof.
  intros Hp E. destruct (nature_type_map_keys _ _ E) as (Hl & H1 & H2 & H3).
  unfold handle_callback. rewrite H1, H2, H3.
  now rewrite (nature_type_selection_effect _ _ _ _ E Hl), Hp.
Qed.

(** A text message runs the handler of the current state on the trimmed
    text, in a world with the same records and messages. *)
Lemma handle_message_in_state uid text p st t w :
  profile_of w uid = with_scratch p st t ->
  exists w0,
    profile_of w0 uid = with_scratch p st t /\ sent w0 = sent w /\
    exec (handle_message uid text) w
    = exec (match st with
            | AWAITING_DATE_TIME => _handle_date_time_input uid (Py.strip text)
            | AWAITING_SERVICEMAN => _handle_serviceman_input uid (Py.strip text)
            | AWAITING_LOCATION => _handle_location_input uid (Py.strip text)
            | AWAITING_INJURY => _handle_injury_input uid (Py.strip text)
            | AWAITING_DESCRIPTION => _handle_description_input uid (Py.strip text)
            | AWAITING_FOLLOWUP => _handle_followup_input uid (Py.strip text)
            | _ => handle_message uid text
            end) w0.
Proof.
  intros Hp.
  assert (p_state (profile_of w uid) = st) as Hs by now rewrite Hp.
  destruct st;
    try (exists w; split; [exact Hp | split; reflexivity]);
    (exists (exec (get_user_state uid) w);
     split; [now rewrite profile_of_get_user_state|];
     split; [apply sent_get_user_state|];
     unfold handle_message; now rewrite exec_bind, eval_get_user_state, Hs).
Qed.

Lemma date_time_step uid text date time err p t w :
  profile_of w uid = with_scratch p AWAITING_DATE_TIME t ->
  validate_date_time (Py.strip text) = Some (true, date, time, err) ->
  profile_of (exec (handle_message uid text) w) uid
  = with_scratch p AWAITING_SERVICEMAN
      (<["time_incident" := time]> (<["date_incident" := date]> t)).
Proof.
  intros Hp Hv. destruct (handle_message_in_state uid text _ _ _ _ Hp) as (w0 & H0 & _ & ->).
  unfold _handle_date_time_input. rewrite Hv.
  rewrite !exec_bind. autorewrite with store. now rewrite H0.
Qed.

Lemma serviceman_step uid text details err p t w :
  profile_of w uid = with_scratch p AWAITING_SERVICEMAN t ->
  validate_serviceman_details (Py.strip text) = Some (true, details, err) ->
  profile_of (exec (handle_message uid text) w) uid
  = with_scratch p AWAITING_LOCATION (<["serviceman_details" := details]> t).
Proof.
  intros Hp Hv. destruct (handle_message_in_state uid text _ _ _ _ Hp) as (w0 & H0 & _ & ->).
  unfold _handle_serviceman_input. rewrite Hv.
  rewrite !exec_bind. autorewrite with store. now rewrite H0.
Qed.

Lemma ir_content_step key prompt next uid input p st t w :
  next <> IDLE ->
  profile_of w uid = with_scratch p st t ->
  fst (validate_ir_content input) = true ->
  profile_of (exec (ir_content_input key prompt next uid input) w) uid
  = with_scratch p next (<[key := Py.strip input]> t).
Proof.
  intros Hn Hp Hv. unfold ir_content_input.
  destruct (validate_ir_content input) as [is_valid e]. simpl in Hv. subst is_valid.
  rewrite !exec_bind. autorewrite with store. rewrite Hp.
  destruct (decide (next = IDLE)); [contradiction | reflexivity].
Qed.

Lemma location_step uid text p t w :
  profile_of w uid = with_scratch p AWAITING_LOCATION t ->
  fst (validate_ir_content (Py.strip text)) = true ->
  profile_of (exec (handle_message uid text) w) uid
  = with_scratch p AWAITING_INJURY (<["location" := Py.strip text]> t).
Proof.
  intros Hp Hv. destruct (handle_message_in_state uid text _ _ _ _ Hp) as (w0 & H0 & _ & ->).
  unfold _handle_location_input.
  erewrite ir_content_step; [|discriminate | exact H0 | exact Hv].
  now rewrite strip_idem.
Qed.

Lemma injury_step uid text p t w :
  profile_of w uid = with_scratch p AWAITING_INJURY t ->
  fst (validate_ir_content (Py.strip text)) = true ->
  profile_of (exec (handle_message uid text) w) uid
  = with_scratch p AWAITING_DESCRIPTION (<["injury_damage" := Py.strip text]> t).
Proof.
  intros Hp Hv. destruct (handle_message_in_state uid text _ _ _ _ Hp) as (w0 & H0 & _ & ->).
  unfold _handle_injury_input.
  erewrite ir_content_step; [|discriminate | exact H0 | exact Hv].
  now rewrite strip_idem.
Qed.

Lemma description_step_open uid text p t w :
  profile_of w uid = with_scratch p AWAITING_DESCRIPTION t ->
  fst (validate_ir_content (Py.strip text)) = true ->
  is_final t = false ->
  profile_of (exec (handle_message uid text) w) uid
  = with_scratch p AWAITING_FOLLOWUP (<["description" := Py.strip text]> t).
Proof.
  intros Hp Hv Hf. destruct (handle_message_in_state uid text _ _ _ _ Hp) as (w0 & H0 & _ & ->).
  unfold _handle_description_input.
  destruct (validate_ir_content (Py.strip text)) as [is_valid e]. simpl in Hv. subst is_valid.
  rewrite !exec_bind, eval_get_user_temp_data, profile_of_store_ir_data, H0.
  cbn [p_temp_data assign with_scratch]. rewrite lookup_insert_ne by done.
  rewrite final_test. fold (is_final t). rewrite Hf.
  rewrite exec_bind. autorewrite with store. rewrite H0.
  now rewrite strip_idem.
Qed.

(** The last step: the report is rendered from the scratch with the
    last value stored, and the record is left idle and empty. *)
Lemma report_step uid key v p st t w :
  profile_of w uid = with_scratch p st t ->
  p_registered p = true ->
  let w' := exec (store_ir_data uid key v ;; _generate_comprehensive_ir_report uid) w in
  profile_of w' uid = with_scratch p IDLE ∅ /\
  exists report,
    generate_comprehensive_ir_report (draft_of (<[key := v]> t)) (Some (particulars_of p))
    = Some report /\
    sent w' = sent w ++ report_messages report.
Proof.
  intros Hp Hr w'. subst w'.
  destruct (report_after_store uid key v w) as (_ & Hreg & _).
  rewrite Hp in Hreg. destruct (Hreg Hr) as (report & E & Hs).
  split; [|now exists report].
  rewrite exec_bind, generate_report_state, profile_of_store_ir_data, Hp.
  reflexivity.
Qed.

Lemma description_step_final uid text p t w :
  profile_of w uid = with_scratch p AWAITING_DESCRIPTION t ->
  p_registered p = true ->
  fst (validate_ir_content (Py.strip text)) = true ->
  is_final t = true ->
  let w' := exec (handle_message uid text) w in
  profile_of w' uid = with_scratch p IDLE ∅ /\
  exists report,
    generate_comprehensive_ir_report
      (draft_of (<["followup" := "This serves as a final report"]>
                   (<["description" := Py.strip text]> t)))
      (Some (particulars_of p)) = Some report /\
    sent w' = sent w ++ report_messages report.
Proof.
  intros Hp Hr Hv Hf w'. subst w'.
  destruct (handle_message_in_state uid text _ _ _ _ Hp) as (w0 & H0 & Hs0 & ->).
  unfold _handle_description_input.
  destruct (validate_ir_content (Py.strip text)) as [is_valid e]. simpl in Hv. subst is_valid.
  rewrite !exec_bind, eval_get_user_temp_data, profile_of_store_ir_data, H0.
  cbn [p_temp_data assign with_scratch]. rewrite lookup_insert_ne by done.
  rewrite final_test. fold (is_final t). rewrite Hf, exec_bind.
  set (W := exec (get_user_temp_data uid "ir_type")
              (exec (store_ir_data uid "description" (Py.strip (Py.strip text))) w0)).
  assert (profile_of W uid
          = with_scratch p AWAITING_DESCRIPTION (<["description" := Py.strip text]> t)) as HW.
  { unfold W. autorewrite with store. now rewrite H0, strip_idem. }
  assert (sent W = sent w) as HsW.
  { unfold W. autorewrite with store. exact Hs0. }
  pose proof (report_step uid "followup" "This serves as a final report" _ _ _ W HW Hr)
    as H.
  cbv zeta in H. rewrite HsW, exec_bind in H. exact H.
Qed.

Lemma followup_step uid text p t w :
  profile_of w uid = with_scratch p AWAITING_FOLLOWUP t ->
  p_registered p = true ->
  fst (validate_ir_content (Py.strip text)) = true ->
  let w' := exec (handle_message uid text) w in
  profile_of w' uid = with_scratch p IDLE ∅ /\
  exists report,
    generate_comprehensive_ir_report (draft_of (<["followup" := Py.strip text]> t))
      (Some (particulars_of p)) = Some report /\
    sent w' = sent w ++ report_messages report.
Proof.
  intros Hp Hr Hv w'. subst w'.
  destruct (handle_message_in_state uid text _ _ _ _ Hp) as (w0 & H0 & Hs0 & ->).
  unfold _handle_followup_input.
  destruct (validate_ir_content (Py.strip text)) as [is_valid e]. simpl in Hv. subst is_valid.
  pose proof (report_step uid "followup" (Py.strip (Py.strip text)) _ _ _ w0 H0 Hr) as H.
  cbv zeta in H. rewrite Hs0, strip_idem in H. rewrite strip_idem. exact H.
Qed.

Ltac lookup_chain :=
  repeat first [rewrite lookup_insert_eq | rewrite lookup_insert_ne by done].

Lemma draft_of_dialogue t0 label nature date time details loc inj desc fu :
  draft_of (<["followup" := fu]> (<["description" := desc]>
     (<["injury_damage" := inj]> (<["location" := loc]>
        (<["serviceman_details" := details]> (<["time_incident" := time]>
           (<["date_incident" := date]> (<["nature_type" := nature]>
              (<["ir_type" := label]> t0)))))))))
  = mkIrData label nature date time details loc inj desc fu.
Proof. unfold draft_of. lookup_chain. reflexivity. Qed.

(** X21.  A whole report.  A registered user, starting from any state and
    any scratch, who asks for a new report, selects a type and a nature
    and sends a date and time, serviceman details, a location, an injury
    and a description that all validate (and, for a type that is not
    final, a follow-up that validates) ends idle with an empty scratch
    and unchanged particulars; the last two messages carry the report
    rendered from exactly the values selected and validated, with the
    fixed follow-up sentence for a final type. *)
Theorem report_dialogue_completes w uid type_payload type_label nature_payload
    nature_label date_time date time serviceman details location injury
    description followup_text :
  let p := profile_of w uid in
  let final := Py.contains "FINAL" type_label in
  p_registered p = true ->
  ir_type_map !! type_payload = Some type_label ->
  nature_type_map !! nature_payload = Some nature_label ->
  (exists err, validate_date_time (Py.strip date_time) = Some (true, date, time, err)) ->
  (exists err,
     validate_serviceman_details (Py.strip serviceman) = Some (true, details, err)) ->
  fst (validate_ir_content (Py.strip location)) = true ->
  fst (validate_ir_content (Py.strip injury)) = true ->
  fst (validate_ir_content (Py.strip description)) = true ->
  (final = false -> fst (validate_ir_content (Py.strip followup_text)) = true) ->
  let events :=
    report_dialogue uid type_payload nature_payload date_time serviceman location
      injury description
    ++ (if final then [] else [TextMessage uid followup_text]) in
  let draft :=
    mkIrData type_label nature_label date time details (Py.strip location)
      (Py.strip injury) (Py.strip description)
      (if final then "This serves as a final report" else Py.strip followup_text) in
  let w' := run events w in
  profile_of w' uid = with_scratch p IDLE ∅ /\
  exists report earlier,
    generate_comprehensive_ir_report draft (Some (particulars_of p)) = Some report /\
    sent w' = sent w ++ earlier ++ report_messages report.
Proof.
  intros p final Hr Ht Hn [e1 Hd] [e2 Hs] Hl Hi Hdesc Hfu events draft w'.
  subst events w'.
  set (t0 := fold_left (fun t key => delete key t) ir_keys (p_temp_data p)).
  set (t7 := <["injury_damage" := Py.strip injury]> (<["location" := Py.strip location]>
     (<["serviceman_details" := details]> (<["time_incident" := time]>
        (<["date_incident" := date]> (<["nature_type" := nature_label]>
           (<["ir_type" := type_label]> t0))))))).
  set (es7 := [ ButtonPress uid "new_ir"; ButtonPress uid type_payload;
                ButtonPress uid nature_payload; TextMessage uid date_time;
                TextMessage uid serviceman; TextMessage uid location;
                TextMessage uid injury ]).
  assert (profile_of (run es7 w) uid = with_scratch p AWAITING_DESCRIPTION t7) as H7.
  { unfold es7. cbn [run handle].
    apply injury_step; [|exact Hl || exact Hi].
    apply location_step; [|exact Hl].
    eapply serviceman_step; [|exact Hs].
    eapply date_time_step; [|exact Hd].
    eapply nature_type_step; [|exact Hn].
    eapply ir_type_step; [|exact Ht].
    now apply new_ir_step. }
  destruct (sent_run_extends es7 w) as (new7 & E7).
  assert (is_final t7 = final) as Hfin.
  { unfold is_final, t7. now lookup_chain. }
  assert (forall es,
            run (report_dialogue uid type_payload nature_payload date_time serviceman
                   location injury description ++ es) w
            = run es (exec (handle_message uid description) (run es7 w))) as Hrun.
  { intros es. reflexivity. }
  rewrite Hrun. clear Hrun.
  destruct final eqn:Hf.
  - cbn [run].
    destruct (description_step_final uid description p t7 _ H7 Hr Hdesc Hfin)
      as (Hp & report & Hrep & Hsent).
    split; [exact Hp|]. exists report, new7. split.
    + rewrite <- Hrep. f_equal. unfold draft, t7. now rewrite draft_of_dialogue.
    + now rewrite Hsent, E7, app_assoc.
  - cbn [run handle].
    pose proof (description_step_open uid description p t7 _ H7 Hdesc Hfin) as H8.
    destruct (sent_handle_extends (TextMessage uid description) (run es7 w))
      as (new8 & E8). cbn [handle] in E8.
    destruct (followup_step uid followup_text p _ _ H8 Hr (Hfu eq_refl))
      as (Hp & report & Hrep & Hsent).
    split; [exact Hp|]. exists report, (new7 ++ new8). split.
    + rewrite <- Hrep. f_equal. unfold draft, t7. now rewrite draft_of_dialogue.
    + now rewrite Hsent, E8, E7, !app_assoc.
Qed.

(** X21 for a registered user who files a final report. *)
Lemma report_dialogue_completes_witness :
  let w := run registration_events (world0 (fun _ => true)) in
  let w' :=
    run (report_dialogue "u" "ir_type_initial_and_final" "nature_training_related"
           "160625 1730HRS" "t0123456d/pte tan/s1234/nsf/PES B1" " Camp "
           "Sprained ankle" "Fell during training" ++ []) w in
  profile_of w' "u" = with_scratch (profile_of w "u") IDLE ∅ /\
  exists report earlier,
    generate_comprehensive_ir_report
      (mkIrData "INITIAL & FINAL" "TRAINING RELATED" "160625" "1730"
         "T/0123456D/PTE TAN/S1234/NSF/PES B1" "Camp" "Sprained ankle"
         "Fell during training" "This serves as a final report")
      (Some (particulars_of (profile_of w "u"))) = Some report /\
    sent w' = sent w ++ earlier ++ report_messages report.
Proof.
  intros w.
  apply (report_dialogue_completes w "u" "ir_type_initial_and_final" "INITIAL & FINAL"
           "nature_training_related" "TRAINING RELATED" "160625 1730HRS" "160625" "1730"
           "t0123456d/pte tan/s1234/nsf/PES B1" "T/0123456D/PTE TAN/S1234/NSF/PES B1"
           " Camp " "Sprained ankle" "Fell during training" "").
  - vm_compute. reflexivity.
  - reflexivity.
  - reflexivity.
  - exists "". reflexivity.
  - exists "". reflexivity.
  - reflexivity.
  - reflexivity.
  - reflexivity.
  - discriminate.
Defined.

(** * The debugging views *)

Lemma eval_get_user_profile_summary uid w :
  eval (get_user_profile_summary uid) w
  = mkProfileSummary (p_registered (profile_of w uid)) (p_state (profile_of w uid))
      (negb (bool_decide (p_temp_data (profile_of w uid) = ∅)))
      (if p_registered (profile_of w uid)
       then Some (eval (get_formatted_particulars uid) w) else None).
Proof.
  unfold get_user_profile_summary. rewrite !eval_bind, eval_ret, eval_get_user_profile.
  destruct (p_registered (profile_of w uid)) eqn:Hr.
  - rewrite eval_bind, eval_ret.
    now rewrite exec_get_user_profile_registered.
  - now rewrite eval_ret.
Qed.

Lemma active_count_zero w :
  eval get_active_users_count w = 0 ->
  forall u p, users_data w !! u = Some p -> p_state p = IDLE.
Proof.
  unfold eval, get_active_users_count. cbn [fst]. intros H u p Hl.
  apply length_zero_iff_nil in H.
  destruct (decide (p_state p = IDLE)) as [|Hne]; [assumption|].
  exfalso.
  assert (p ∈ filter (fun profile => p_state profile <> IDLE)
                (map snd (map_to_list (users_data w)))) as Hin.
  { apply list_elem_of_filter. split; [exact Hne|].
    apply list_elem_of_fmap. exists (u, p). split; [reflexivity|].
    now apply elem_of_map_to_list. }
  rewrite H in Hin. now apply elem_of_nil in Hin.
Qed.

(** X22.  The debugging views agree with the invariants of the store.
    After any sequence of events from an empty store, the summary of a
    user reports scratch data only for a user who is not idle, and the
    formatted particulars, never empty, exactly for a registered user;
    [get_all_user_states] reports the state of each record; and when
    [get_active_users_count] is zero every scratch is empty. *)
Theorem debugging_views_consistent es ok u :
  let w := run es (world0 ok) in
  let summary := eval (get_user_profile_summary u) w in
  (s_has_temp_data summary = true -> s_state summary <> IDLE) /\
  (s_registered summary = true ->
   exists formatted, s_particulars summary = Some formatted /\ formatted <> "") /\
  (s_registered summary = false -> s_particulars summary = None) /\
  (forall p, users_data w !! u = Some p ->
     eval get_all_user_states w !! u = Some (p_state p)) /\
  (eval get_active_users_count w = 0 -> p_temp_data (profile_of w u) = ∅).
Proof.
  intros w summary. subst summary. rewrite eval_get_user_profile_summary.
  cbn [s_has_temp_data s_state s_registered s_particulars].
  assert (idle_scratch_empty w) as Hidle.
  { apply idle_scratch_empty_run. intros u' p Hl. simpl in Hl.
    now rewrite lookup_empty in Hl. }
  assert (sound (profile_of w u)) as [_ Hp].
  { apply sound_run. intros u'. unfold profile_of, world0. cbn [users_data].
    rewrite lookup_empty. apply sound_default. }
  split; [|split; [|split; [|split]]].
  - intros Ht Hs. apply (tidy_profile_of w u Hidle) in Hs.
    rewrite Hs in Ht. now rewrite bool_decide_eq_true_2 in Ht.
  - intros Hr. rewrite Hr. eexists. split; [reflexivity|].
    destruct (Hp Hr) as (r & n & c & un & t & E & Hr' & Hn & Hc & Hu & Ht).
    rewrite (eval_get_formatted_particulars u w r n c un t Hr E).
    + destruct r; [|discriminate]. apply rank_truthy in Hr'. discriminate.
    + now apply rank_truthy.
    + apply truthy_true, Hn.
    + apply truthy_true, Hc.
    + apply truthy_true, Hu.
    + destruct Ht as (c0 & d & -> & _). reflexivity.
  - now intros ->.
  - intros p Hl. unfold eval, get_all_user_states. cbn [fst].
    now rewrite lookup_fmap, Hl.
  - intros H0. unfold profile_of.
    destruct (users_data w !! u) as [p|] eqn:Hl; [|reflexivity].
    cbn [default]. apply (Hidle u p Hl). now apply (active_count_zero w H0 u).
Qed.

(** X22 on the registration dialogue of the examples. *)
Lemma debugging_views_consistent_witness :
  let w := run registration_events (world0 (fun _ => true)) in
  exists formatted,
    s_particulars (eval (get_user_profile_summary "u") w) = Some formatted /\
    formatted <> "".
Proof.
  intros w.
  destruct (debugging_views_consistent registration_events (fun _ => true) "u")
    as (_ & H & _).
  apply H. vm_compute. reflexivity.
Defined.
